(** * Label-format validation and repair (label_format_fix.py)

    A shallow embedding of [fix_label_format], [fix_all_labels], the
    counting loops of [verify_fixed_format] and [detect_annotation_type],
    and [analyze_empty_labels] of label_issue_fix.py, together with the
    Python built-ins they rely on ([str.strip], [str.split],
    [str.replace], [int], [float], the [.6f] format), and the properties
    of the label-repair engine proved about them.

    Conventions of the embedding.
    - A Python [str] is a [string]; every character stands for one code
      point in the range U+0000..U+00FF.
    - A Python [int] is a [Z]; a Python [float] is a binary64 value, kept
      as sign, integer significand and binary exponent ([pyfloat]).
    - The file system is a finite map from paths to files; the text of a
      file is what [f.read()] returns for it. *)

From Stdlib Require Import ZArith Ascii String Lia List Bool.
From Stdlib Require Import Numbers.DecimalString.
From Stdlib Require Import QArith Qabs Qpower.
From stdpp Require Import gmap strings list.

Local Open Scope Z_scope.

(** ** Python strings *)

Module PyStr.

Definition ord (c : ascii) : N := N_of_ascii c.

(** [str.isspace] for one code point below 256: TAB..CR, FS..US, space,
    NEL (U+0085) and NBSP (U+00A0). *)
Definition isspace (c : ascii) : bool :=
  let n := ord c in
  (((9 <=? n) && (n <=? 13)) || ((28 <=? n) && (n <=? 32))
   || (n =? 133) || (n =? 160))%N.

Definition nl : ascii := "010"%char.
Definition backslash : ascii := "\"%char.

Definition is_empty (s : string) : bool :=
  match s with EmptyString => true | String _ _ => false end.

(** [s.lstrip()], [s.rstrip()], [s.strip()] *)
Fixpoint lstrip (s : string) : string :=
  match s with
  | EmptyString => EmptyString
  | String c r => if isspace c then lstrip r else s
  end.

Fixpoint rstrip (s : string) : string :=
  match s with
  | EmptyString => EmptyString
  | String c r =>
      let r' := rstrip r in
      if is_empty r' && isspace c then EmptyString else String c r'
  end.

Definition strip (s : string) : string := rstrip (lstrip s).

(** Put [c] in front of the first string of [l]. *)
Definition cons_hd (c : ascii) (l : list string) : list string :=
  match l with
  | [] => [String c EmptyString]
  | h :: t => String c h :: t
  end.

(** [s.split(sep)] for a one-character separator: the result is never
    empty, and two adjacent separators give an empty segment. *)
Fixpoint split_char (sep : ascii) (s : string) : list string :=
  match s with
  | EmptyString => [EmptyString]
  | String c r =>
      if Ascii.eqb c sep then EmptyString :: split_char sep r
      else cons_hd c (split_char sep r)
  end.

(** [s.split()]: the maximal runs of non-whitespace characters. *)
Fixpoint split (s : string) : list string :=
  match s with
  | EmptyString => []
  | String c r =>
      if isspace c then split r
      else match r with
           | EmptyString => [String c EmptyString]
           | String c' _ =>
               if isspace c' then String c EmptyString :: split r
               else cons_hd c (split r)
           end
  end.

(** [s.replace(old, new)] for a non-empty [old]: occurrences are replaced
    from left to right and do not overlap. [skip] counts the characters
    of the occurrence just replaced that are still to be passed over. *)
Fixpoint replace_from (old new : string) (skip : nat) (s : string) : string :=
  match s with
  | EmptyString => EmptyString
  | String c r =>
      match skip with
      | S k => replace_from old new k r
      | O =>
          if String.prefix old s
          then new +:+ replace_from old new (Nat.pred (String.length old)) r
          else String c (replace_from old new O r)
      end
  end.

Definition replace (old new s : string) : string := replace_from old new O s.

(** [sep.join(l)] *)
Definition join (sep : string) (l : list string) : string := String.concat sep l.

(** [sub in s] *)
Fixpoint contains (sub s : string) : bool :=
  String.prefix sub s ||
  match s with
  | EmptyString => false
  | String _ r => contains sub r
  end.

(** [f.readlines()] on the text of a file: the lines with their
    terminating newline, the last one possibly without. *)
Fixpoint readlines (s : string) : list string :=
  match s with
  | EmptyString => []
  | String c r =>
      if Ascii.eqb c nl then String c EmptyString :: readlines r
      else cons_hd c (readlines r)
  end.

End PyStr.

Definition NL : string := String PyStr.nl EmptyString.

(** ** Python numbers *)

Module PyNum.

(** *** Decimal digits *)

Definition is_digit (c : ascii) : bool :=
  let n := PyStr.ord c in ((48 <=? n) && (n <=? 57))%N.

Definition digit_val (c : ascii) : Z := Z.of_N (PyStr.ord c) - 48.

Definition digit_char (d : Z) : ascii := ascii_of_N (Z.to_N (d + 48)).

(** Value of a digit sequence, most significant digit first. *)
Definition digits_value (ds : list Z) : Z :=
  fold_left (fun acc d => 10 * acc + d) ds 0.

Fixpoint string_of_digits (ds : list Z) : string :=
  match ds with
  | [] => EmptyString
  | d :: r => String (digit_char d) (string_of_digits r)
  end.

(** The longest prefix of digits, as values, and what follows it. *)
Fixpoint span_digits (s : string) : list Z * string :=
  match s with
  | EmptyString => ([], EmptyString)
  | String c r =>
      if is_digit c
      then let '(ds, rest) := span_digits r in (digit_val c :: ds, rest)
      else ([], s)
  end.

(** *** Preparation of the argument of [int] and [float]

    Both first map the string to ASCII: an all-ASCII string is taken as it
    is; otherwise every non-ASCII white-space character becomes a space
    and the string is cut after a [?] put in place of the first other
    non-ASCII character (below U+0100 no non-ASCII character is a decimal
    digit).  Then the C notion of white space (TAB..CR and space) is
    stripped from both ends. *)

Definition is_ascii (c : ascii) : bool := (PyStr.ord c <? 128)%N.

Fixpoint all_chars (p : ascii -> bool) (s : string) : bool :=
  match s with
  | EmptyString => true
  | String c r => p c && all_chars p r
  end.

Fixpoint to_ascii_from (s : string) : string :=
  match s with
  | EmptyString => EmptyString
  | String c r =>
      if (PyStr.ord c <? 127)%N then String c (to_ascii_from r)
      else if PyStr.isspace c then String " " (to_ascii_from r)
      else String "?" EmptyString
  end.

Definition to_ascii (s : string) : string :=
  if all_chars is_ascii s then s else to_ascii_from s.

Definition c_isspace (c : ascii) : bool :=
  let n := PyStr.ord c in (((9 <=? n) && (n <=? 13)) || (n =? 32))%N.

Fixpoint c_lstrip (s : string) : string :=
  match s with
  | EmptyString => EmptyString
  | String c r => if c_isspace c then c_lstrip r else s
  end.

Fixpoint c_rstrip (s : string) : string :=
  match s with
  | EmptyString => EmptyString
  | String c r =>
      let r' := c_rstrip r in
      if PyStr.is_empty r' && c_isspace c then EmptyString else String c r'
  end.

Definition prepare (s : string) : string := c_rstrip (c_lstrip (to_ascii s)).

(** An optional sign: [true] for a minus. *)
Definition take_sign (s : string) : bool * string :=
  match s with
  | String "+" r => (false, r)
  | String "-" r => (true, r)
  | _ => (false, s)
  end.

(** *** [int(s)]

    [None] stands for [ValueError]. After the sign come digits, where
    single underscores may stand between two digits.  With the default
    interpreter settings a literal of more than 4300 digits is refused. *)

Fixpoint int_digits (after_digit : bool) (s : string) : option (list Z) :=
  match s with
  | EmptyString => if after_digit then Some [] else None
  | String c r =>
      if is_digit c
      then match int_digits true r with
           | Some ds => Some (digit_val c :: ds)
           | None => None
           end
      else if Ascii.eqb c "_"
      then (if after_digit then int_digits false r else None)
      else None
  end.

Definition int_max_str_digits : nat := 4300.

Definition py_int (s : string) : option Z :=
  let '(neg, body) := take_sign (prepare s) in
  match int_digits false body with
  | Some ds =>
      if (int_max_str_digits <? length ds)%nat then None
      else Some (if neg then - digits_value ds else digits_value ds)
  | None => None
  end.

(** [str(i)], which is also what an f-string prints for an [int]. *)
Definition str_of_int (i : Z) : string := NilZero.string_of_int (Z.to_int i).

(** *** Floats

    A binary64 value: a NaN, an infinity, or the finite number
    [(-1)^neg * m * 2^e]; both zeros have [m = 0].  Comparison and
    printing only look at the number denoted, so a value is not required
    to be normalised. *)

Inductive pyfloat : Type :=
| F_nan
| F_inf (neg : bool)
| F_fin (neg : bool) (m : N) (e : Z).

(** Round the fraction [a / b] ([0 <= a], [0 < b]) to the nearest integer,
    a tie to the even one. *)
Definition rne (a b : Z) : Z :=
  let q := a / b in
  let r := a mod b in
  match 2 * r ?= b with
  | Lt => q
  | Gt => q + 1
  | Eq => if Z.even q then q else q + 1
  end.

(** [n / d < 2^k] *)
Definition ratio_lt_pow2 (n d k : Z) : bool :=
  if 0 <=? k then n <? d * 2 ^ k else n * 2 ^ (- k) <? d.

(** The [g] with [2^(g-1) <= n / d < 2^g], for [0 < n] and [0 < d]. *)
Definition mag (n d : Z) : Z :=
  let g0 := Z.log2 n - Z.log2 d in
  if ratio_lt_pow2 n d g0 then g0 else g0 + 1.

(** The binary64 nearest to [n / d] ([0 <= n], [0 < d]), ties to even:
    53 significant bits, least exponent -1074, infinity from 2^1024 on. *)
Definition b64_round (neg : bool) (n d : Z) : pyfloat :=
  if n =? 0 then F_fin neg 0 0
  else
    let e := Z.max (mag n d - 53) (- 1074) in
    let m := if 0 <=? e then rne n (d * 2 ^ e) else rne (n * 2 ^ (- e)) d in
    if 1024 <=? Z.log2 m + e then F_inf neg else F_fin neg (Z.to_N m) e.

(** Underscores in the argument of [float]: allowed only between two
    digits, and dropped.  [prev] is the character before [s]. *)
Fixpoint drop_underscores (prev : ascii) (s : string) : option string :=
  match s with
  | EmptyString => if Ascii.eqb prev "_" then None else Some EmptyString
  | String c r =>
      if Ascii.eqb c "_"
      then (if is_digit prev then drop_underscores c r else None)
      else if Ascii.eqb prev "_" && negb (is_digit c) then None
      else match drop_underscores c r with
           | Some r' => Some (String c r')
           | None => None
           end
  end.

Definition lower (c : ascii) : ascii :=
  let n := PyStr.ord c in
  if ((65 <=? n) && (n <=? 90))%N then ascii_of_N (n + 32) else c.

Fixpoint lower_str (s : string) : string :=
  match s with
  | EmptyString => EmptyString
  | String c r => String (lower c) (lower_str r)
  end.

(** A decimal literal without sign: digits, an optional point and more
    digits, at least one digit in all, and an optional exponent.  The
    result is the digits before the point, those after it and the
    exponent.  Anything left over makes the literal invalid. *)
Definition parse_decimal (s : string) : option (list Z * list Z * Z) :=
  let '(ip, r1) := span_digits s in
  let '(fp, r2) :=
    match r1 with
    | String "." r => span_digits r
    | _ => ([], r1)
    end in
  match ip ++ fp with
  | [] => None
  | _ :: _ =>
      match r2 with
      | EmptyString => Some (ip, fp, 0)
      | String c r3 =>
          if Ascii.eqb (lower c) "e"
          then
            let '(eneg, r4) := take_sign r3 in
            match span_digits r4 with
            | ((_ :: _) as ed, EmptyString) =>
                Some (ip, fp, if eneg then - digits_value ed else digits_value ed)
            | _ => None
            end
          else None
      end
  end.

(** The binary64 for the decimal [digits(ip ++ fp) * 10^(ex - |fp|)]. *)
Definition decimal_to_float (neg : bool) (ip fp : list Z) (ex : Z) : pyfloat :=
  let n := digits_value (ip ++ fp) in
  let e10 := ex - Z.of_nat (length fp) in
  if 0 <=? e10 then b64_round neg (n * 10 ^ e10) 1
  else b64_round neg n (10 ^ (- e10)).

(** [float(s)]; [None] stands for [ValueError]. *)
Definition py_float (s : string) : option pyfloat :=
  match drop_underscores "000" (prepare s) with
  | None => None
  | Some t =>
      let '(neg, body) := take_sign t in
      match parse_decimal body with
      | Some (ip, fp, ex) => Some (decimal_to_float neg ip fp ex)
      | None =>
          let w := lower_str body in
          if String.eqb w "inf" || String.eqb w "infinity" then Some (F_inf neg)
          else if String.eqb w "nan" then Some F_nan
          else None
      end
  end.

(** [i <= x] and [x <= i] for an [int] [i] and a [float] [x]: Python
    compares the exact values; a NaN compares false. *)
Definition signed (neg : bool) (m : N) : Z :=
  if neg then - Z.of_N m else Z.of_N m.

Definition int_le_float (i : Z) (x : pyfloat) : bool :=
  match x with
  | F_nan => false
  | F_inf neg => negb neg
  | F_fin neg m e =>
      if 0 <=? e then i <=? signed neg m * 2 ^ e
      else i * 2 ^ (- e) <=? signed neg m
  end.

Definition float_le_int (x : pyfloat) (i : Z) : bool :=
  match x with
  | F_nan => false
  | F_inf neg => neg
  | F_fin neg m e =>
      if 0 <=? e then signed neg m * 2 ^ e <=? i
      else signed neg m <=? i * 2 ^ (- e)
  end.

(** *** [f"{x:.6f}"]

    The exact value is rounded to six decimals, ties to even; the sign of
    a negative value is kept even when it rounds to zero. *)

Definition digits6 (n : Z) : list Z :=
  [n / 100000 mod 10; n / 10000 mod 10; n / 1000 mod 10;
   n / 100 mod 10; n / 10 mod 10; n mod 10].

Definition micro (m : N) (e : Z) : Z :=
  if 0 <=? e then Z.of_N m * 2 ^ e * 1000000
  else rne (Z.of_N m * 1000000) (2 ^ (- e)).

Definition format6 (x : pyfloat) : string :=
  match x with
  | F_nan => "nan"
  | F_inf neg => if neg then "-inf" else "inf"
  | F_fin neg m e =>
      let u := micro m e in
      (if neg then "-" else EmptyString)
        +:+ str_of_int (u / 1000000) +:+ "."
        +:+ string_of_digits (digits6 (u mod 1000000))
  end.

End PyNum.

(** ** The file system

    A file either yields its text when read or makes [open]/[read] raise
    an exception with a given message.  Writing may raise at two places:
    [open(path, 'w')] itself ([f_write_error]), which leaves the file as
    it was, or [f.write] and the close at the end of the [with] block
    ([f_flush_error]), when [open] has already emptied the file; the text
    is taken to be still in the buffer at that point, so that the file
    stays empty.  A directory maps to the paths of its [*.txt] files, in
    the order [glob] returns them.  [journal] records every write that
    was completed, oldest first. *)

Inductive read_result : Type :=
| Text (text : string)
| ReadError (e : string).

Record file : Type := mkFile {
  f_read : read_result;
  f_write_error : option string;
  f_flush_error : option string
}.

Record world : Type := mkWorld {
  files : gmap string file;
  dirs : gmap string (list string);
  journal : list (string * string)
}.

(** [open(path, 'r')] followed by [f.read()] *)
Definition read_file (path : string) (w : world) : read_result :=
  match files w !! path with
  | Some f => f_read f
  | None => ReadError ("[Errno 2] No such file or directory: '" +:+ path +:+ "'")
  end.

(** [with open(path, 'w') as f: f.write(text)]: the message of the
    exception, if one is raised, and the file system afterwards.  When
    [open] raises nothing changes; when [f.write] or the close raises the
    file is left empty. *)
Definition write_file (path text : string) (w : world) : option string * world :=
  match files w !! path with
  | Some {| f_write_error := Some e |} => (Some e, w)
  | Some {| f_write_error := None; f_flush_error := Some e |} =>
      (Some e,
       {| files := <[path := mkFile (Text EmptyString) None (Some e)]> (files w);
          dirs := dirs w;
          journal := journal w |})
  | _ =>
      (None,
       {| files := <[path := mkFile (Text text) None None]> (files w);
          dirs := dirs w;
          journal := journal w ++ [(path, text)] |})
  end.

(** ** label_format_fix.py *)

Import PyStr PyNum.

(** [0 <= c <= 1] *)
Definition in_unit (c : pyfloat) : bool := int_le_float 0 c && float_le_int c 1.

(** [0 <= class_id <= 39] *)
Definition class_ok (class_id : Z) : bool := (0 <=? class_id) && (class_id <=? 39).

(** [[float(x) for x in l]]; [None] when some [float(x)] raises. *)
Fixpoint floats (l : list string) : option (list pyfloat) :=
  match l with
  | [] => Some []
  | x :: r =>
      match py_float x with
      | None => None
      | Some c =>
          match floats r with
          | None => None
          | Some cs => Some (c :: cs)
          end
      end
  end.

Definition is_polygon_len (n : nat) : bool := (7 <=? n)%nat && Nat.odd n.

(** [coords[i]]; the default is never reached where it is used. *)
Definition coord (coords : list pyfloat) (i : nat) : pyfloat := nth i coords F_nan.

(** The body of the loop over [all_annotations] (lines 35-65): the line
    appended to [fixed_lines], or [None] when nothing is appended. *)
Definition fix_line (annotation_line : string) : option string :=
  let annotation_line := strip annotation_line in
  if is_empty annotation_line then None
  else
    let parts := split annotation_line in
    if (length parts =? 5)%nat then
      match py_int (hd EmptyString parts) with
      | None => None
      | Some class_id =>
          match floats (tl parts) with
          | None => None
          | Some coords =>
              if class_ok class_id && forallb in_unit coords
              then Some (str_of_int class_id +:+ " " +:+ format6 (coord coords 0)
                           +:+ " " +:+ format6 (coord coords 1)
                           +:+ " " +:+ format6 (coord coords 2)
                           +:+ " " +:+ format6 (coord coords 3))
              else None
          end
      end
    else if is_polygon_len (length parts) then
      match py_int (hd EmptyString parts) with
      | None => None
      | Some class_id =>
          match floats (tl parts) with
          | None => None
          | Some coords =>
              if class_ok class_id && forallb in_unit coords
              then let coord_str := join " " (map format6 coords) in
                   Some (str_of_int class_id +:+ " " +:+ coord_str)
              else None
          end
      end
    else None.

(** The loop of lines 34-65, started with [fixed_lines = []]. *)
Definition fix_lines (all_annotations : list string) : list string :=
  fold_left
    (fun fixed_lines annotation_line =>
       match fix_line annotation_line with
       | Some l => fixed_lines ++ [l]
       | None => fixed_lines
       end)
    all_annotations [].

(** [content.replace('\\n', '\n').split('\n')] (line 32) *)
Definition all_annotations (content : string) : list string :=
  split_char nl (replace "\n" NL content).

(** What is written at line 70. *)
Definition serialize (fixed_lines : list string) : string :=
  join NL fixed_lines +:+ NL.

(** [len(p) == 5 or (len(p) >= 7 and len(p) % 2 == 1)] *)
Definition recognized (n : nat) : bool := (n =? 5)%nat || is_polygon_len n.

Inductive outcome : Type :=
| EmptyFile
| AlreadyCorrect
| Fixed (fixed_lines : list string)
| NoValidAnnotations.

(** Lines 14-73 of [fix_label_format] without the file operations: what
    the function decides from the text [raw] returned by [f.read()]. *)
Definition fix_content (raw : string) : outcome :=
  let content := strip raw in
  if is_empty content then EmptyFile
  else
    let lines := split_char nl content in
    if (1 <? length lines)%nat
       && recognized (length (split (strip (hd EmptyString lines))))
    then AlreadyCorrect
    else
      match fix_lines (all_annotations content) with
      | [] => NoValidAnnotations
      | fixed_lines => Fixed fixed_lines
      end.

(** [fix_label_format(label_file)]: the returned pair and the file system
    afterwards.  Any exception gives [(False, "Error: ...")]. *)
Definition fix_label_format (label_file : string) (w : world)
  : (bool * string) * world :=
  match read_file label_file w with
  | ReadError e => ((false, "Error: " +:+ e), w)
  | Text raw =>
      match fix_content raw with
      | EmptyFile => ((false, "Empty file"), w)
      | AlreadyCorrect => ((true, "Already correct format"), w)
      | NoValidAnnotations => ((false, "No valid annotations found"), w)
      | Fixed fixed_lines =>
          match write_file label_file (serialize fixed_lines) w with
          | (Some e, w') => ((false, "Error: " +:+ e), w')
          | (None, w') =>
              ((true, "Fixed " +:+ str_of_int (Z.of_nat (length fixed_lines))
                        +:+ " annotations"), w')
          end
      end
  end.

(** The three-way classification of a label file's text that
    [fix_label_format] makes before it repairs anything. *)
Inductive classification : Type := Empty | WellFormed | Malformed.

Definition classify (raw : string) : classification :=
  match fix_content raw with
  | EmptyFile => Empty
  | AlreadyCorrect => WellFormed
  | Fixed _ | NoValidAnnotations => Malformed
  end.

(** *** [fix_all_labels] *)

(** [stats[key] += 1] *)
Definition incr (key : string) (stats : gmap string Z) : gmap string Z :=
  <[key := stats !!! key + 1]> stats.

Definition stats0 : gmap string Z :=
  <["fixed" := 0]> (<["already_correct" := 0]> (<["errors" := 0]> (<["empty" := 0]> ∅))).

(** Lines 110-123: the counter a result goes to. *)
Definition tally (result : bool * string) (stats : gmap string Z) : gmap string Z :=
  let '(success, message) := result in
  if success then
    if contains "Already correct" message then incr "already_correct" stats
    else incr "fixed" stats
  else
    if contains "Empty file" message then incr "empty" stats
    else incr "errors" stats.

(** The loop over [label_files] (lines 108-123). *)
Fixpoint fix_files (label_files : list string) (stats : gmap string Z) (w : world)
  : gmap string Z * world :=
  match label_files with
  | [] => (stats, w)
  | label_file :: rest =>
      let '(result, w1) := fix_label_format label_file w in
      fix_files rest (tally result stats) w1
  end.

Definition splits : list string := ["train"; "val"; "test"].

(** One round of the loop over the splits (lines 97-123). *)
Definition fix_split (labels_dir : string) (acc : gmap string Z * world)
    (split : string) : gmap string Z * world :=
  let '(stats, w) := acc in
  let label_dir := labels_dir +:+ "/" +:+ split in
  match dirs w !! label_dir with
  | None => (stats, w)
  | Some label_files => fix_files label_files stats w
  end.

(** [fix_all_labels(data_root)]: the counters of the printed summary, or
    [None] when the labels directory does not exist, and the file system
    afterwards. *)
Definition fix_all_labels (data_root : string) (w : world)
  : option (gmap string Z) * world :=
  let labels_dir := data_root +:+ "/labels" in
  match dirs w !! labels_dir with
  | None => (None, w)
  | Some _ =>
      let '(stats, w') := fold_left (fix_split labels_dir) splits (stats0, w) in
      (Some stats, w')
  end.

(** *** [verify_fixed_format], lines 155-210 *)

Inductive verdict : Type := VBlank | VBox | VPolygon | VBad.

(** The body of the loop over [lines] (lines 167-203). *)
Definition check_line (line : string) : verdict :=
  let line := strip line in
  if is_empty line then VBlank
  else
    let parts := split line in
    if (length parts =? 5)%nat then
      match py_int (hd EmptyString parts) with
      | None => VBad
      | Some class_id =>
          match floats (tl parts) with
          | None => VBad
          | Some coords =>
              if negb (class_ok class_id) || negb (forallb in_unit coords)
              then VBad else VBox
          end
      end
    else if is_polygon_len (length parts) then
      match py_int (hd EmptyString parts) with
      | None => VBad
      | Some class_id =>
          match floats (tl parts) with
          | None => VBad
          | Some coords =>
              if negb (class_ok class_id) || negb (forallb in_unit coords)
              then VBad else VPolygon
          end
      end
    else VBad.

Record vcount : Type := mkVcount {
  valid_files : Z;
  total_objects : Z;
  bbox_count : Z;
  polygon_count : Z
}.

(** The loop over the lines of one file, left by [break] at the first
    line that fails: [file_valid], [file_objects] and the two running
    counts. *)
Fixpoint verify_lines (lines : list string) (file_valid : bool)
    (file_objects bbox polygon : Z) : bool * Z * Z * Z :=
  match lines with
  | [] => (file_valid, file_objects, bbox, polygon)
  | line :: rest =>
      match check_line line with
      | VBlank => verify_lines rest file_valid file_objects bbox polygon
      | VBox => verify_lines rest file_valid (file_objects + 1) (bbox + 1) polygon
      | VPolygon => verify_lines rest file_valid (file_objects + 1) bbox (polygon + 1)
      | VBad => (false, file_objects, bbox, polygon)
      end
  end.

(** One round of the loop over [label_files] (lines 155-210). *)
Definition verify_file (label_file : string) (w : world) (st : vcount) : vcount :=
  match read_file label_file w with
  | ReadError _ => st
  | Text text =>
      match readlines text with
      | [] => st
      | lines =>
          let '(file_valid, file_objects, bbox, polygon) :=
            verify_lines lines true 0 (bbox_count st) (polygon_count st) in
          if file_valid && (0 <? file_objects)
          then mkVcount (valid_files st + 1) (total_objects st + file_objects)
                        bbox polygon
          else mkVcount (valid_files st) (total_objects st) bbox polygon
      end
  end.

(** The counts printed for one split. *)
Definition verify_split (label_files : list string) (w : world) : vcount :=
  fold_left (fun st label_file => verify_file label_file w st)
            label_files (mkVcount 0 0 0 0).

(** ** Notions used in the statements *)

(** Plain characters *)
Definition plain_char (c : ascii) : bool :=
  is_digit c || Ascii.eqb c "." || Ascii.eqb c "-".

Definition digit (d : Z) : Prop := 0 <= d <= 9.

Definition fixed_str (i : Z) (ds : list Z) : string :=
  String (digit_char i) (String "." (string_of_digits ds)).

Definition unit_str (u : Z) : string :=
  fixed_str (u / 1000000) (digits6 (u mod 1000000)).

Definition line_char (c : ascii) : bool := plain_char c || Ascii.eqb c " ".

Definition token (t : string) : Prop :=
  t <> EmptyString /\ all_chars plain_char t = true.

(** No white space at either end, and not empty. *)
Definition tight (s : string) : Prop :=
  lstrip s = s /\ rstrip s = s /\ s <> EmptyString.

(** What lines 44-49 and 56-63 do with the tokens of a line of a
    recognized length. *)
Definition accept (parts : list string) : option string :=
  match py_int (hd EmptyString parts), floats (tl parts) with
  | Some class_id, Some coords =>
      if class_ok class_id && forallb in_unit coords
      then Some (join " " (str_of_int class_id :: map format6 coords))
      else None
  | _, _ => None
  end.

Definition class_check (class_id : Z) : bool :=
  match py_int (str_of_int class_id) with
  | Some z => z =? class_id
  | None => false
  end
  && negb (is_empty (str_of_int class_id))
  && all_chars is_digit (str_of_int class_id).

Definition not_char (a c : ascii) : bool := negb (Ascii.eqb c a).

Definition written_line (l : string) : Prop :=
  tight l /\ all_chars line_char l = true.

(** The test [0 <= c <= 1] of lines 48 and 60, on the value read from a
    token. *)
Definition unit_coord (t : string) : Prop :=
  exists c, py_float t = Some c /\ int_le_float 0 c = true /\ float_le_int c 1 = true.

(** The test [0 <= class_id <= 39], on the value read from a token. *)
Definition class_token (t : string) : Prop :=
  exists class_id, py_int t = Some class_id /\ 0 <= class_id <= 39.

(** Writing the file does not raise, neither at [open] nor later. *)
Definition writable (label_file : string) (w : world) : bool :=
  match files w !! label_file with
  | Some {| f_write_error := Some _ |} => false
  | Some {| f_write_error := None; f_flush_error := Some _ |} => false
  | _ => true
  end.

Definition written (label_file text : string) (w : world) : world :=
  {| files := <[label_file := mkFile (Text text) None None]> (files w);
     dirs := dirs w;
     journal := journal w ++ [(label_file, text)] |}.

(** The lines the repair loop accepts from the text [raw]. *)
Definition accepted_lines (raw : string) : list string :=
  fix_lines (all_annotations (strip raw)).

Definition w_one (text : string) : world :=
  {| files := <["a.txt" := mkFile (Text text) None None]> ∅;
     dirs := ∅;
     journal := [] |}.

(** A coordinate as it is written: an optional minus, one digit, the
    point and six digits. *)
Definition six_decimals (s : string) : Prop :=
  exists (sign : string) (i : Z) (ds : list Z),
    s = sign +:+ fixed_str i ds /\
    (sign = EmptyString \/ sign = "-") /\
    digit i /\ length ds = 6%nat /\ Forall digit ds.

Definition stable_line (l : string) : Prop :=
  written_line l /\ fix_line l = Some l.

(** The label directory of a split, as [fix_all_labels] forms it. *)
Definition label_dir (data_root split : string) : string :=
  (data_root +:+ "/labels") +:+ "/" +:+ split.

(** The files [fix_all_labels] visits, in order. *)
Definition label_files (data_root : string) (w : world) : list string :=
  flat_map (fun split => default [] (dirs w !! label_dir data_root split)) splits.

(** An exception is raised while [fix_label_format] handles the file:
    reading fails, or there is something to write and writing the file
    fails. *)
Definition raises (label_file : string) (w : world) : bool :=
  match read_file label_file w with
  | ReadError _ => true
  | Text raw =>
      match fix_content raw with
      | Fixed _ => negb (writable label_file w)
      | _ => false
      end
  end.

(** The file is read, has content, and none of its lines is accepted. *)
Definition no_valid (label_file : string) (w : world) : bool :=
  match read_file label_file w with
  | ReadError _ => false
  | Text raw =>
      match fix_content raw with
      | NoValidAnnotations => true
      | _ => false
      end
  end.

(** No exception that the file can raise has a message with the words
    [Empty file] in it. *)
Definition quiet_errors (label_file : string) (w : world) : bool :=
  match read_file label_file w with
  | ReadError e => negb (contains "Empty file" e)
  | Text _ =>
      match files w !! label_file with
      | Some {| f_write_error := Some e |} => negb (contains "Empty file" e)
      | Some {| f_write_error := None; f_flush_error := Some e |} =>
          negb (contains "Empty file" e)
      | _ => true
      end
  end.

(** A counter of the printed summary. *)
Definition summary (key data_root : string) (w : world) : option Z :=
  match fst (fix_all_labels data_root w) with
  | Some stats => stats !! key
  | None => None
  end.

Definition w_rejected : world :=
  {| files := <["cityscapes/labels/train/a.txt" :=
                  mkFile (Text "40 0.1 0.2 0.3 0.4") None None]> ∅;
     dirs := <["cityscapes/labels" := []]>
               (<["cityscapes/labels/train" := ["cityscapes/labels/train/a.txt"]]> ∅);
     journal := [] |}.

Definition counts_as_error (w : world) (label_file : string) : bool :=
  raises label_file w || no_valid label_file w.

Definition is_box (line : string) : bool :=
  match check_line line with VBox => true | _ => false end.

Definition is_polygon (line : string) : bool :=
  match check_line line with VPolygon => true | _ => false end.

Definition is_bad (line : string) : bool :=
  match check_line line with VBad => true | _ => false end.

(** The lines that the loop of [verify_fixed_format] reaches: those
    before the first line that fails. *)
Fixpoint reached (lines : list string) : list string :=
  match lines with
  | [] => []
  | line :: rest => if is_bad line then [] else line :: reached rest
  end.

Definition count (p : string -> bool) (lines : list string) : Z :=
  Z.of_nat (length (List.filter p lines)).

(** Every line with content is accepted, and there is one. *)
Definition all_lines_pass (lines : list string) : Prop :=
  (forall line, In line lines -> strip line <> EmptyString -> is_Some (fix_line line)) /\
  (exists line, In line lines /\ strip line <> EmptyString).

Definition w_mixed : world :=
  w_one ("x" +:+ NL +:+ "1 0.5 0.5 0.5 0.5" +:+ NL).

(** ** Further notions: repeated runs, the other passes over the label files *)

(** The entry of a file after [fix_label_format] has handled it, when
    the call changes it: the file must be readable, [open] must accept
    it for writing and its repair must accept a line.  The entry then
    holds the lines written, or nothing when the write was not
    completed. *)
Definition rewritten (o : option file) : option file :=
  match o with
  | Some {| f_read := Text raw; f_write_error := None; f_flush_error := flush |} =>
      match fix_content raw with
      | Fixed fixed_lines =>
          match flush with
          | None => Some (mkFile (Text (serialize fixed_lines)) None None)
          | Some e => Some (mkFile (Text EmptyString) None (Some e))
          end
      | _ => None
      end
  | _ => None
  end.

(** The file system after [open(label_file, 'w')] has emptied the file
    and the write has then raised [e]. *)
Definition emptied (label_file e : string) (w : world) : world :=
  {| files := <[label_file := mkFile (Text EmptyString) None (Some e)]> (files w);
     dirs := dirs w;
     journal := journal w |}.

(** A data set with label files of every kind: two that can be repaired,
    one that looks correct, one without content, one that cannot be
    read, one that cannot be opened for writing, one whose write fails
    after [open], and one without a valid line. *)
Definition w_walk : world :=
  {| files :=
       <["cityscapes/labels/train/a.txt" := mkFile (Text "1 .5 .5 .5 .5") None None]>
      (<["cityscapes/labels/train/b.txt" :=
           mkFile (Text "10 0.1 0.2 0.3 0.4\n12 0.5 0.5 0.1 0.1") None None]>
      (<["cityscapes/labels/train/c.txt" :=
           mkFile (Text ("1 0.5 0.5 0.5 0.5" +:+ NL +:+ "2 0.5 0.5 0.5 0.5" +:+ NL))
                  None None]>
      (<["cityscapes/labels/train/d.txt" := mkFile (Text "  ") None None]>
      (<["cityscapes/labels/val/e.txt" :=
           mkFile (ReadError "[Errno 13] Permission denied") None None]>
      (<["cityscapes/labels/val/f.txt" :=
           mkFile (Text "3 0 0 1 1") (Some "[Errno 13] Permission denied") None]>
      (<["cityscapes/labels/val/g.txt" :=
           mkFile (Text "4 0 0 1 1") None (Some "[Errno 28] No space left on device")]>
      (<["cityscapes/labels/val/h.txt" :=
           mkFile (Text "40 0.1 0.2 0.3 0.4") None None]> ∅)))))));
     dirs :=
       <["cityscapes/labels" := []]>
      (<["cityscapes/labels/train" :=
           ["cityscapes/labels/train/a.txt"; "cityscapes/labels/train/b.txt";
            "cityscapes/labels/train/c.txt"; "cityscapes/labels/train/d.txt"]]>
      (<["cityscapes/labels/val" :=
           ["cityscapes/labels/val/e.txt"; "cityscapes/labels/val/f.txt";
            "cityscapes/labels/val/g.txt"; "cityscapes/labels/val/h.txt"]]> ∅));
     journal := [] |}.

(** A further call would leave the entry as it is. *)
Definition settled (o : option file) : Prop :=
  forall f, rewritten o = Some f -> o = Some f.

(** The four counters of the summary, added up. *)
Definition stats_total (stats : gmap string Z) : Z :=
  stats !!! "fixed" + stats !!! "already_correct" + stats !!! "errors" + stats !!! "empty".

(** *** [detect_annotation_type], label_format_fix.py lines 272-335 *)

Record dcount : Type := mkDcount {
  bbox_files : Z;
  polygon_files : Z;
  mixed_files : Z;
  invalid_files : Z
}.

(** One round of the loop over the lines of a file (lines 305-310):
    [has_bbox] and [has_polygon] afterwards. *)
Definition scan_line (flags : bool * bool) (line : string) : bool * bool :=
  let '(has_bbox, has_polygon) := flags in
  let parts := split (strip line) in
  if (length parts =? 5)%nat then (true, has_polygon)
  else if is_polygon_len (length parts) then (has_bbox, true)
  else (has_bbox, has_polygon).

(** One round of the loop over the label files (lines 294-322); any
    exception counts the file as invalid, a file without a line is
    passed over. *)
Definition detect_file (label_file : string) (w : world) (st : dcount) : dcount :=
  match read_file label_file w with
  | ReadError _ =>
      mkDcount (bbox_files st) (polygon_files st) (mixed_files st) (invalid_files st + 1)
  | Text text =>
      match readlines text with
      | [] => st
      | lines =>
          let '(has_bbox, has_polygon) := fold_left scan_line lines (false, false) in
          if has_bbox && has_polygon then
            mkDcount (bbox_files st) (polygon_files st) (mixed_files st + 1) (invalid_files st)
          else if has_bbox then
            mkDcount (bbox_files st + 1) (polygon_files st) (mixed_files st) (invalid_files st)
          else if has_polygon then
            mkDcount (bbox_files st) (polygon_files st + 1) (mixed_files st) (invalid_files st)
          else
            mkDcount (bbox_files st) (polygon_files st) (mixed_files st) (invalid_files st + 1)
      end
  end.

(** The training command that is recommended (lines 330-335). *)
Inductive recommendation : Type := Segment | Detect | NoRecommendation.

(** One round of the loop over the splits (lines 289-322). *)
Definition detect_split (labels_dir : string) (w : world) (st : dcount)
    (split : string) : dcount :=
  let label_dir := labels_dir +:+ "/" +:+ split in
  match dirs w !! label_dir with
  | None => st
  | Some label_files =>
      fold_left (fun st label_file => detect_file label_file w st) label_files st
  end.

(** [detect_annotation_type(data_root)]: the printed counts and the
    recommendation, or [None] when the labels directory does not
    exist. *)
Definition detect_annotation_type (data_root : string) (w : world)
  : option (dcount * recommendation) :=
  let labels_dir := data_root +:+ "/labels" in
  match dirs w !! labels_dir with
  | None => None
  | Some _ =>
      let st := fold_left (detect_split labels_dir w) splits (mkDcount 0 0 0 0) in
      Some (st,
            if 0 <? polygon_files st then Segment
            else if 0 <? bbox_files st then Detect
            else NoRecommendation)
  end.

(** The files that hold no line at all. *)
Definition no_line (w : world) (label_file : string) : bool :=
  match read_file label_file w with
  | Text EmptyString => true
  | _ => false
  end.

Definition dcount_total (st : dcount) : Z :=
  bbox_files st + polygon_files st + mixed_files st + invalid_files st.

(** [len(parts) == 5] and the polygon test, on the tokens of a line. *)
Definition five_tokens (line : string) : bool := (length (split line) =? 5)%nat.

Definition polygon_tokens (line : string) : bool := is_polygon_len (length (split line)).

(** *** [analyze_empty_labels], label_issue_fix.py lines 10-124 *)

(** [x < i] and [x > i] for a [float] [x] and an [int] [i]; a NaN
    compares false. *)
Definition float_lt_int (x : pyfloat) (i : Z) : bool :=
  match x with
  | F_nan => false
  | F_inf neg => neg
  | F_fin neg m e =>
      if 0 <=? e then signed neg m * 2 ^ e <? i
      else signed neg m <? i * 2 ^ (- e)
  end.

Definition float_gt_int (x : pyfloat) (i : Z) : bool :=
  match x with
  | F_nan => false
  | F_inf neg => negb neg
  | F_fin neg m e =>
      if 0 <=? e then i <? signed neg m * 2 ^ e
      else i * 2 ^ (- e) <? signed neg m
  end.

(** [c < 0 or c > 1] *)
Definition out_of_unit (c : pyfloat) : bool := float_lt_int c 0 || float_gt_int c 1.

(** The tests of lines 62-93 on the tokens of a line with content:
    [false] where [is_valid] is set to [False]. *)
Definition analyze_parts (parts : list string) : bool :=
  if (length parts =? 5)%nat then
    match py_int (hd EmptyString parts) with
    | None => false
    | Some class_id =>
        match floats (tl parts) with
        | None => false
        | Some coords =>
            if (class_id <? 0) || (40 <=? class_id) then false
            else if existsb out_of_unit coords then false
            else true
        end
    end
  else if is_polygon_len (length parts) then
    match py_int (hd EmptyString parts) with
    | None => false
    | Some class_id =>
        match floats (tl parts) with
        | None => false
        | Some coords =>
            if (class_id <? 0) || (40 <=? class_id) then false
            else if existsb out_of_unit coords then false
            else true
        end
    end
  else false.

(** The loop over the lines (lines 57-93), left by [break] at the first
    line that fails: [is_valid] afterwards. *)
Fixpoint analyze_lines (lines : list string) : bool :=
  match lines with
  | [] => true
  | line :: rest =>
      if is_empty (strip line) then analyze_lines rest
      else if analyze_parts (split (strip line)) then analyze_lines rest
      else false
  end.

Inductive label_state : Type := LabelEmpty | LabelValid | LabelCorrupted.

(** The list a label file is appended to (lines 46-102); an exception
    puts it with the corrupted files. *)
Definition analyze_file (label_file : string) (w : world) : label_state :=
  match read_file label_file w with
  | ReadError _ => LabelCorrupted
  | Text raw =>
      let content := strip raw in
      if is_empty content then LabelEmpty
      else if analyze_lines (split_char nl content) then LabelValid
      else LabelCorrupted
  end.

(** The loop over the label files of a split: [empty_files],
    [valid_files] and [corrupted_files]. *)
Definition analyze_split (label_files : list string) (w : world)
  : list string * list string * list string :=
  fold_left
    (fun '(empty_files, valid_labels, corrupted_files) label_file =>
       match analyze_file label_file w with
       | LabelEmpty => (empty_files ++ [label_file], valid_labels, corrupted_files)
       | LabelValid => (empty_files, valid_labels ++ [label_file], corrupted_files)
       | LabelCorrupted => (empty_files, valid_labels, corrupted_files ++ [label_file])
       end)
    label_files ([], [], []).

(** One round of the loop over the splits: the three totals. *)
Definition analyze_totals (labels_dir : string) (w : world)
    (totals : Z * Z * Z) (split : string) : Z * Z * Z :=
  let '(total_empty, total_valid, total_corrupted) := totals in
  let label_dir := labels_dir +:+ "/" +:+ split in
  match dirs w !! label_dir with
  | None => totals
  | Some label_files =>
      let '(empty_files, valid_labels, corrupted_files) := analyze_split label_files w in
      (total_empty + Z.of_nat (length empty_files),
       total_valid + Z.of_nat (length valid_labels),
       total_corrupted + Z.of_nat (length corrupted_files))
  end.

(** [analyze_empty_labels(data_root)]: the returned flag. *)
Definition analyze_empty_labels (data_root : string) (w : world) : bool :=
  let labels_dir := data_root +:+ "/labels" in
  let images_dir := data_root +:+ "/images" in
  match dirs w !! labels_dir with
  | None => false
  | Some _ =>
      match dirs w !! images_dir with
      | None => false
      | Some _ =>
          let '(total_empty, total_valid, total_corrupted) :=
            fold_left (analyze_totals labels_dir w) splits (0, 0, 0) in
          (0 <? total_empty) || (0 <? total_corrupted)
      end
  end.

(** A token that reads as a float which is a NaN or lies in [0, 1]. *)
Definition unit_or_nan (t : string) : Prop :=
  exists c, py_float t = Some c /\ (c = F_nan \/ in_unit c = true).

(** The label files in a given state. *)
Definition in_state (s : label_state) (w : world) (label_file : string) : bool :=
  match analyze_file label_file w, s with
  | LabelEmpty, LabelEmpty | LabelValid, LabelValid
  | LabelCorrupted, LabelCorrupted => true
  | _, _ => false
  end.

(** The number a finite float stands for; 0 for the others. *)
Definition float_value (x : pyfloat) : Q :=
  match x with
  | F_fin neg m e => (inject_Z (signed neg m) * 2 ^ e)%Q
  | _ => 0%Q
  end.

(** [c'] is within a millionth of [c]. *)
Definition within_millionth (c c' : pyfloat) : Prop :=
  (Qabs (float_value c' - float_value c) <= 1 # 1000000)%Q.

(** The entry of a file as a repair writes it. *)
Definition repaired (o : option file) : Prop :=
  exists ls, Forall stable_line ls /\ ls <> [] /\
             o = Some (mkFile (Text (serialize ls)) None None).

(** The counter of the summary that a label file is tallied under when
    no exception message contains the words [Empty file]. *)
Definition counter_of (w : world) (label_file : string) : string :=
  match read_file label_file w with
  | ReadError _ => "errors"
  | Text raw =>
      match fix_content raw with
      | EmptyFile => "empty"
      | AlreadyCorrect => "already_correct"
      | NoValidAnnotations => "errors"
      | Fixed _ => if writable label_file w then "fixed" else "errors"
      end
  end.

Definition tallied (key : string) (w : world) (label_file : string) : bool :=
  String.eqb (counter_of w label_file) key.

(** ** Examples *)

Example strip_ex : PyStr.strip ("  a b" +:+ NL +:+ " ") = "a b".
Proof. reflexivity. Qed.

Example split_ex : PyStr.split " 10  0.5 x " = ["10"; "0.5"; "x"].
Proof. reflexivity. Qed.

Example split_char_ex :
  PyStr.split_char "," "a,,b," = ["a"; EmptyString; "b"; EmptyString].
Proof. reflexivity. Qed.

Example replace_ex : PyStr.replace "\n" "+" "a\n\\nb\" = "a+\+b\".
Proof. reflexivity. Qed.

Example readlines_ex :
  PyStr.readlines ("a" +:+ NL +:+ "b") = ["a" +:+ NL; "b"].
Proof. reflexivity. Qed.

Example py_int_ex :
  map py_int ["39"; "+0_7"; "-0"; " 12 "; "1__0"; "_1"; "1_"; "1.0"; "4O"]
  = [Some 39; Some 7; Some 0; Some 12; None; None; None; None; None].
Proof. reflexivity. Qed.

Example py_float_ex :
  map py_float ["0.5"; "1e-1"; ".5e0_1"; "-0.0"; "1e400"; "nan"; "1e"; "."; "0x1"]
  = [Some (F_fin false 4503599627370496 (-53));
     Some (F_fin false 7205759403792794 (-56));
     Some (F_fin false 5629499534213120 (-50));
     Some (F_fin true 0 0); Some (F_inf false); Some F_nan; None; None; None].
Proof. vm_compute. reflexivity. Qed.

Example format6_ex :
  map (fun s => option_map format6 (py_float s))
      ["0.1"; "1"; "0.0000005"; "0.0000015"; "123456789.123456789"; "-1e-9"; "inf"]
  = [Some "0.100000"; Some "1.000000"; Some "0.000000"; Some "0.000002";
     Some "123456789.123457"; Some "-0.000000"; Some "inf"].
Proof. vm_compute. reflexivity. Qed.

Example fix_content_ex :
  fix_content ("1 2 3 4 " +:+ NL +:+ "1 .5 .5 .5 .5 " +:+ NL)
  = Fixed ["1 0.500000 0.500000 0.500000 0.500000"].
Proof. vm_compute. reflexivity. Qed.

Example already_correct_ex :
  fix_content ("1 2 3 4 5" +:+ NL +:+ "junk") = AlreadyCorrect.
Proof. vm_compute. reflexivity. Qed.

Example open_failure_ex :
  fix_label_format "cityscapes/labels/val/f.txt" w_walk
  = ((false, "Error: [Errno 13] Permission denied"), w_walk).
Proof. vm_compute. reflexivity. Qed.

Example write_failure_ex :
  fix_label_format "cityscapes/labels/val/g.txt" w_walk
  = ((false, "Error: [Errno 28] No space left on device"),
     emptied "cityscapes/labels/val/g.txt" "[Errno 28] No space left on device" w_walk).
Proof. vm_compute. reflexivity. Qed.

(** ** Properties *)

(** ** Strings: general facts *)

Lemma sapp_cons c s t : String c s +:+ t = String c (s +:+ t).
Proof. reflexivity. Qed.

Lemma sapp_nil_l t : EmptyString +:+ t = t.
Proof. reflexivity. Qed.

Lemma sapp_nil_r s : s +:+ EmptyString = s.
Proof. induction s as [|c s IH]; [reflexivity|]. rewrite sapp_cons, IH. reflexivity. Qed.

Lemma sapp_assoc s t u : (s +:+ t) +:+ u = s +:+ t +:+ u.
Proof. induction s as [|c s IH]; [reflexivity|]. rewrite !sapp_cons, IH. reflexivity. Qed.

Lemma is_empty_true s : is_empty s = true <-> s = EmptyString.
Proof. destruct s; simpl; split; congruence. Qed.

Lemma is_empty_false s : is_empty s = false <-> s <> EmptyString.
Proof. destruct s; simpl; split; congruence. Qed.

Lemma split_cons2 c c' r :
  split (String c (String c' r)) =
  if isspace c then split (String c' r)
  else if isspace c' then String c EmptyString :: split (String c' r)
  else cons_hd c (split (String c' r)).
Proof. reflexivity. Qed.

Lemma lstrip_split s : split (lstrip s) = split s.
Proof.
  induction s as [|c s IH]; [reflexivity|].
  simpl. destruct (isspace c) eqn:Hc; [exact IH|].
  simpl. rewrite Hc. reflexivity.
Qed.

Lemma rstrip_empty_split s : rstrip s = EmptyString -> split s = [].
Proof.
  induction s as [|c s IH]; [reflexivity|].
  simpl. destruct (is_empty (rstrip s)) eqn:He, (isspace c) eqn:Hc; simpl; try discriminate.
  intros _. apply IH. apply is_empty_true. exact He.
Qed.

Lemma rstrip_split s : split (rstrip s) = split s.
Proof.
  induction s as [|c s IH]; [reflexivity|].
  cbn [rstrip].
  destruct (is_empty (rstrip s)) eqn:He.
  - apply is_empty_true in He.
    pose proof (rstrip_empty_split s He) as Hs.
    destruct (isspace c) eqn:Hc; cbn [andb].
    + simpl. rewrite Hc. symmetry. exact Hs.
    + rewrite He. simpl. rewrite Hc.
      destruct s as [|c' s']; [reflexivity|].
      rewrite Hs. destruct (isspace c'); reflexivity.
  - cbn [andb].
    destruct s as [|c' s']; [discriminate|].
    assert (Hhd : exists r', rstrip (String c' s') = String c' r').
    { cbn [rstrip] in *. destruct (is_empty (rstrip s') && isspace c'); [discriminate|]. eauto. }
    destruct Hhd as [r' Hr']. rewrite Hr' in *.
    rewrite !split_cons2, IH. reflexivity.
Qed.

Lemma split_strip s : split (strip s) = split s.
Proof. unfold strip. rewrite rstrip_split. apply lstrip_split. Qed.

Lemma rne_cases a b :
  0 < b ->
  (rne a b = a / b \/ rne a b = a / b + 1) /\
  - b <= 2 * (rne a b * b - a) <= b.
Proof.
  intros Hb. unfold rne.
  pose proof (Z.div_mod a b ltac:(lia)) as Hdm.
  pose proof (Z.mod_pos_bound a b Hb) as Hm.
  destruct (Z.compare_spec (2 * (a mod b)) b) as [He|Hl|Hg].
  - destruct (Z.even (a / b)); split; auto; nia.
  - split; auto; nia.
  - split; auto; nia.
Qed.

Lemma rne_unique a b k :
  0 < b -> 2 * Z.abs (k * b - a) < b -> rne a b = k.
Proof.
  intros Hb Hk.
  destruct (rne_cases a b Hb) as [_ Hr].
  nia.
Qed.

Lemma rne_nonneg a b : 0 < b -> 0 <= a -> 0 <= rne a b.
Proof.
  intros Hb Ha. destruct (rne_cases a b Hb) as [Hc _].
  pose proof (Z.div_pos a b Ha Hb). lia.
Qed.

Lemma rne_le a b k : 0 < b -> a <= k * b -> rne a b <= k.
Proof.
  intros Hb Hk. destruct (rne_cases a b Hb) as [_ Hr]. nia.
Qed.

Lemma rne_exact b k : 0 < b -> rne (k * b) b = k.
Proof.
  intros Hb. apply rne_unique; [exact Hb|].
  replace (k * b - k * b) with 0 by lia. simpl. lia.
Qed.

(** Case analysis over all 256 characters. *)
Ltac all_ascii c :=
  destruct c as [[] [] [] [] [] [] [] []]; vm_compute; try congruence; auto.

Lemma plain_char_facts c :
  plain_char c = true ->
  isspace c = false /\ c_isspace c = false /\ is_ascii c = true /\
  Ascii.eqb c "_" = false /\ Ascii.eqb c nl = false /\
  Ascii.eqb c backslash = false.
Proof. all_ascii c; intros _; repeat split; reflexivity. Qed.

Lemma digit_cases d : 0 <= d <= 9 ->
  d = 0 \/ d = 1 \/ d = 2 \/ d = 3 \/ d = 4 \/ d = 5 \/ d = 6 \/ d = 7 \/ d = 8 \/ d = 9.
Proof. lia. Qed.

Lemma digit_char_facts d :
  0 <= d <= 9 ->
  is_digit (digit_char d) = true /\ digit_val (digit_char d) = d /\
  plain_char (digit_char d) = true /\
  take_sign (String (digit_char d) EmptyString) = (false, String (digit_char d) EmptyString).
Proof.
  intros H. destruct (digit_cases d H) as [->|[->|[->|[->|[->|[->|[->|[->|[->| ->]]]]]]]]];
    vm_compute; auto.
Qed.

Lemma mag_le_1 n d : 0 < n -> n <= d -> mag n d <= 1.
Proof.
  intros Hn Hd. unfold mag.
  pose proof (Z.log2_le_mono n d Hd) as Hl.
  destruct (ratio_lt_pow2 n d (Z.log2 n - Z.log2 d)) eqn:Hr; [lia|].
  destruct (Z.eq_dec (Z.log2 n - Z.log2 d) 0) as [E|E]; lia.
Qed.

Lemma b64_round_micro u :
  0 <= u <= 1000000 ->
  exists m e, b64_round false u 1000000 = F_fin false m e /\
              int_le_float 0 (F_fin false m e) = true /\
              float_le_int (F_fin false m e) 1 = true /\
              micro m e = u.
Proof.
  intros Hu. unfold b64_round.
  destruct (Z.eqb_spec u 0) as [->|Hne].
  { exists 0%N, 0. vm_compute. auto. }
  pose proof (mag_le_1 u 1000000 ltac:(lia) ltac:(lia)) as Hg.
  set (e := Z.max (mag u 1000000 - 53) (-1074)).
  assert (He : -1074 <= e <= -52) by (unfold e; lia).
  destruct (Z.leb_spec 0 e) as [?|_]; [lia|].
  set (k := - e). assert (Hk : 52 <= k <= 1074) by (unfold k; lia).
  assert (Hp : 2 ^ 52 <= 2 ^ k) by (apply Z.pow_le_mono_r; lia).
  assert (Hp0 : 0 < 2 ^ k) by lia.
  set (m := rne (u * 2 ^ k) 1000000).
  destruct (rne_cases (u * 2 ^ k) 1000000 ltac:(lia)) as [_ Hb]. fold m in Hb.
  assert (Hm0 : 0 <= m) by (apply rne_nonneg; nia).
  assert (Hm1 : m <= 2 ^ k) by (apply rne_le; nia).
  assert (Hlog : Z.log2 m <= k).
  { pose proof (Z.log2_le_mono m (2 ^ k) Hm1) as Hl.
    rewrite Z.log2_pow2 in Hl by lia. exact Hl. }
  destruct (Z.leb_spec 1024 (Z.log2 m + e)) as [?|_]; [unfold k in *; lia|].
  exists (Z.to_N m), e.
  split; [reflexivity|].
  unfold int_le_float, float_le_int, micro, signed.
  destruct (Z.leb_spec 0 e) as [?|_]; [lia|]. fold k.
  rewrite Z2N.id by exact Hm0.
  repeat split.
  - apply Z.leb_le. lia.
  - apply Z.leb_le. lia.
  - apply rne_unique; [lia|]. change (2 ^ 52) with 4503599627370496 in Hp. lia.
Qed.

Lemma in_unit_micro neg m e :
  in_unit (F_fin neg m e) = true ->
  (neg = true -> m = 0%N) /\ 0 <= micro m e <= 1000000.
Proof.
  unfold in_unit, int_le_float, float_le_int, micro, signed.
  intros H. apply andb_true_iff in H as [H0 H1].
  destruct (Z.leb_spec 0 e) as [He|He].
  - apply Z.leb_le in H0, H1.
    assert (Hp : 0 < 2 ^ e) by (apply Z.pow_pos_nonneg; lia).
    destruct neg; (split; [try discriminate; intros _; nia | nia]).
  - apply Z.leb_le in H0, H1.
    assert (Hp : 0 < 2 ^ (- e)) by (apply Z.pow_pos_nonneg; lia).
    destruct neg.
    + assert (m = 0%N) as -> by lia. split; [reflexivity|].
      change (Z.of_N 0 * 1000000) with (0 * 2 ^ (- e)) at 1 2.
      simpl Z.mul. replace 0 with (0 * 2 ^ (- e)) at 2 4 by lia.
      rewrite rne_exact by lia. lia.
    + split; [discriminate|]. split.
      * apply rne_nonneg; lia.
      * apply rne_le; lia.
Qed.

Lemma all_chars_app p s t :
  all_chars p (s +:+ t) = all_chars p s && all_chars p t.
Proof.
  induction s as [|c s IH]; [reflexivity|].
  rewrite sapp_cons. simpl. rewrite IH. apply andb_assoc.
Qed.

Lemma all_chars_impl (p q : ascii -> bool) s :
  (forall c, p c = true -> q c = true) ->
  all_chars p s = true -> all_chars q s = true.
Proof.
  intros Hpq. induction s as [|c s IH]; [reflexivity|].
  simpl. intros H. apply andb_true_iff in H as [Hc Hs].
  rewrite (Hpq c Hc), (IH Hs). reflexivity.
Qed.

Lemma c_rstrip_plain s : all_chars plain_char s = true -> c_rstrip s = s.
Proof.
  induction s as [|c s IH]; [reflexivity|].
  simpl. intros H. apply andb_true_iff in H as [Hc Hs].
  rewrite (IH Hs). destruct (plain_char_facts c Hc) as (_ & -> & _).
  rewrite andb_false_r. reflexivity.
Qed.

Lemma prepare_plain s : all_chars plain_char s = true -> prepare s = s.
Proof.
  intros H. unfold prepare, to_ascii.
  rewrite (all_chars_impl plain_char is_ascii s)
    by (intros c Hc; apply plain_char_facts; exact Hc) || exact H.
  assert (Hl : c_lstrip s = s).
  { destruct s as [|c s]; [reflexivity|]. simpl in *.
    apply andb_true_iff in H as [Hc _].
    destruct (plain_char_facts c Hc) as (_ & -> & _). reflexivity. }
  rewrite Hl. apply c_rstrip_plain. exact H.
Qed.

Lemma drop_underscores_plain s : forall prev,
  Ascii.eqb prev "_" = false ->
  all_chars plain_char s = true -> drop_underscores prev s = Some s.
Proof.
  induction s as [|c s IH]; intros prev Hp H.
  - simpl. rewrite Hp. reflexivity.
  - simpl in *. apply andb_true_iff in H as [Hc Hs].
    destruct (plain_char_facts c Hc) as (_ & _ & _ & Hu & _).
    rewrite Hu, Hp. simpl. rewrite (IH c Hu Hs). reflexivity.
Qed.

Lemma span_digits_sod ds :
  Forall digit ds -> span_digits (string_of_digits ds) = (ds, EmptyString).
Proof.
  induction 1 as [|d ds Hd _ IH]; [reflexivity|].
  simpl. destruct (digit_char_facts d Hd) as (-> & -> & _).
  rewrite IH. reflexivity.
Qed.

Lemma plain_sod ds : Forall digit ds -> all_chars plain_char (string_of_digits ds) = true.
Proof.
  induction 1 as [|d ds Hd _ IH]; [reflexivity|].
  simpl. destruct (digit_char_facts d Hd) as (_ & _ & -> & _). exact IH.
Qed.

Lemma plain_fixed_str i ds :
  digit i -> Forall digit ds -> all_chars plain_char (fixed_str i ds) = true.
Proof.
  intros Hi Hds. unfold fixed_str. simpl.
  destruct (digit_char_facts i Hi) as (_ & _ & -> & _).
  rewrite (plain_sod ds Hds). reflexivity.
Qed.

Lemma py_float_fixed i ds :
  digit i -> Forall digit ds ->
  py_float (fixed_str i ds) = Some (decimal_to_float false [i] ds 0).
Proof.
  intros Hi Hds. unfold py_float.
  rewrite prepare_plain by (apply plain_fixed_str; assumption).
  rewrite drop_underscores_plain by (reflexivity || (apply plain_fixed_str; assumption)).
  unfold fixed_str.
  assert (Hs : forall r, take_sign (String (digit_char i) r) = (false, String (digit_char i) r)).
  { intros r. destruct (digit_cases i Hi) as [->|[->|[->|[->|[->|[->|[->|[->|[->| ->]]]]]]]]]; reflexivity. }
  rewrite Hs. unfold parse_decimal.
  cbn [span_digits].
  destruct (digit_char_facts i Hi) as (-> & -> & _).
  change (is_digit ".") with false. cbv iota.
  rewrite (span_digits_sod ds Hds). reflexivity.
Qed.

Lemma digits6_digit u : Forall digit (digits6 u).
Proof.
  unfold digits6, digit.
  repeat (apply List.Forall_cons; [Z.div_mod_to_equations; lia|]).
  apply List.Forall_nil.
Qed.

Lemma digits6_value i u :
  0 <= u < 1000000 -> digits_value (i :: digits6 u) = i * 1000000 + u.
Proof.
  intros Hu. unfold digits_value, digits6. cbn [fold_left].
  Z.div_mod_to_equations. lia.
Qed.

Lemma micro_zero e : micro 0 e = 0.
Proof.
  unfold micro. destruct (Z.leb_spec 0 e); [reflexivity|].
  assert (0 < 2 ^ (- e)) by (apply Z.pow_pos_nonneg; lia).
  change (Z.of_N 0 * 1000000) with 0.
  replace 0 with (0 * 2 ^ (- e)) at 1 by lia. apply rne_exact. lia.
Qed.

Lemma unit_digit u : 0 <= u <= 1000000 -> digit (u / 1000000).
Proof. intros H. unfold digit. Z.div_mod_to_equations. lia. Qed.

Lemma str_of_unit_int u :
  0 <= u <= 1000000 ->
  str_of_int (u / 1000000) = String (digit_char (u / 1000000)) EmptyString.
Proof.
  intros H.
  assert (Hc : u / 1000000 = 0 \/ u / 1000000 = 1) by (Z.div_mod_to_equations; lia).
  destruct Hc as [-> | ->]; reflexivity.
Qed.

Lemma format6_unit neg m e :
  in_unit (F_fin neg m e) = true ->
  format6 (F_fin neg m e) =
  (if neg then "-" else EmptyString) +:+ unit_str (micro m e).
Proof.
  intros H. destruct (in_unit_micro neg m e H) as [_ Hu].
  unfold format6. rewrite (str_of_unit_int _ Hu). reflexivity.
Qed.

Lemma py_float_unit_str u :
  0 <= u <= 1000000 ->
  py_float (unit_str u) = Some (b64_round false u 1000000).
Proof.
  intros Hu. unfold unit_str.
  rewrite py_float_fixed by (apply unit_digit || apply digits6_digit; exact Hu).
  unfold decimal_to_float. cbn [app].
  rewrite digits6_value by (apply Z.mod_pos_bound; lia).
  replace (u / 1000000 * 1000000 + u mod 1000000) with u
    by (Z.div_mod_to_equations; lia).
  reflexivity.
Qed.

Lemma plain_unit_str u :
  0 <= u <= 1000000 -> all_chars plain_char (unit_str u) = true.
Proof.
  intros Hu. apply plain_fixed_str; [apply unit_digit; exact Hu | apply digits6_digit].
Qed.

Lemma in_unit_fin x :
  in_unit x = true -> exists neg m e, x = F_fin neg m e.
Proof.
  destruct x as [|neg|neg m e]; [discriminate | destruct neg; discriminate | eauto].
Qed.

(** Printing a coordinate and reading it again gives a coordinate that
    prints the same. *)
Lemma format6_roundtrip x :
  in_unit x = true ->
  exists y, py_float (format6 x) = Some y /\ in_unit y = true /\
            format6 y = format6 x.
Proof.
  intros H. destruct (in_unit_fin x H) as (neg & m & e & ->).
  rewrite (format6_unit _ _ _ H).
  destruct (in_unit_micro neg m e H) as [Hneg Hu].
  destruct neg.
  - rewrite (Hneg eq_refl), micro_zero.
    exists (F_fin true 0 0). vm_compute. auto.
  - rewrite sapp_nil_l, (py_float_unit_str _ Hu).
    destruct (b64_round_micro _ Hu) as (m' & e' & -> & H0 & H1 & Hm).
    exists (F_fin false m' e').
    assert (Hy : in_unit (F_fin false m' e') = true)
      by (unfold in_unit; rewrite H0, H1; reflexivity).
    split; [reflexivity|]. split; [exact Hy|].
    rewrite (format6_unit _ _ _ Hy), Hm. reflexivity.
Qed.

Lemma format6_plain x :
  in_unit x = true ->
  all_chars plain_char (format6 x) = true /\ format6 x <> EmptyString.
Proof.
  intros H. destruct (in_unit_fin x H) as (neg & m & e & ->).
  rewrite (format6_unit _ _ _ H).
  destruct (in_unit_micro neg m e H) as [_ Hu].
  pose proof (plain_unit_str _ Hu) as Hp.
  destruct neg.
  - split; [|discriminate]. rewrite all_chars_app, Hp. reflexivity.
  - rewrite sapp_nil_l. split; [exact Hp | discriminate].
Qed.

(** ** Tokens and lines of the written form *)

Lemma join_nil sep : join sep [] = EmptyString.
Proof. reflexivity. Qed.

Lemma join_one sep x : join sep [x] = x.
Proof. reflexivity. Qed.

Lemma join_cons2 sep x y l : join sep (x :: y :: l) = x +:+ sep +:+ join sep (y :: l).
Proof. reflexivity. Qed.

Lemma join_cons_nonempty sep x l : x <> EmptyString -> join sep (x :: l) <> EmptyString.
Proof.
  intros Hx. destruct l as [|y l]; [exact Hx|].
  rewrite join_cons2. destruct x; [congruence | discriminate].
Qed.

Lemma split_token t : token t -> split t = [t].
Proof.
  intros [Hne Hp]. induction t as [|c t IH]; [congruence|].
  simpl in Hp. apply andb_true_iff in Hp as [Hc Ht].
  destruct (plain_char_facts c Hc) as (Hsp & _).
  destruct t as [|c' t'].
  - simpl. rewrite Hsp. reflexivity.
  - rewrite split_cons2, Hsp.
    pose proof Ht as Ht'. simpl in Ht'. apply andb_true_iff in Ht' as [Hc' _].
    destruct (plain_char_facts c' Hc') as (-> & _).
    rewrite IH by (congruence || exact Ht). reflexivity.
Qed.

Lemma split_space s : split (String " " s) = split s.
Proof. reflexivity. Qed.

Lemma split_token_app t s :
  token t -> split (t +:+ String " " s) = t :: split s.
Proof.
  intros [Hne Hp]. induction t as [|c t IH]; [congruence|].
  simpl in Hp. apply andb_true_iff in Hp as [Hc Ht].
  destruct (plain_char_facts c Hc) as (Hsp & _).
  destruct t as [|c' t'].
  - rewrite sapp_cons, sapp_nil_l, split_cons2, Hsp. reflexivity.
  - rewrite !sapp_cons, split_cons2, Hsp.
    pose proof Ht as Ht'. simpl in Ht'. apply andb_true_iff in Ht' as [Hc' _].
    destruct (plain_char_facts c' Hc') as (-> & _).
    rewrite <- sapp_cons, IH by (congruence || exact Ht). reflexivity.
Qed.

Lemma split_join ts : Forall token ts -> split (join " " ts) = ts.
Proof.
  induction 1 as [|t ts Ht Hts IH]; [reflexivity|].
  destruct ts as [|t' ts'].
  - rewrite join_one. apply split_token. exact Ht.
  - rewrite join_cons2. change (" " +:+ ?x) with (String " " x).
    rewrite split_token_app by exact Ht. rewrite IH. reflexivity.
Qed.

Lemma rstrip_plain t : all_chars plain_char t = true -> rstrip t = t.
Proof.
  induction t as [|c t IH]; [reflexivity|].
  simpl. intros H. apply andb_true_iff in H as [Hc Ht].
  rewrite (IH Ht). destruct (plain_char_facts c Hc) as (-> & _).
  rewrite andb_false_r. reflexivity.
Qed.

Lemma rstrip_app_keep s t :
  rstrip t = t -> t <> EmptyString -> rstrip (s +:+ t) = s +:+ t.
Proof.
  intros Ht Hne. induction s as [|c s IH]; [exact Ht|].
  rewrite sapp_cons. cbn [rstrip]. rewrite IH.
  destruct (s +:+ t) eqn:E; [|reflexivity].
  destruct s; [rewrite sapp_nil_l in E; congruence | discriminate].
Qed.

Lemma rstrip_app_space s c :
  isspace c = true -> rstrip (s +:+ String c EmptyString) = rstrip s.
Proof.
  intros Hc. induction s as [|a s IH].
  - simpl. rewrite Hc. reflexivity.
  - rewrite sapp_cons. cbn [rstrip]. rewrite IH. reflexivity.
Qed.

Lemma lstrip_app s t : lstrip s = s -> s <> EmptyString -> lstrip (s +:+ t) = s +:+ t.
Proof.
  destruct s as [|c s]; [congruence|]. intros H _.
  rewrite sapp_cons. simpl in *. destruct (isspace c); [|reflexivity].
  exfalso. assert (Hl : forall u, (String.length (lstrip u) <= String.length u)%nat).
  { induction u as [|a u IHu]; simpl; [lia|]. destruct (isspace a); simpl; lia. }
  specialize (Hl s). rewrite H in Hl. simpl in Hl. lia.
Qed.

Lemma token_tight t : token t -> tight t.
Proof.
  intros [Hne Hp]. split; [|split; [apply rstrip_plain; exact Hp | exact Hne]].
  destruct t as [|c t]; [congruence|]. simpl in *.
  apply andb_true_iff in Hp as [Hc _].
  destruct (plain_char_facts c Hc) as (-> & _). reflexivity.
Qed.

Lemma tight_app_sep s c t : tight s -> tight t -> tight (s +:+ String c t).
Proof.
  intros (Hl & _ & Hne) (_ & Hr & Hne').
  split; [apply lstrip_app; assumption|]. split.
  - apply rstrip_app_keep; [|discriminate].
    change (String c t) with (String c EmptyString +:+ t).
    apply rstrip_app_keep; assumption.
  - destruct s; [congruence | discriminate].
Qed.

Lemma tight_join (sep : ascii) ls :
  Forall tight ls -> ls <> [] -> tight (join (String sep EmptyString) ls).
Proof.
  induction 1 as [|l ls Hl Hls IH]; [congruence|]. intros _.
  destruct ls as [|l' ls'].
  - rewrite join_one. exact Hl.
  - rewrite join_cons2. change (String sep EmptyString +:+ ?x) with (String sep x).
    apply tight_app_sep; [exact Hl | apply IH; discriminate].
Qed.

Lemma tight_strip s : tight s -> strip s = s.
Proof. intros (Hl & Hr & _). unfold strip. rewrite Hl. exact Hr. Qed.

Lemma all_chars_join p (sep : ascii) ls :
  p sep = true -> Forall (fun l => all_chars p l = true) ls ->
  all_chars p (join (String sep EmptyString) ls) = true.
Proof.
  intros Hsep. induction 1 as [|l ls Hl Hls IH]; [reflexivity|].
  destruct ls as [|l' ls'].
  - rewrite join_one. exact Hl.
  - rewrite join_cons2, !all_chars_app, Hl, IH. simpl. rewrite Hsep. reflexivity.
Qed.

(** ** The loop body in one equation *)

Lemma floats_length l cs : floats l = Some cs -> length cs = length l.
Proof.
  revert cs. induction l as [|x l IH]; intros cs; simpl.
  - intros [= <-]. reflexivity.
  - destruct (py_float x); [|discriminate].
    destruct (floats l) as [cs'|]; [|discriminate].
    intros [= <-]. simpl. rewrite (IH cs' eq_refl). reflexivity.
Qed.

Lemma recognized_5 : recognized 5 = true.
Proof. reflexivity. Qed.

Lemma recognized_cases n :
  recognized n = ((n =? 5)%nat || is_polygon_len n).
Proof. reflexivity. Qed.

Lemma polygon_len_not_5 n : (n =? 5)%nat = true -> is_polygon_len n = false.
Proof. intros H. apply Nat.eqb_eq in H. subst. reflexivity. Qed.

Lemma fix_line_eq line :
  fix_line line =
  if recognized (length (split line)) then accept (split line) else None.
Proof.
  unfold fix_line. rewrite split_strip.
  destruct (is_empty (strip line)) eqn:He.
  { apply is_empty_true in He.
    pose proof (split_strip line) as Hs. rewrite He in Hs. simpl in Hs.
    rewrite <- Hs. reflexivity. }
  unfold recognized, accept.
  set (parts := split line).
  destruct (length parts =? 5)%nat eqn:H5.
  - cbn [orb]. apply Nat.eqb_eq in H5.
    destruct (py_int (hd EmptyString parts)) as [class_id|]; [|reflexivity].
    destruct (floats (tl parts)) as [coords|] eqn:Hf; [|reflexivity].
    apply floats_length in Hf. rewrite length_tl, H5 in Hf.
    destruct coords as [|a [|b [|c [|d [|? ?]]]]]; try discriminate.
    reflexivity.
  - cbn [orb]. destruct (is_polygon_len (length parts)) eqn:Hp; [|reflexivity].
    destruct (py_int (hd EmptyString parts)) as [class_id|]; [|reflexivity].
    destruct (floats (tl parts)) as [coords|] eqn:Hf; [|reflexivity].
    apply floats_length in Hf. rewrite length_tl in Hf.
    destruct coords as [|a coords].
    { exfalso. unfold is_polygon_len in Hp. apply andb_true_iff in Hp as [Hp _].
      apply Nat.leb_le in Hp. simpl in Hf. lia. }
    reflexivity.
Qed.

Lemma class_check_all : forallb class_check (map Z.of_nat (seq 0 40)) = true.
Proof. vm_compute. reflexivity. Qed.

Lemma class_id_facts class_id :
  class_ok class_id = true ->
  py_int (str_of_int class_id) = Some class_id /\
  str_of_int class_id <> EmptyString /\
  all_chars is_digit (str_of_int class_id) = true.
Proof.
  intros H. unfold class_ok in H. apply andb_true_iff in H as [H0 H1].
  apply Z.leb_le in H0, H1.
  pose proof class_check_all as Hall.
  rewrite forallb_forall in Hall.
  specialize (Hall class_id).
  assert (Hin : In class_id (map Z.of_nat (seq 0 40))).
  { apply in_map_iff. exists (Z.to_nat class_id). split; [lia|].
    apply in_seq. lia. }
  specialize (Hall Hin). unfold class_check in Hall.
  apply andb_true_iff in Hall as [Hall Hd].
  apply andb_true_iff in Hall as [Hp He].
  destruct (py_int (str_of_int class_id)) as [z|]; [|discriminate].
  apply Z.eqb_eq in Hp. subst z.
  split; [reflexivity|]. split; [|exact Hd].
  apply is_empty_false. apply negb_true_iff. exact He.
Qed.

Lemma digit_plain c : is_digit c = true -> plain_char c = true.
Proof. intros H. unfold plain_char. rewrite H. reflexivity. Qed.

Lemma class_id_token class_id : class_ok class_id = true -> token (str_of_int class_id).
Proof.
  intros H. destruct (class_id_facts _ H) as (_ & Hne & Hd).
  split; [exact Hne|]. eapply all_chars_impl; [exact digit_plain | exact Hd].
Qed.

Lemma floats_format6 coords :
  forallb in_unit coords = true ->
  exists ys, floats (map format6 coords) = Some ys /\
             forallb in_unit ys = true /\
             map format6 ys = map format6 coords.
Proof.
  induction coords as [|c coords IH]; intros H.
  - exists []. auto.
  - simpl in H. apply andb_true_iff in H as [Hc Hcs].
    destruct (format6_roundtrip c Hc) as (y & Hy & Hyu & Hyf).
    destruct (IH Hcs) as (ys & Hys & Hysu & Hysf).
    exists (y :: ys). simpl. rewrite Hy, Hys, Hyu, Hysu, Hyf, Hysf. auto.
Qed.

Lemma tokens_format6 coords :
  forallb in_unit coords = true -> Forall token (map format6 coords).
Proof.
  induction coords as [|c coords IH]; intros H; [constructor|].
  simpl in H. apply andb_true_iff in H as [Hc Hcs].
  constructor; [|apply IH; exact Hcs].
  destruct (format6_plain c Hc) as [Hp Hne]. split; assumption.
Qed.

Lemma accept_canonical class_id coords :
  class_ok class_id = true -> forallb in_unit coords = true ->
  let toks := str_of_int class_id :: map format6 coords in
  Forall token toks /\ accept toks = Some (join " " toks).
Proof.
  intros Hc Hu toks. split.
  - constructor; [apply class_id_token; exact Hc | apply tokens_format6; exact Hu].
  - unfold accept, toks. cbn [hd tl].
    destruct (class_id_facts _ Hc) as (-> & _).
    destruct (floats_format6 coords Hu) as (ys & -> & Hys & Hf).
    rewrite Hc, Hys, Hf. reflexivity.
Qed.

Lemma accept_inv parts out :
  accept parts = Some out ->
  exists class_id coords,
    py_int (hd EmptyString parts) = Some class_id /\
    floats (tl parts) = Some coords /\
    class_ok class_id = true /\ forallb in_unit coords = true /\
    out = join " " (str_of_int class_id :: map format6 coords).
Proof.
  unfold accept.
  destruct (py_int (hd EmptyString parts)) as [class_id|]; [|discriminate].
  destruct (floats (tl parts)) as [coords|]; [|discriminate].
  destruct (class_ok class_id && forallb in_unit coords) eqn:H; [|discriminate].
  intros [= <-]. apply andb_true_iff in H as [H1 H2].
  exists class_id, coords. auto.
Qed.

(** An accepted line is written in a form that is accepted again, and
    written the same. *)
Lemma fix_line_fixed line out :
  fix_line line = Some out -> fix_line out = Some out.
Proof.
  rewrite fix_line_eq.
  destruct (recognized (length (split line))) eqn:Hr; [|discriminate].
  intros Ha. destruct (accept_inv _ _ Ha) as (class_id & coords & _ & Hf & Hc & Hu & ->).
  destruct (accept_canonical class_id coords Hc Hu) as [Htok Hacc].
  rewrite fix_line_eq, (split_join _ Htok), Hacc.
  apply floats_length in Hf. rewrite length_tl in Hf.
  assert (Hlen : length (str_of_int class_id :: map format6 coords) = length (split line)).
  { simpl. rewrite length_map, Hf.
    destruct (split line); [discriminate Hr | simpl; lia]. }
  rewrite Hlen, Hr. reflexivity.
Qed.

(** ** The text written to a file *)

Lemma fix_lines_acc l : forall acc,
  fold_left
    (fun fixed_lines annotation_line =>
       match fix_line annotation_line with
       | Some l => fixed_lines ++ [l]
       | None => fixed_lines
       end) l acc = acc ++ omap fix_line l.
Proof.
  induction l as [|x l IH]; intros acc; simpl.
  - rewrite List.app_nil_r. reflexivity.
  - rewrite IH. destruct (fix_line x); [|reflexivity].
    rewrite <- List.app_assoc. reflexivity.
Qed.

(** [fixed_lines] holds the lines the loop body accepts, in order. *)
Lemma fix_lines_omap l : fix_lines l = omap fix_line l.
Proof. unfold fix_lines. apply fix_lines_acc. Qed.

Lemma split_char_no_sep s :
  all_chars (not_char nl) s = true -> split_char nl s = [s].
Proof.
  induction s as [|c s IH]; [reflexivity|].
  simpl. unfold not_char at 1. intros H. apply andb_true_iff in H as [Hc Hs].
  apply negb_true_iff in Hc. rewrite Hc, (IH Hs). reflexivity.
Qed.

Lemma split_char_app s r :
  all_chars (not_char nl) s = true ->
  split_char nl (s +:+ String nl r) = s :: split_char nl r.
Proof.
  induction s as [|c s IH].
  - intros _. reflexivity.
  - simpl. unfold not_char at 1. intros H. apply andb_true_iff in H as [Hc Hs].
    apply negb_true_iff in Hc. rewrite ?sapp_cons. cbn [split_char].
    rewrite Hc, (IH Hs). reflexivity.
Qed.

Lemma split_char_join ls :
  Forall (fun l => all_chars (not_char nl) l = true) ls -> ls <> [] ->
  split_char nl (join NL ls) = ls.
Proof.
  induction 1 as [|l ls Hl Hls IH]; [congruence|]. intros _.
  destruct ls as [|l' ls'].
  - rewrite join_one. apply split_char_no_sep. exact Hl.
  - rewrite join_cons2. change (NL +:+ ?x) with (String nl x).
    rewrite split_char_app by exact Hl. rewrite IH by discriminate. reflexivity.
Qed.

Lemma replace_from_cons old new c r :
  replace_from old new O (String c r) =
  if String.prefix old (String c r)
  then new +:+ replace_from old new (Nat.pred (String.length old)) r
  else String c (replace_from old new O r).
Proof. reflexivity. Qed.

Lemma prefix_cons a s c r :
  String.prefix (String a s) (String c r) =
  if ascii_dec a c then String.prefix s r else false.
Proof. reflexivity. Qed.

Lemma replace_no_backslash s :
  all_chars (not_char backslash) s = true -> replace "\n" NL s = s.
Proof.
  unfold replace. induction s as [|c s IH]; [reflexivity|].
  cbn [all_chars]. unfold not_char at 1. intros H. apply andb_true_iff in H as [Hc Hs].
  apply negb_true_iff in Hc. apply Ascii.eqb_neq in Hc.
  rewrite replace_from_cons, prefix_cons.
  destruct (ascii_dec "\" c) as [E|_]; [subst c; exfalso; apply Hc; reflexivity|].
  rewrite (IH Hs). reflexivity.
Qed.

Lemma line_char_facts c :
  line_char c = true -> not_char nl c = true /\ not_char backslash c = true.
Proof. all_ascii c. Qed.

Lemma plain_line_char c : plain_char c = true -> line_char c = true.
Proof. intros H. unfold line_char. rewrite H. reflexivity. Qed.

Lemma tokens_written ts : Forall token ts -> ts <> [] -> written_line (join " " ts).
Proof.
  intros Hts Hne. split.
  - apply (tight_join " "); [|exact Hne].
    eapply Forall_impl; [exact Hts | exact token_tight].
  - apply (all_chars_join line_char " "); [reflexivity|].
    eapply Forall_impl; [exact Hts|]. intros t [_ Hp].
    eapply all_chars_impl; [exact plain_line_char | exact Hp].
Qed.

Lemma fix_line_written line out : fix_line line = Some out -> written_line out.
Proof.
  rewrite fix_line_eq.
  destruct (recognized (length (split line))); [|discriminate].
  intros Ha. destruct (accept_inv _ _ Ha) as (class_id & coords & _ & _ & Hc & Hu & ->).
  destruct (accept_canonical class_id coords Hc Hu) as [Htok _].
  apply tokens_written; [exact Htok | discriminate].
Qed.

Lemma fix_lines_written l : Forall written_line (fix_lines l).
Proof.
  rewrite fix_lines_omap. induction l as [|x l IH]; [constructor|].
  cbn [omap list_omap]. destruct (fix_line x) as [out|] eqn:E; [|exact IH].
  constructor; [eapply fix_line_written; exact E | exact IH].
Qed.

Lemma fix_lines_fixed l : omap fix_line (fix_lines l) = fix_lines l.
Proof.
  rewrite fix_lines_omap. induction l as [|x l IH]; [reflexivity|].
  cbn [omap list_omap]. destruct (fix_line x) as [out|] eqn:E; [|exact IH].
  cbn [omap list_omap]. rewrite (fix_line_fixed _ _ E).
  f_equal. exact IH.
Qed.

Lemma written_join ls :
  Forall written_line ls -> ls <> [] ->
  tight (join NL ls) /\
  split_char nl (join NL ls) = ls /\
  replace "\n" NL (join NL ls) = join NL ls.
Proof.
  intros Hls Hne. split; [|split].
  - apply (tight_join nl); [|exact Hne].
    eapply Forall_impl; [exact Hls|]. intros l [Ht _]. exact Ht.
  - apply split_char_join; [|exact Hne].
    eapply Forall_impl; [exact Hls|]. intros l [_ Hc].
    eapply all_chars_impl; [|exact Hc]. intros c Hcc. apply line_char_facts. exact Hcc.
  - apply replace_no_backslash.
    apply (all_chars_join (not_char backslash) nl); [reflexivity|].
    eapply Forall_impl; [exact Hls|]. intros l [_ Hc].
    eapply all_chars_impl; [|exact Hc]. intros c Hcc. apply line_char_facts. exact Hcc.
Qed.

Lemma strip_serialize ls :
  Forall written_line ls -> ls <> [] -> strip (serialize ls) = join NL ls.
Proof.
  intros Hls Hne. destruct (written_join ls Hls Hne) as ((Hl & Hr & Hn) & _).
  unfold serialize, strip.
  rewrite lstrip_app by assumption.
  change (join NL ls +:+ NL) with (join NL ls +:+ String nl EmptyString).
  rewrite rstrip_app_space by reflexivity. exact Hr.
Qed.

(** Reading back what was written gives the written lines. *)
Lemma annotations_serialize ls :
  Forall written_line ls -> ls <> [] ->
  all_annotations (strip (serialize ls)) = ls.
Proof.
  intros Hls Hne. rewrite (strip_serialize ls Hls Hne).
  destruct (written_join ls Hls Hne) as (_ & Hs & Hrep).
  unfold all_annotations. rewrite Hrep. exact Hs.
Qed.

(** ** Classification and the rule for one line *)

Lemma is_polygon_len_spec n :
  is_polygon_len n = true <-> (7 <= n)%nat /\ Nat.Odd n.
Proof.
  unfold is_polygon_len. rewrite andb_true_iff, Nat.leb_le, Nat.odd_spec. reflexivity.
Qed.

Lemma recognized_spec n :
  recognized n = true <-> n = 5%nat \/ (7 <= n)%nat /\ Nat.Odd n.
Proof.
  unfold recognized. rewrite orb_true_iff, Nat.eqb_eq, is_polygon_len_spec. reflexivity.
Qed.

Lemma split_char_length sep s : (1 <= length (split_char sep s))%nat.
Proof.
  induction s as [|c s IH]; simpl; [lia|].
  destruct (Ascii.eqb c sep); simpl; [lia|].
  destruct (split_char sep s); simpl in *; lia.
Qed.

(** C1. [classify] returns [Empty] exactly when the stripped content is
    the empty string; [WellFormed] exactly when the stripped content
    splits on newlines into more than one segment and the first segment,
    split on white space, has 5 tokens or an odd number of tokens that is
    at least 7; [Malformed] in every other case.  A content of a single
    segment is never [WellFormed]. *)
Theorem classify_spec (raw : string) :
  let content := strip raw in
  let segments := split_char nl content in
  let tokens := split (hd EmptyString segments) in
  let first_ok := length tokens = 5%nat \/ (7 <= length tokens)%nat /\ Nat.Odd (length tokens) in
  (classify raw = Empty <-> content = EmptyString) /\
  (classify raw = WellFormed <-> (1 < length segments)%nat /\ first_ok) /\
  (classify raw = Malformed <->
     content <> EmptyString /\ ~ ((1 < length segments)%nat /\ first_ok)) /\
  (length segments = 1%nat -> classify raw <> WellFormed).
Proof.
  intros content segments tokens first_ok.
  assert (Hrec : recognized (length (split (strip (hd EmptyString segments)))) = true <-> first_ok).
  { rewrite split_strip. apply recognized_spec. }
  assert (Hcond : ((1 <? length segments)%nat
                   && recognized (length (split (strip (hd EmptyString segments))))) = true
                  <-> (1 < length segments)%nat /\ first_ok).
  { rewrite andb_true_iff, Nat.ltb_lt, Hrec. reflexivity. }
  assert (Hempty : content = EmptyString -> ~ (1 < length segments)%nat).
  { intros E. unfold segments. rewrite E. simpl. lia. }
  unfold classify, fix_content. fold content. fold segments.
  destruct (is_empty content) eqn:He.
  - apply is_empty_true in He. specialize (Hempty He).
    intuition (try congruence; try discriminate; try lia).
  - apply is_empty_false in He.
    destruct ((1 <? length segments)%nat
              && recognized (length (split (strip (hd EmptyString segments))))).
    + destruct Hcond as [Hc _]. specialize (Hc eq_refl).
      intuition (try congruence; try discriminate; try lia).
    + assert (Hn : ~ ((1 < length segments)%nat /\ first_ok)).
      { intros H. apply Hcond in H. discriminate H. }
      destruct (fix_lines (all_annotations content));
        intuition (try congruence; try discriminate; try lia).
Qed.

Lemma class_ok_spec class_id : class_ok class_id = true <-> 0 <= class_id <= 39.
Proof. unfold class_ok. rewrite andb_true_iff, !Z.leb_le. reflexivity. Qed.

Lemma floats_unit l :
  (exists cs, floats l = Some cs /\ forallb in_unit cs = true) <->
  Forall unit_coord l.
Proof.
  induction l as [|t l IH].
  - split; [constructor | exists []; auto].
  - split.
    + intros (cs & Hf & Hu). simpl in Hf.
      destruct (py_float t) as [c|] eqn:Hc; [|discriminate].
      destruct (floats l) as [cs'|] eqn:Hl; [|discriminate].
      injection Hf as <-. simpl in Hu. apply andb_true_iff in Hu as [Hcu Hcs].
      constructor.
      * exists c. unfold in_unit in Hcu. apply andb_true_iff in Hcu. tauto.
      * apply IH. eauto.
    + intros H. inversion H as [|? ? (c & Hc & H0 & H1) Hl]; subst.
      apply IH in Hl as (cs & Hcs & Hu).
      exists (c :: cs). simpl. rewrite Hc, Hcs. split; [reflexivity|].
      unfold in_unit at 1. rewrite H0, H1, Hu. reflexivity.
Qed.

Lemma accept_Some_iff parts :
  is_Some (accept parts) <->
  class_token (hd EmptyString parts) /\ Forall unit_coord (tl parts).
Proof.
  rewrite <- floats_unit. unfold accept, class_token. split.
  - intros [out H].
    destruct (py_int (hd EmptyString parts)) as [class_id|]; [|discriminate].
    destruct (floats (tl parts)) as [coords|]; [|discriminate].
    destruct (class_ok class_id && forallb in_unit coords) eqn:E; [|discriminate].
    apply andb_true_iff in E as [E1 E2]. apply class_ok_spec in E1.
    split; [exists class_id; auto | exists coords; auto].
  - intros [(class_id & -> & Hc) (cs & -> & Hu)].
    apply class_ok_spec in Hc. rewrite Hc, Hu. eauto.
Qed.

Lemma fix_lines_cons x l :
  fix_lines (x :: l) =
  match fix_line x with Some out => out :: fix_lines l | None => fix_lines l end.
Proof. rewrite !fix_lines_omap. reflexivity. Qed.

Lemma fix_lines_app a b : fix_lines (a ++ b) = fix_lines a ++ fix_lines b.
Proof.
  induction a as [|x a IH]; [reflexivity|].
  rewrite <- app_comm_cons, !fix_lines_cons, IH.
  destruct (fix_line x); reflexivity.
Qed.

(** C2. A line of five tokens is accepted exactly when its first token
    reads as an integer in [0, 39] and each of the other four reads as a
    float in [0, 1]; a line that is not accepted adds nothing to the
    output and the lines after it are still processed.  The sole line
    [40 0.1 0.2 0.3 0.4] is rejected, so that file has no valid
    annotation. *)
Theorem box_line_rule (line t0 t1 t2 t3 t4 : string) :
  split line = [t0; t1; t2; t3; t4] ->
  (is_Some (fix_line line) <->
     class_token t0 /\ Forall unit_coord [t1; t2; t3; t4]) /\
  (fix_line line = None ->
     forall before after,
       fix_lines (before ++ line :: after) = fix_lines before ++ fix_lines after) /\
  fix_content "40 0.1 0.2 0.3 0.4" = NoValidAnnotations.
Proof.
  intros Hs. split; [|split].
  - rewrite fix_line_eq, Hs. cbn [length]. rewrite recognized_5.
    rewrite accept_Some_iff. reflexivity.
  - intros Hn before after.
    rewrite fix_lines_app, fix_lines_cons, Hn. reflexivity.
  - vm_compute. reflexivity.
Qed.

Lemma box_line_rule_witness :
  split "7 0.5 0.25 1 0" = ["7"; "0.5"; "0.25"; "1"; "0"] /\
  (is_Some (fix_line "7 0.5 0.25 1 0") <->
     class_token "7" /\ Forall unit_coord ["0.5"; "0.25"; "1"; "0"]).
Proof.
  split; [reflexivity|].
  apply (box_line_rule "7 0.5 0.25 1 0" "7" "0.5" "0.25" "1" "0"). reflexivity.
Defined.

(** C3. A line whose number of tokens is odd and at least 7 is accepted
    exactly when its first token reads as an integer in [0, 39] and every
    other token reads as a float in [0, 1]; a line with any other number
    of tokens than 5 is dropped, and the loop goes on.  A line of seven
    tokens with valid values is written out with its three points. *)
Theorem polygon_line_rule (line : string) :
  let parts := split line in
  ((7 <= length parts)%nat /\ Nat.Odd (length parts) ->
     (is_Some (fix_line line) <->
        class_token (hd EmptyString parts) /\ Forall unit_coord (tl parts))) /\
  (length parts <> 5%nat ->
   ~ ((7 <= length parts)%nat /\ Nat.Odd (length parts)) ->
     fix_line line = None /\
     forall before after,
       fix_lines (before ++ line :: after) = fix_lines before ++ fix_lines after) /\
  (length parts = 7%nat ->
   class_token (hd EmptyString parts) -> Forall unit_coord (tl parts) ->
     exists class_id coords,
       length coords = 6%nat /\
       fix_line line = Some (join " " (str_of_int class_id :: map format6 coords))) /\
  fix_line "4 0.02 0.42 0.28 0.41 0.31 0.40" =
    Some "4 0.020000 0.420000 0.280000 0.410000 0.310000 0.400000".
Proof.
  intros parts. split; [|split; [|split]].
  - intros Hp. rewrite fix_line_eq. fold parts.
    assert (Hr : recognized (length parts) = true) by (apply recognized_spec; tauto).
    rewrite Hr. apply accept_Some_iff.
  - intros H5 Hp.
    assert (Hr : recognized (length parts) = false).
    { destruct (recognized (length parts)) eqn:E; [|reflexivity].
      apply recognized_spec in E. tauto. }
    assert (Hn : fix_line line = None)
      by (rewrite fix_line_eq; fold parts; rewrite Hr; reflexivity).
    split; [exact Hn|]. intros before after.
    rewrite fix_lines_app, fix_lines_cons, Hn. reflexivity.
  - intros H7 Hc Hu.
    assert (Hs : is_Some (accept parts)) by (apply accept_Some_iff; tauto).
    destruct Hs as [out Hout].
    destruct (accept_inv _ _ Hout) as (class_id & coords & _ & Hf & _ & _ & ->).
    exists class_id, coords. split.
    + apply floats_length in Hf. rewrite length_tl, H7 in Hf. exact Hf.
    + rewrite fix_line_eq. fold parts. rewrite H7. exact Hout.
  - vm_compute. reflexivity.
Qed.

(** ** Reading and writing the label file *)

Lemma write_file_ok label_file text w :
  writable label_file w = true ->
  write_file label_file text w = (None, written label_file text w).
Proof.
  unfold writable, write_file.
  destruct (files w !! label_file) as [[r [e|] [e'|]]|];
    first [discriminate | reflexivity].
Qed.

Lemma read_written label_file text w :
  read_file label_file (written label_file text w) = Text text.
Proof. unfold read_file, written. cbn [files]. rewrite lookup_insert_eq. reflexivity. Qed.

Lemma writable_written label_file text w :
  writable label_file (written label_file text w) = true.
Proof. unfold writable, written. cbn [files]. rewrite lookup_insert_eq. reflexivity. Qed.

Lemma fix_content_cases raw :
  (strip raw = EmptyString /\ fix_content raw = EmptyFile) \/
  (strip raw <> EmptyString /\ fix_content raw = AlreadyCorrect) \/
  (strip raw <> EmptyString /\ accepted_lines raw = [] /\
   fix_content raw = NoValidAnnotations) \/
  (strip raw <> EmptyString /\ accepted_lines raw <> [] /\
   fix_content raw = Fixed (accepted_lines raw)).
Proof.
  unfold fix_content, accepted_lines.
  destruct (is_empty (strip raw)) eqn:He.
  { apply is_empty_true in He. auto. }
  apply is_empty_false in He. right.
  destruct (_ && _); [auto|]. right.
  destruct (fix_lines (all_annotations (strip raw))); [left | right];
    (split; [exact He|]); (split; [try reflexivity; discriminate | reflexivity]).
Qed.

Lemma fix_content_malformed raw :
  classify raw = Malformed ->
  strip raw <> EmptyString /\
  fix_content raw =
    match accepted_lines raw with
    | [] => NoValidAnnotations
    | fixed_lines => Fixed fixed_lines
    end.
Proof.
  unfold classify.
  destruct (fix_content_cases raw) as [[? E]|[[? E]|[(? & Ha & E)|(? & Ha & E)]]];
    rewrite E; try discriminate; intros _; (split; [assumption|]).
  - rewrite Ha. reflexivity.
  - destruct (accepted_lines raw); [congruence | reflexivity].
Qed.

Lemma app_one_neq {A} (l : list A) x : l ++ [x] <> l.
Proof.
  intros H. apply (f_equal (@length A)) in H. rewrite length_app in H. simpl in H. lia.
Qed.

(** C4. On a file that can be read and written, the repair writes the
    file exactly when at least one line was accepted, and the result is
    then [Fixed n] with [n >= 1]; with content but no accepted line the
    result is [No valid annotations found] and nothing is written or
    changed; a file that is empty once stripped gives [Empty file] and
    nothing is written or changed. *)
Theorem repair_writes_iff (label_file : string) (w : world) (raw : string) :
  read_file label_file w = Text raw ->
  writable label_file w = true ->
  let accepted := accepted_lines raw in
  let result := fst (fix_label_format label_file w) in
  let w' := snd (fix_label_format label_file w) in
  (classify raw = Malformed ->
     (journal w' <> journal w <-> accepted <> []) /\
     (accepted <> [] ->
        result = (true, "Fixed " +:+ str_of_int (Z.of_nat (length accepted))
                          +:+ " annotations") /\
        (1 <= length accepted)%nat /\
        journal w' = journal w ++ [(label_file, serialize accepted)] /\
        read_file label_file w' = Text (serialize accepted)) /\
     (accepted = [] ->
        strip raw <> EmptyString /\
        result = (false, "No valid annotations found") /\ w' = w)) /\
  (strip raw = EmptyString -> result = (false, "Empty file") /\ w' = w).
Proof.
  intros Hr Hw accepted result w'.
  unfold result, w', fix_label_format. rewrite Hr. split.
  - intros Hm. destruct (fix_content_malformed raw Hm) as [Hne ->].
    fold accepted. destruct accepted as [|l ls] eqn:Ha.
    + cbn [fst snd]. split; [tauto|]. split; [congruence | tauto].
    + rewrite (write_file_ok _ _ _ Hw). cbn [fst snd written journal].
      split; [|split; [|discriminate]].
      * split; [discriminate | intros _; apply app_one_neq].
      * intros _. split; [reflexivity|]. split; [simpl; lia|].
        split; [reflexivity|]. apply read_written.
  - intros He.
    destruct (fix_content_cases raw) as [[_ E]|[[? E]|[(? & _ & E)|(? & _ & E)]]];
      try contradiction.
    rewrite E. auto.
Qed.

Lemma repair_writes_iff_witness :
  read_file "a.txt" (w_one "40 0.1 0.2 0.3 0.4") = Text "40 0.1 0.2 0.3 0.4" /\
  writable "a.txt" (w_one "40 0.1 0.2 0.3 0.4") = true /\
  snd (fix_label_format "a.txt" (w_one "40 0.1 0.2 0.3 0.4")) =
    w_one "40 0.1 0.2 0.3 0.4".
Proof.
  split; [reflexivity|]. split; [reflexivity|].
  pose proof (repair_writes_iff "a.txt" (w_one "40 0.1 0.2 0.3 0.4")
                "40 0.1 0.2 0.3 0.4" eq_refl eq_refl) as [Hm _].
  destruct (Hm eq_refl) as (_ & _ & Hn).
  apply Hn. reflexivity.
Defined.

(** ** Escaped newlines, the written form and repeated repair *)

Lemma replace_from_app_plain a s :
  all_chars (not_char backslash) a = true ->
  replace_from "\n" NL O (a +:+ s) = a +:+ replace_from "\n" NL O s.
Proof.
  induction a as [|c a IH]; [reflexivity|].
  cbn [all_chars]. unfold not_char at 1. intros H. apply andb_true_iff in H as [Hc Ha].
  apply negb_true_iff in Hc. apply Ascii.eqb_neq in Hc.
  rewrite !sapp_cons, replace_from_cons, prefix_cons.
  destruct (ascii_dec "\" c) as [E|_]; [subst c; exfalso; apply Hc; reflexivity|].
  rewrite (IH Ha). reflexivity.
Qed.

Lemma prefix_empty s : String.prefix EmptyString s = true.
Proof. destruct s; reflexivity. Qed.

Lemma replace_from_escaped b :
  replace_from "\n" NL O (String "\" (String "n" b)) =
  String nl (replace_from "\n" NL O b).
Proof.
  rewrite replace_from_cons, prefix_cons.
  destruct (ascii_dec "\" "\") as [_|N]; [|exfalso; apply N; reflexivity].
  rewrite prefix_cons.
  destruct (ascii_dec "n" "n") as [_|N]; [|exfalso; apply N; reflexivity].
  rewrite prefix_empty. reflexivity.
Qed.

Lemma replace_escaped a b :
  all_chars (not_char backslash) a = true ->
  replace "\n" NL (a +:+ "\n" +:+ b) = a +:+ NL +:+ replace "\n" NL b.
Proof.
  intros Ha. unfold replace. rewrite (replace_from_app_plain a _ Ha).
  change ("\n" +:+ b) with (String "\" (String "n" b)).
  rewrite replace_from_escaped. reflexivity.
Qed.

Lemma replace_newline a b :
  all_chars (not_char backslash) a = true ->
  replace "\n" NL (a +:+ NL +:+ b) = a +:+ NL +:+ replace "\n" NL b.
Proof.
  intros Ha. unfold replace. rewrite (replace_from_app_plain a _ Ha). reflexivity.
Qed.

(** C6. The two characters backslash, n are turned into a newline before
    the text is split on newlines, so they separate annotations as a
    newline does; the one-line text of the two boxes 10 and 12 joined by
    backslash, n is repaired to the two lines with six decimals. *)
Theorem escaped_newline_split :
  (forall a b : string,
     all_chars (not_char backslash) a = true ->
     replace "\n" NL (a +:+ "\n" +:+ b) = a +:+ NL +:+ replace "\n" NL b /\
     all_annotations (a +:+ "\n" +:+ b) = all_annotations (a +:+ NL +:+ b)) /\
  all_annotations "10 0.1 0.2 0.3 0.4\n12 0.5 0.5 0.1 0.1" =
    ["10 0.1 0.2 0.3 0.4"; "12 0.5 0.5 0.1 0.1"] /\
  fix_content "10 0.1 0.2 0.3 0.4\n12 0.5 0.5 0.1 0.1" =
    Fixed ["10 0.100000 0.200000 0.300000 0.400000";
           "12 0.500000 0.500000 0.100000 0.100000"] /\
  snd (fix_label_format "a.txt" (w_one "10 0.1 0.2 0.3 0.4\n12 0.5 0.5 0.1 0.1")) =
    written "a.txt"
      ("10 0.100000 0.200000 0.300000 0.400000" +:+ NL +:+
       "12 0.500000 0.500000 0.100000 0.100000" +:+ NL)
      (w_one "10 0.1 0.2 0.3 0.4\n12 0.5 0.5 0.1 0.1").
Proof.
  split; [|split; [|split]].
  - intros a b Ha. split; [apply replace_escaped; exact Ha|].
    unfold all_annotations.
    rewrite (replace_escaped a b Ha), (replace_newline a b Ha). reflexivity.
  - vm_compute. reflexivity.
  - vm_compute. reflexivity.
  - vm_compute. reflexivity.
Qed.

Lemma format6_six_decimals x : in_unit x = true -> six_decimals (format6 x).
Proof.
  intros H. destruct (in_unit_fin x H) as (neg & m & e & ->).
  rewrite (format6_unit _ _ _ H).
  destruct (in_unit_micro neg m e H) as [_ Hu].
  exists (if neg then "-" else EmptyString), (micro m e / 1000000),
         (digits6 (micro m e mod 1000000)).
  split; [reflexivity|]. split; [destruct neg; auto|].
  split; [apply unit_digit; exact Hu|]. split; [reflexivity | apply digits6_digit].
Qed.

Lemma fix_lines_stable l : Forall stable_line (fix_lines l).
Proof.
  rewrite fix_lines_omap. induction l as [|x l IH]; [constructor|].
  cbn [omap list_omap]. destruct (fix_line x) as [out|] eqn:E; [|exact IH].
  constructor; [|exact IH].
  split; [eapply fix_line_written | eapply fix_line_fixed]; exact E.
Qed.

Lemma stable_written ls : Forall stable_line ls -> Forall written_line ls.
Proof. intros H. eapply Forall_impl; [exact H|]. intros l [Hl _]. exact Hl. Qed.

Lemma stable_fix_lines ls : Forall stable_line ls -> fix_lines ls = ls.
Proof.
  rewrite fix_lines_omap. induction 1 as [|l ls [_ Hl] _ IH]; [reflexivity|].
  cbn [omap list_omap]. rewrite Hl, IH. reflexivity.
Qed.

Lemma written_line_facts l :
  written_line l -> l <> EmptyString /\ all_chars (not_char nl) l = true.
Proof.
  intros [(_ & _ & Hne) Hc]. split; [exact Hne|].
  eapply all_chars_impl; [|exact Hc]. intros c Hcc. apply line_char_facts. exact Hcc.
Qed.

Lemma split_char_serialize ls :
  Forall (fun l => all_chars (not_char nl) l = true) ls -> ls <> [] ->
  split_char nl (serialize ls) = ls ++ [EmptyString].
Proof.
  unfold serialize, NL.
  induction 1 as [|l ls Hl Hls IH]; intros Hne; [congruence|].
  destruct ls as [|l' ls'].
  - rewrite join_one, (split_char_app l EmptyString Hl). reflexivity.
  - rewrite join_cons2. unfold NL. rewrite sapp_assoc. cbn [Datatypes.app].
    change (String nl EmptyString +:+ join (String nl EmptyString) (l' :: ls'))
      with (String nl (EmptyString +:+ join (String nl EmptyString) (l' :: ls'))).
    rewrite sapp_nil_l.
    change (String nl (join (String nl EmptyString) (l' :: ls')) +:+ String nl EmptyString)
      with (String nl (join (String nl EmptyString) (l' :: ls') +:+ String nl EmptyString)).
    rewrite (split_char_app l _ Hl), IH by discriminate. reflexivity.
Qed.

(** C7. A line is accepted exactly when it is rendered as the class id
    in plain decimal digits followed by every coordinate with six
    decimals, with single spaces between them, so that its tokens are
    these and no others.  The lines written are the renderings of the
    accepted lines, in the order of the input; the file receives them
    joined by single newlines and followed by one newline, and no
    written line is empty or contains a newline. *)
Theorem serialized_form :
  (forall line out : string,
     fix_line line = Some out <->
     exists (class_id : Z) (coords : list pyfloat),
       recognized (length (split line)) = true /\
       py_int (hd EmptyString (split line)) = Some class_id /\
       floats (tl (split line)) = Some coords /\
       0 <= class_id <= 39 /\
       forallb in_unit coords = true /\
       out = join " " (str_of_int class_id :: map format6 coords)) /\
  (forall (class_id : Z) (coords : list pyfloat),
     0 <= class_id <= 39 ->
     forallb in_unit coords = true ->
     str_of_int class_id <> EmptyString /\
     all_chars is_digit (str_of_int class_id) = true /\
     py_int (str_of_int class_id) = Some class_id /\
     Forall six_decimals (map format6 coords) /\
     split (join " " (str_of_int class_id :: map format6 coords)) =
       str_of_int class_id :: map format6 coords) /\
  (forall (label_file : string) (w : world) (raw : string) (fixed_lines : list string),
     read_file label_file w = Text raw ->
     writable label_file w = true ->
     fix_content raw = Fixed fixed_lines ->
     fixed_lines = omap fix_line (all_annotations (strip raw)) /\
     fixed_lines <> [] /\
     snd (fix_label_format label_file w) =
       written label_file (join NL fixed_lines +:+ NL) w /\
     read_file label_file (snd (fix_label_format label_file w)) =
       Text (join NL fixed_lines +:+ NL) /\
     Forall (fun l => l <> EmptyString /\ all_chars (not_char nl) l = true)
            fixed_lines /\
     split_char nl (join NL fixed_lines +:+ NL) = fixed_lines ++ [EmptyString]) /\
  fix_label_format "a.txt"
    (w_one ("x y" +:+ NL +:+ "3 .5 0.25 1 0" +:+ NL +:+ NL +:+
            " 12 0.1 0.2  0.3 0.4 0.5 1e-7 ")) =
    ((true, "Fixed 2 annotations"),
     written "a.txt"
       ("3 0.500000 0.250000 1.000000 0.000000" +:+ NL +:+
        "12 0.100000 0.200000 0.300000 0.400000 0.500000 0.000000" +:+ NL)
       (w_one ("x y" +:+ NL +:+ "3 .5 0.25 1 0" +:+ NL +:+ NL +:+
               " 12 0.1 0.2  0.3 0.4 0.5 1e-7 "))).
Proof.
  split; [|split; [|split]].
  - intros line out. rewrite fix_line_eq. split.
    + intros H. destruct (recognized (length (split line))) eqn:Hrec; [|discriminate].
      destruct (accept_inv _ _ H) as (class_id & coords & Hi & Hf & Hc & Hu & ->).
      exists class_id, coords. apply class_ok_spec in Hc. auto 10.
    + intros (class_id & coords & Hrec & Hi & Hf & Hc & Hu & ->).
      rewrite Hrec. unfold accept. rewrite Hi, Hf.
      apply class_ok_spec in Hc. rewrite Hc, Hu. reflexivity.
  - intros class_id coords Hc Hu. apply class_ok_spec in Hc.
    destruct (class_id_facts _ Hc) as (Hp & Hne & Hd).
    destruct (accept_canonical class_id coords Hc Hu) as [Htok _].
    split; [exact Hne|]. split; [exact Hd|]. split; [exact Hp|].
    split; [|apply split_join; exact Htok].
    clear -Hu. induction coords as [|c coords IH]; [constructor|].
    simpl in Hu. apply andb_true_iff in Hu as [Hcu Hcs].
    constructor; [apply format6_six_decimals; exact Hcu | apply IH; exact Hcs].
  - intros label_file w raw fixed_lines Hr Hw Hf.
    assert (Hfl : fixed_lines = accepted_lines raw /\ fixed_lines <> []).
    { destruct (fix_content_cases raw) as [[_ E]|[[? E]|[(? & _ & E)|(? & Hne & E)]]];
        rewrite E in Hf; try discriminate.
      injection Hf as <-. auto. }
    destruct Hfl as [Hacc Hne].
    assert (Hlines : Forall (fun l => l <> EmptyString /\ all_chars (not_char nl) l = true)
                       fixed_lines).
    { rewrite Hacc. unfold accepted_lines.
      eapply Forall_impl; [apply fix_lines_written|]. exact written_line_facts. }
    split; [rewrite Hacc; unfold accepted_lines; apply fix_lines_omap|].
    split; [exact Hne|].
    assert (Hrun : snd (fix_label_format label_file w) =
                   written label_file (join NL fixed_lines +:+ NL) w).
    { unfold fix_label_format. rewrite Hr, Hf, (write_file_ok _ _ _ Hw). reflexivity. }
    split; [exact Hrun|]. split; [rewrite Hrun; apply read_written|].
    split; [exact Hlines|].
    apply split_char_serialize; [|exact Hne].
    eapply Forall_impl; [exact Hlines|]. intros l [_ Hl]. exact Hl.
  - vm_compute. reflexivity.
Qed.

Lemma serialized_form_witness :
  read_file "a.txt" (w_one "7 .5 0.25 1 0") = Text "7 .5 0.25 1 0" /\
  writable "a.txt" (w_one "7 .5 0.25 1 0") = true /\
  fix_content "7 .5 0.25 1 0" = Fixed ["7 0.500000 0.250000 1.000000 0.000000"] /\
  read_file "a.txt" (snd (fix_label_format "a.txt" (w_one "7 .5 0.25 1 0"))) =
    Text ("7 0.500000 0.250000 1.000000 0.000000" +:+ NL).
Proof.
  split; [reflexivity|]. split; [reflexivity|]. split; [reflexivity|].
  destruct serialized_form as (_ & _ & H & _).
  destruct (H "a.txt" (w_one "7 .5 0.25 1 0") "7 .5 0.25 1 0"
              ["7 0.500000 0.250000 1.000000 0.000000"] eq_refl eq_refl eq_refl)
    as (_ & _ & _ & Hr & _).
  exact Hr.
Defined.

(** Repairing the text written by a repair gives the same lines. *)
Lemma repair_stable raw :
  accepted_lines (serialize (accepted_lines raw)) = accepted_lines raw.
Proof.
  unfold accepted_lines at 1 3.
  pose proof (fix_lines_stable (all_annotations (strip raw))) as Hs.
  fold (accepted_lines raw) in Hs |- *.
  destruct (accepted_lines raw) as [|l ls] eqn:E; [reflexivity|].
  rewrite annotations_serialize by (apply stable_written; exact Hs) || discriminate.
  apply stable_fix_lines. exact Hs.
Qed.

(** C8. For a content classified as well formed, repairing the text
    that a repair writes yields the same lines, hence the same text: a
    second application changes nothing further.  On such a content
    [fix_label_format] itself reports it as already correct and leaves
    the file system as it is, however often it is run. *)
Theorem repair_idempotent (raw : string) :
  classify raw = WellFormed ->
  let fixed_lines := accepted_lines raw in
  accepted_lines (serialize fixed_lines) = fixed_lines /\
  serialize (accepted_lines (serialize fixed_lines)) = serialize fixed_lines /\
  (forall (label_file : string) (w : world),
     read_file label_file w = Text raw ->
     fix_label_format label_file w = ((true, "Already correct format"), w)).
Proof.
  intros Hc fixed_lines. unfold fixed_lines.
  rewrite repair_stable. split; [reflexivity|]. split; [reflexivity|].
  intros label_file w Hr. unfold fix_label_format. rewrite Hr.
  unfold classify in Hc. destruct (fix_content raw); try discriminate. reflexivity.
Qed.

Lemma repair_idempotent_witness :
  classify ("3 0.25 0.5 0.125 1" +:+ NL +:+ "4 .1 .2 .3 .4") = WellFormed /\
  accepted_lines
    (serialize (accepted_lines ("3 0.25 0.5 0.125 1" +:+ NL +:+ "4 .1 .2 .3 .4")))
  = ["3 0.250000 0.500000 0.125000 1.000000";
     "4 0.100000 0.200000 0.300000 0.400000"].
Proof.
  split; [reflexivity|].
  etransitivity;
    [apply (repair_idempotent ("3 0.25 0.5 0.125 1" +:+ NL +:+ "4 .1 .2 .3 .4"));
     reflexivity|].
  vm_compute. reflexivity.
Defined.

Lemma fix_content_single l :
  stable_line l -> fix_content (serialize [l]) = Fixed [l].
Proof.
  intros Hl.
  assert (Hs : Forall stable_line [l]) by (constructor; [exact Hl | constructor]).
  pose proof (stable_written _ Hs) as Hw.
  assert (Hne : [l] <> []) by discriminate.
  unfold fix_content.
  rewrite (strip_serialize [l] Hw Hne).
  destruct (written_join [l] Hw Hne) as ((_ & _ & Hn) & Hsp & _).
  rewrite join_one in *.
  apply is_empty_false in Hn. rewrite Hn, Hsp. cbn [length Nat.ltb Nat.leb andb].
  pose proof (annotations_serialize [l] Hw Hne) as Ha.
  rewrite (strip_serialize [l] Hw Hne), join_one in Ha.
  rewrite Ha, (stable_fix_lines _ Hs). reflexivity.
Qed.

Lemma fix_written_single label_file l w :
  stable_line l ->
  files w !! label_file = Some (mkFile (Text (serialize [l])) None None) ->
  fix_label_format label_file w =
    ((true, "Fixed 1 annotations"), written label_file (serialize [l]) w) /\
  files (written label_file (serialize [l]) w) = files w.
Proof.
  intros Hl Hf. split.
  - unfold fix_label_format, read_file. rewrite Hf. cbn [f_read].
    rewrite (fix_content_single l Hl).
    rewrite write_file_ok by (unfold writable; rewrite Hf; reflexivity).
    reflexivity.
  - unfold written. cbn [files]. apply insert_id. exact Hf.
Qed.

(** C10. When the repair of a file accepts exactly one line, the text
    it writes is classified as malformed again; every later run reads
    that same text, reports [Fixed 1 annotations], which is tallied as
    fixed and not as already correct, and writes the same text once
    more, leaving the content of every file as it was. *)
Theorem single_line_rerun (label_file : string) (w : world) (raw l : string) :
  read_file label_file w = Text raw ->
  writable label_file w = true ->
  fix_content raw = Fixed [l] ->
  let run := fun w0 => snd (fix_label_format label_file w0) in
  forall n : nat,
    let wn := Nat.iter n run (run w) in
    read_file label_file wn = Text (serialize [l]) /\
    classify (serialize [l]) = Malformed /\
    fst (fix_label_format label_file wn) = (true, "Fixed 1 annotations") /\
    files (run wn) = files wn /\
    journal (run wn) = journal wn ++ [(label_file, serialize [l])] /\
    (forall stats, tally (true, "Fixed 1 annotations") stats = incr "fixed" stats).
Proof.
  intros Hr Hw Hf run n wn.
  assert (Hl : stable_line l).
  { destruct (fix_content_cases raw) as [[_ E]|[[? E]|[(? & _ & E)|(? & _ & E)]]];
      rewrite E in Hf; try discriminate.
    injection Hf as Hf. unfold accepted_lines in Hf.
    pose proof (fix_lines_stable (all_annotations (strip raw))) as Hs.
    rewrite Hf in Hs. inversion Hs; assumption. }
  assert (Hinv : files wn !! label_file = Some (mkFile (Text (serialize [l])) None None)).
  { unfold wn. induction n as [|k IH].
    - cbn [Nat.iter]. unfold run, fix_label_format.
      rewrite Hr, Hf, (write_file_ok _ _ _ Hw). cbn [snd written files].
      apply lookup_insert_eq.
    - cbn [Nat.iter]. set (wk := Nat.iter k run (run w)) in *.
      change (files (snd (fix_label_format label_file wk)) !! label_file =
              Some (mkFile (Text (serialize [l])) None None)).
      destruct (fix_written_single label_file l wk Hl IH) as [-> Hfiles].
      cbn [snd]. rewrite Hfiles. exact IH. }
  destruct (fix_written_single label_file l wn Hl Hinv) as [Hrun Hfiles].
  split; [unfold read_file; rewrite Hinv; reflexivity|].
  split; [unfold classify; rewrite (fix_content_single l Hl); reflexivity|].
  unfold run. rewrite Hrun. cbn [fst snd].
  split; [reflexivity|]. split; [exact Hfiles|]. split; reflexivity.
Qed.

Lemma single_line_rerun_witness :
  read_file "a.txt" (w_one "7 0.5 0.25 1 0") = Text "7 0.5 0.25 1 0" /\
  writable "a.txt" (w_one "7 0.5 0.25 1 0") = true /\
  fix_content "7 0.5 0.25 1 0" = Fixed ["7 0.500000 0.250000 1.000000 0.000000"] /\
  classify (serialize ["7 0.500000 0.250000 1.000000 0.000000"]) = Malformed.
Proof.
  split; [reflexivity|]. split; [reflexivity|]. split; [reflexivity|].
  apply (single_line_rerun "a.txt" (w_one "7 0.5 0.25 1 0") "7 0.5 0.25 1 0"
           "7 0.500000 0.250000 1.000000 0.000000" eq_refl eq_refl eq_refl 0%nat).
Defined.

(** ** The counters of [fix_all_labels] *)

Lemma contains_cons sub c r :
  contains sub (String c r) = String.prefix sub (String c r) || contains sub r.
Proof. reflexivity. Qed.

Lemma prefix_first_ne a s c r :
  a <> c -> String.prefix (String a s) (String c r) = false.
Proof.
  intros H. rewrite prefix_cons. destruct (ascii_dec a c); [contradiction | reflexivity].
Qed.

Lemma contains_error_text e :
  contains "Empty file" ("Error: " +:+ e) = contains "Empty file" e.
Proof.
  change ("Error: " +:+ e) with
    (String "E" (String "r" (String "r" (String "o" (String "r"
       (String ":" (String " " e))))))).
  rewrite contains_cons, prefix_cons.
  destruct (ascii_dec "E" "E") as [_|N]; [|exfalso; apply N; reflexivity].
  rewrite prefix_first_ne by discriminate. cbn [orb].
  repeat (rewrite contains_cons, prefix_first_ne by discriminate; cbn [orb]).
  reflexivity.
Qed.

Lemma incr_same key (stats : gmap string Z) e :
  stats !! key = Some e -> incr key stats !! key = Some (e + 1).
Proof.
  intros H. unfold incr. rewrite lookup_insert_eq.
  rewrite (lookup_total_correct _ _ _ H). reflexivity.
Qed.

Lemma incr_other key key' (stats : gmap string Z) :
  key' <> key -> incr key' stats !! key = stats !! key.
Proof. intros H. unfold incr. apply lookup_insert_ne. exact H. Qed.

(** The effect of one file on the [errors] counter. *)
Lemma tally_errors label_file w (stats : gmap string Z) e :
  quiet_errors label_file w = true ->
  stats !! "errors" = Some e ->
  tally (fst (fix_label_format label_file w)) stats !! "errors" =
    Some (e + (if raises label_file w || no_valid label_file w then 1 else 0)).
Proof.
  unfold quiet_errors, raises, no_valid, fix_label_format, writable, write_file.
  intros Hq He.
  destruct (read_file label_file w) as [raw|msg].
  - destruct (fix_content raw) as [| |fixed_lines|]; cbn [fst tally].
    + change (contains "Empty file" "Empty file") with true. cbv iota.
      rewrite incr_other by discriminate. rewrite He. f_equal. simpl. lia.
    + change (contains "Already correct" "Already correct format") with true. cbv iota.
      rewrite incr_other by discriminate. rewrite He. f_equal. simpl. lia.
    + destruct (files w !! label_file) as [[r [msg|] [msg'|]]|];
        cbn [fst tally negb orb];
        first [ apply negb_true_iff in Hq; rewrite contains_error_text, Hq;
                apply incr_same; exact He
              | destruct (contains "Already correct" _);
                rewrite incr_other by discriminate; rewrite He; f_equal; lia ].
    + change (contains "Empty file" "No valid annotations found") with false. cbv iota.
      apply incr_same. exact He.
  - cbn [fst tally orb]. apply negb_true_iff in Hq.
    rewrite contains_error_text, Hq. apply incr_same. exact He.
Qed.

(** [fix_label_format] touches no other file, and no directory. *)
Lemma fix_label_format_frame label_file w :
  dirs (snd (fix_label_format label_file w)) = dirs w /\
  forall g, g <> label_file ->
    files (snd (fix_label_format label_file w)) !! g = files w !! g.
Proof.
  unfold fix_label_format, write_file.
  destruct (read_file label_file w) as [raw|msg]; [|auto].
  destruct (fix_content raw) as [| |fixed_lines|]; auto.
  destruct (files w !! label_file) as [[r [msg|] [msg'|]]|]; cbn [snd files dirs]; auto;
    (split; [reflexivity|]; intros g Hg; apply lookup_insert_ne; congruence).
Qed.

Lemma same_file_same_verdict g w w1 :
  files w1 !! g = files w !! g ->
  counts_as_error w1 g = counts_as_error w g /\
  quiet_errors g w1 = quiet_errors g w.
Proof.
  intros H. unfold counts_as_error, raises, no_valid, quiet_errors, writable, read_file.
  rewrite H. split; reflexivity.
Qed.

Lemma fix_files_errors l : forall (stats : gmap string Z) w e,
  NoDup l ->
  forallb (fun f => quiet_errors f w) l = true ->
  stats !! "errors" = Some e ->
  fst (fix_files l stats w) !! "errors" =
    Some (e + Z.of_nat (length (List.filter (counts_as_error w) l))) /\
  dirs (snd (fix_files l stats w)) = dirs w /\
  forall g, g ∉ l -> files (snd (fix_files l stats w)) !! g = files w !! g.
Proof.
  induction l as [|f l IH]; intros stats w e Hnd Hq He.
  - cbn [fix_files fst snd List.filter length]. rewrite Z.add_0_r. auto.
  - apply NoDup_cons in Hnd as [Hf Hnd].
    cbn [forallb] in Hq. apply andb_true_iff in Hq as [Hqf Hq].
    cbn [fix_files].
    destruct (fix_label_format f w) as [result w1] eqn:Hrun.
    pose proof (tally_errors f w stats e Hqf He) as Ht. rewrite Hrun in Ht. cbn [fst] in Ht.
    destruct (fix_label_format_frame f w) as [Hd Hframe]. rewrite Hrun in Hd, Hframe.
    cbn [snd] in Hd, Hframe.
    assert (Hsame : forall g, g ∈ l -> files w1 !! g = files w !! g).
    { intros g Hg. apply Hframe. intros ->. contradiction. }
    assert (Hq1 : forallb (fun f0 => quiet_errors f0 w1) l = true).
    { rewrite forallb_forall in Hq |- *. intros g Hg.
      destruct (same_file_same_verdict g w w1) as [_ ->]; [|apply Hq; exact Hg].
      apply Hsame. apply list_elem_of_In. exact Hg. }
    destruct (IH (tally result stats) w1 _ Hnd Hq1 Ht) as (IH1 & IH2 & IH3).
    split; [|split].
    + rewrite IH1. f_equal.
      assert (Hfil : List.filter (counts_as_error w1) l = List.filter (counts_as_error w) l).
      { apply List.filter_ext_in. intros g Hg.
        apply same_file_same_verdict, Hsame, list_elem_of_In, Hg. }
      rewrite Hfil. cbn [List.filter].
      change (counts_as_error w f) with (raises f w || no_valid f w).
      destruct (raises f w || no_valid f w); cbn [length]; lia.
    + rewrite IH2. exact Hd.
    + intros g Hg. apply not_elem_of_cons in Hg as [Hgf Hgl].
      rewrite (IH3 g Hgl). apply Hframe. exact Hgf.
Qed.

Lemma fix_files_dirs l : forall (stats : gmap string Z) w,
  dirs (snd (fix_files l stats w)) = dirs w.
Proof.
  induction l as [|f l IH]; intros stats w; [reflexivity|].
  cbn [fix_files]. destruct (fix_label_format f w) as [result w1] eqn:Hrun.
  rewrite IH. destruct (fix_label_format_frame f w) as [Hd _].
  rewrite Hrun in Hd. exact Hd.
Qed.

Lemma fix_files_app a b (stats : gmap string Z) w :
  fix_files (a ++ b) stats w =
  fix_files b (fst (fix_files a stats w)) (snd (fix_files a stats w)).
Proof.
  revert stats w. induction a as [|f a IH]; intros stats w; [reflexivity|].
  cbn [app fix_files]. destruct (fix_label_format f w) as [result w1].
  apply IH.
Qed.

Lemma fix_split_eq labels_dir (stats : gmap string Z) w0 s :
  fix_split labels_dir (stats, w0) s =
  fix_files (default [] (dirs w0 !! (labels_dir +:+ "/" +:+ s))) stats w0.
Proof. unfold fix_split. destruct (dirs w0 !! _); reflexivity. Qed.

(** The walk over the splits is one pass over [label_files]. *)
Lemma walk_splits data_root w ss : forall (stats : gmap string Z) w0,
  dirs w0 = dirs w ->
  fold_left (fix_split (data_root +:+ "/labels")) ss (stats, w0) =
  fix_files (flat_map (fun split => default [] (dirs w !! label_dir data_root split)) ss)
            stats w0.
Proof.
  induction ss as [|s ss IH]; intros stats w0 Hd; [reflexivity|].
  cbn [fold_left flat_map]. rewrite fix_files_app, fix_split_eq, Hd.
  fold (label_dir data_root s).
  set (l := default [] (dirs w !! label_dir data_root s)).
  pose proof (fix_files_dirs l stats w0) as Hd1.
  destruct (fix_files l stats w0) as [stats1 w1].
  cbn [fst snd] in *. apply IH. congruence.
Qed.

Lemma fix_all_labels_eq data_root w :
  is_Some (dirs w !! (data_root +:+ "/labels")) ->
  fix_all_labels data_root w =
    (Some (fst (fix_files (label_files data_root w) stats0 w)),
     snd (fix_files (label_files data_root w) stats0 w)).
Proof.
  intros [l Hl]. unfold fix_all_labels. rewrite Hl.
  rewrite (walk_splits data_root w splits stats0 w eq_refl).
  fold (label_files data_root w).
  destruct (fix_files (label_files data_root w) stats0 w). reflexivity.
Qed.

(** C5 (amended).  When no exception message contains the
    words [Empty file], the [errors] counter is the number of files for
    which an exception occurred or whose repair found no valid
    annotation: a validation failure has no counter of its own. *)
Theorem errors_counter (data_root : string) (w : world) :
  is_Some (dirs w !! (data_root +:+ "/labels")) ->
  NoDup (label_files data_root w) ->
  forallb (fun f => quiet_errors f w) (label_files data_root w) = true ->
  summary "errors" data_root w =
    Some (Z.of_nat (length (List.filter
                              (fun f => raises f w || no_valid f w)
                              (label_files data_root w)))).
Proof.
  intros Hdir Hnd Hq. unfold summary.
  rewrite (fix_all_labels_eq data_root w Hdir). cbn [fst].
  destruct (fix_files_errors (label_files data_root w) stats0 w 0 Hnd Hq eq_refl)
    as (H & _).
  exact H.
Qed.

Lemma errors_counter_witness :
  is_Some (dirs w_rejected !! ("cityscapes" +:+ "/labels")) /\
  NoDup (label_files "cityscapes" w_rejected) /\
  forallb (fun f => quiet_errors f w_rejected) (label_files "cityscapes" w_rejected) = true /\
  summary "errors" "cityscapes" w_rejected = Some 1.
Proof.
  assert (H1 : is_Some (dirs w_rejected !! ("cityscapes" +:+ "/labels")))
    by (vm_compute; eauto).
  assert (H2 : NoDup (label_files "cityscapes" w_rejected))
    by (apply (bool_decide_unpack _); vm_compute; exact I).
  assert (H3 : forallb (fun f => quiet_errors f w_rejected)
                 (label_files "cityscapes" w_rejected) = true)
    by (vm_compute; reflexivity).
  split; [exact H1|]. split; [exact H2|]. split; [exact H3|].
  exact (errors_counter "cityscapes" w_rejected H1 H2 H3).
Defined.

(** C5 (counterexample).  The [errors] counter is not the number of
    files that raised an exception: the only file of [w_rejected] is read
    without any exception and merely has no valid annotation, yet it is
    counted under [errors]. *)
Lemma errors_counts_validation_failure :
  label_files "cityscapes" w_rejected = ["cityscapes/labels/train/a.txt"] /\
  raises "cityscapes/labels/train/a.txt" w_rejected = false /\
  fst (fix_label_format "cityscapes/labels/train/a.txt" w_rejected) =
    (false, "No valid annotations found") /\
  summary "errors" "cityscapes" w_rejected = Some 1 /\
  summary "errors" "cityscapes" w_rejected <>
    Some (Z.of_nat (length (List.filter (fun f => raises f w_rejected)
                                        (label_files "cityscapes" w_rejected)))).
Proof.
  split; [vm_compute; reflexivity|]. split; [vm_compute; reflexivity|].
  split; [vm_compute; reflexivity|]. split; [vm_compute; reflexivity|].
  vm_compute. discriminate.
Qed.

(** ** Verification *)

Lemma check_line_eq line :
  check_line line =
  if is_empty (strip line) then VBlank
  else if (length (split line) =? 5)%nat
       then match accept (split line) with Some _ => VBox | None => VBad end
       else if is_polygon_len (length (split line))
            then match accept (split line) with Some _ => VPolygon | None => VBad end
            else VBad.
Proof.
  unfold check_line, accept. rewrite split_strip.
  destruct (is_empty (strip line)); [reflexivity|].
  destruct (length (split line) =? 5)%nat;
    [|destruct (is_polygon_len (length (split line))); [|reflexivity]];
    (destruct (py_int (hd EmptyString (split line))) as [class_id|]; [|reflexivity];
     destruct (floats (tl (split line))) as [coords|]; [|reflexivity];
     destruct (class_ok class_id), (forallb in_unit coords); reflexivity).
Qed.

(** [verify_fixed_format] applies the acceptance rule of the repair. *)
Lemma check_line_rule line :
  (check_line line = VBlank <-> strip line = EmptyString) /\
  (check_line line = VBox <->
     is_Some (fix_line line) /\ length (split line) = 5%nat) /\
  (check_line line = VPolygon <->
     is_Some (fix_line line) /\ is_polygon_len (length (split line)) = true) /\
  (check_line line = VBad <->
     strip line <> EmptyString /\ fix_line line = None).
Proof.
  rewrite check_line_eq, fix_line_eq. unfold recognized.
  destruct (is_empty (strip line)) eqn:He.
  - apply is_empty_true in He.
    pose proof (split_strip line) as Hs. rewrite He in Hs. simpl in Hs. rewrite <- Hs.
    cbn. repeat split; try congruence; try tauto;
      try (intros [[? H] _]; discriminate H); try (intros [H _]; congruence).
  - apply is_empty_false in He.
    destruct (length (split line) =? 5)%nat eqn:H5.
    + rewrite (polygon_len_not_5 _ H5). apply Nat.eqb_eq in H5. cbn [orb].
      destruct (accept (split line)) as [out|];
        repeat split; try congruence; try tauto; eauto;
        try (intros [[? H] _]; discriminate H); try (intros [_ H]; discriminate H).
    + apply Nat.eqb_neq in H5. cbn [orb].
      destruct (is_polygon_len (length (split line)));
        [destruct (accept (split line)) as [out|]|];
        repeat split; try congruence; try tauto; eauto;
        try (intros [[? H] _]; discriminate H); try (intros [_ H]; discriminate H).
Qed.

Lemma count_cons p line rest :
  count p (line :: rest) = (if p line then 1 else 0) + count p rest.
Proof. unfold count. cbn [List.filter]. destruct (p line); cbn [length]; lia. Qed.

Lemma count_nil p : count p [] = 0.
Proof. reflexivity. Qed.

Lemma tuple4_eq (a a' : bool) (b b' c c' d d' : Z) :
  a = a' -> b = b' -> c = c' -> d = d' -> (a, b, c, d) = (a', b', c', d').
Proof. congruence. Qed.

Lemma verify_lines_spec lines : forall fo b p,
  verify_lines lines true fo b p =
  (forallb (fun l => negb (is_bad l)) lines,
   fo + count is_box (reached lines) + count is_polygon (reached lines),
   b + count is_box (reached lines),
   p + count is_polygon (reached lines)).
Proof.
  induction lines as [|line rest IH]; intros fo b p.
  - cbn [verify_lines forallb reached]. rewrite !count_nil.
    apply tuple4_eq; [reflexivity | lia | lia | lia].
  - cbn [verify_lines forallb reached].
    assert (Hv : is_bad line = match check_line line with VBad => true | _ => false end
                 /\ is_box line = match check_line line with VBox => true | _ => false end
                 /\ is_polygon line =
                      match check_line line with VPolygon => true | _ => false end)
      by (repeat split; reflexivity).
    destruct Hv as (Hbad & Hbox & Hpoly).
    destruct (check_line line); rewrite Hbad; cbn [negb andb];
      rewrite ?IH, ?count_cons, ?count_nil, ?Hbox, ?Hpoly;
      (apply tuple4_eq; [reflexivity | lia | lia | lia]).
Qed.

Lemma not_bad_iff line :
  is_bad line = false <-> (strip line <> EmptyString -> is_Some (fix_line line)).
Proof.
  destruct (check_line_rule line) as (Hblank & Hbox & Hpoly & Hbadr).
  unfold is_bad. destruct (check_line line) eqn:Hc.
  - split; [|reflexivity]. intros _ Hne. exfalso. apply Hne, Hblank. reflexivity.
  - split; [|reflexivity]. intros _ _. apply Hbox. reflexivity.
  - split; [|reflexivity]. intros _ _. apply Hpoly. reflexivity.
  - split; [discriminate|]. intros H. exfalso.
    destruct Hbadr as [Hb _]. destruct (Hb eq_refl) as [Hne Hnone].
    destruct (H Hne) as [out Hout]. congruence.
Qed.

Lemma reached_all lines :
  forallb (fun l => negb (is_bad l)) lines = true -> reached lines = lines.
Proof.
  induction lines as [|line rest IH]; [reflexivity|].
  cbn [forallb reached]. intros H. apply andb_true_iff in H as [Hl Hr].
  apply negb_true_iff in Hl. rewrite Hl, (IH Hr). reflexivity.
Qed.

Lemma objects_positive lines :
  forallb (fun l => negb (is_bad l)) lines = true ->
  (0 <? count is_box lines + count is_polygon lines) = true <->
  exists line, In line lines /\ strip line <> EmptyString.
Proof.
  induction lines as [|line rest IH]; intros H.
  - rewrite !count_nil. split; [discriminate | intros (? & [] & _)].
  - cbn [forallb] in H. apply andb_true_iff in H as [Hl Hr].
    specialize (IH Hr). rewrite !count_cons.
    assert (Hnn : 0 <= count is_box rest /\ 0 <= count is_polygon rest)
      by (unfold count; lia).
    destruct (check_line_rule line) as (Hblank & _).
    unfold is_bad in Hl. unfold is_box at 1, is_polygon at 1.
    destruct (check_line line) eqn:Hc; try discriminate.
    + rewrite !Z.add_0_l, IH. split.
      * intros (l & Hin & Hne). exists l. split; [right; exact Hin | exact Hne].
      * intros (l & [<-|Hin] & Hne); [|eauto].
        exfalso. apply Hne, Hblank. reflexivity.
    + split; [|intros _; apply Z.ltb_lt; lia].
      intros _. exists line. split; [left; reflexivity|].
      intros E. apply Hblank in E. discriminate E.
    + split; [|intros _; apply Z.ltb_lt; lia].
      intros _. exists line. split; [left; reflexivity|].
      intros E. apply Hblank in E. discriminate E.
Qed.

(** C9 (amended).  [verify_fixed_format] judges every line by
    the acceptance rule of the repair.  A file adds one to the valid
    files exactly when each of its lines with content is accepted and
    there is such a line; the boxes and polygons it adds to the counts
    are those among the lines before its first rejected line, which are
    all its lines when the file is valid. *)
Theorem verify_file_rule (label_file : string) (w : world) (text : string)
    (st : vcount) :
  read_file label_file w = Text text ->
  let lines := readlines text in
  let st' := verify_file label_file w st in
  (forall line,
     (check_line line = VBlank <-> strip line = EmptyString) /\
     (check_line line = VBox <->
        is_Some (fix_line line) /\ length (split line) = 5%nat) /\
     (check_line line = VPolygon <->
        is_Some (fix_line line) /\ is_polygon_len (length (split line)) = true) /\
     (check_line line = VBad <-> strip line <> EmptyString /\ fix_line line = None)) /\
  (valid_files st' = valid_files st + 1 <-> all_lines_pass lines) /\
  (valid_files st' = valid_files st \/ valid_files st' = valid_files st + 1) /\
  bbox_count st' = bbox_count st + count is_box (reached lines) /\
  polygon_count st' = polygon_count st + count is_polygon (reached lines) /\
  (all_lines_pass lines ->
     reached lines = lines /\
     total_objects st' =
       total_objects st + count is_box lines + count is_polygon lines).
Proof.
  intros Hr lines st'. split; [exact check_line_rule|].
  assert (Hpass : all_lines_pass lines <->
                  forallb (fun l => negb (is_bad l)) lines = true /\
                  (0 <? count is_box lines + count is_polygon lines) = true).
  { unfold all_lines_pass. split.
    - intros [Hall Hex].
      assert (Hf : forallb (fun l => negb (is_bad l)) lines = true).
      { apply forallb_forall. intros l Hl. apply negb_true_iff, not_bad_iff, Hall, Hl. }
      split; [exact Hf | apply objects_positive; assumption].
    - intros [Hf Hpos]. split; [|apply objects_positive; assumption].
      intros l Hl. rewrite forallb_forall in Hf.
      apply not_bad_iff, negb_true_iff, Hf, Hl. }
  unfold st', verify_file. rewrite Hr. fold lines.
  destruct lines as [|l0 ls] eqn:Hlines.
  { cbn [reached]. rewrite !count_nil.
    split; [|split; [left; reflexivity|split; [lia|split; [lia|]]]].
    - split; [lia|]. intros [_ (? & [] & _)].
    - intros [_ (? & [] & _)]. }
  rewrite <- Hlines in *. clear Hlines l0 ls.
  rewrite verify_lines_spec, !Z.add_0_l.
  destruct (forallb (fun l => negb (is_bad l)) lines) eqn:Hf.
  - rewrite (reached_all _ Hf). cbn [andb].
    destruct (0 <? count is_box lines + count is_polygon lines) eqn:Hpos;
      cbn [valid_files total_objects bbox_count polygon_count].
    + split; [split; [intros _; apply Hpass; auto | reflexivity]|].
      split; [right; reflexivity|]. split; [reflexivity|]. split; [reflexivity|].
      intros _. split; [reflexivity | lia].
    + split; [split; [lia | intros H; apply Hpass in H as [_ H]; discriminate H]|].
      split; [left; reflexivity|]. split; [reflexivity|]. split; [reflexivity|].
      intros H. apply Hpass in H as [_ H]. discriminate H.
  - cbn [andb valid_files total_objects bbox_count polygon_count].
    split; [split; [lia | intros H; apply Hpass in H as [H _]; discriminate H]|].
    split; [left; reflexivity|]. split; [reflexivity|]. split; [reflexivity|].
    intros H. apply Hpass in H as [H _]. discriminate H.
Qed.

Lemma verify_file_rule_witness :
  read_file "a.txt" w_mixed = Text ("x" +:+ NL +:+ "1 0.5 0.5 0.5 0.5" +:+ NL) /\
  bbox_count (verify_file "a.txt" w_mixed (mkVcount 0 0 0 0)) =
    0 + count is_box (reached (readlines ("x" +:+ NL +:+ "1 0.5 0.5 0.5 0.5" +:+ NL))).
Proof.
  split; [reflexivity|].
  apply (verify_file_rule "a.txt" w_mixed
           ("x" +:+ NL +:+ "1 0.5 0.5 0.5 0.5" +:+ NL) (mkVcount 0 0 0 0) eq_refl).
Defined.

(** C9 (counterexample).  The box count is not the number of accepted
    box lines of the file: the second line of this file is a
    box that the acceptance rule accepts, but it comes after a rejected
    line, is never looked at, and is not counted. *)
Lemma verify_stops_at_first_bad_line :
  readlines ("x" +:+ NL +:+ "1 0.5 0.5 0.5 0.5" +:+ NL) =
    ["x" +:+ NL; "1 0.5 0.5 0.5 0.5" +:+ NL] /\
  is_Some (fix_line ("1 0.5 0.5 0.5 0.5" +:+ NL)) /\
  check_line ("1 0.5 0.5 0.5 0.5" +:+ NL) = VBox /\
  count is_box (readlines ("x" +:+ NL +:+ "1 0.5 0.5 0.5 0.5" +:+ NL)) = 1 /\
  bbox_count (verify_file "a.txt" w_mixed (mkVcount 0 0 0 0)) = 0.
Proof.
  split; [reflexivity|]. split; [vm_compute; eauto|].
  split; [vm_compute; reflexivity|]. split; vm_compute; reflexivity.
Qed.

(** ** Beyond one repair: repeated runs, verification, detection, analysis *)

(** ** One file, run again *)

Lemma fix_label_format_files label_file w :
  files (snd (fix_label_format label_file w)) =
  match rewritten (files w !! label_file) with
  | Some f => <[label_file := f]> (files w)
  | None => files w
  end.
Proof.
  unfold fix_label_format, read_file, write_file, rewritten.
  destruct (files w !! label_file) as [[[raw|e] [e'|] [e''|]]|]; cbn [f_read snd];
    try reflexivity;
    destruct (fix_content raw); reflexivity.
Qed.

Lemma fix_content_serialize_many ls :
  Forall stable_line ls -> (2 <= length ls)%nat ->
  fix_content (serialize ls) = AlreadyCorrect.
Proof.
  intros Hs Hlen.
  pose proof (stable_written _ Hs) as Hw.
  assert (Hne : ls <> []) by (destruct ls; [simpl in Hlen; lia | discriminate]).
  unfold fix_content. rewrite (strip_serialize ls Hw Hne).
  destruct (written_join ls Hw Hne) as ((_ & _ & Hn) & Hsp & _).
  apply is_empty_false in Hn. rewrite Hn, Hsp.
  assert (H1 : (1 <? length ls)%nat = true) by (apply Nat.ltb_lt; lia).
  rewrite H1. destruct ls as [|l ls']; [congruence|]. cbn [hd andb].
  inversion Hs as [|? ? [Hwl Hfl] _]; subst.
  rewrite split_strip. rewrite fix_line_eq in Hfl.
  destruct (recognized (length (split l))); [reflexivity | discriminate].
Qed.

Lemma fix_content_serialize ls :
  Forall stable_line ls -> ls <> [] ->
  fix_content (serialize ls) = AlreadyCorrect \/ fix_content (serialize ls) = Fixed ls.
Proof.
  intros Hs Hne. destruct ls as [|l [|l' ls']]; [congruence| |].
  - right. apply fix_content_single. inversion Hs; assumption.
  - left. apply fix_content_serialize_many; [exact Hs | simpl; lia].
Qed.

Lemma fix_content_Fixed raw ls :
  fix_content raw = Fixed ls -> Forall stable_line ls /\ ls <> [].
Proof.
  intros Hf.
  destruct (fix_content_cases raw) as [[_ E]|[[? E]|[(? & _ & E)|(? & Hne & E)]]];
    rewrite E in Hf; try discriminate.
  injection Hf as <-. split; [apply fix_lines_stable | exact Hne].
Qed.






Lemma settled_unchanged label_file w :
  settled (files w !! label_file) ->
  files (snd (fix_label_format label_file w)) = files w.
Proof.
  intros Hs. rewrite fix_label_format_files.
  destruct (rewritten (files w !! label_file)) as [f|] eqn:E; [|reflexivity].
  apply insert_id. apply Hs. exact E.
Qed.


Lemma fix_label_format_keeps label_file w g :
  is_Some (files w !! g) ->
  is_Some (files (snd (fix_label_format label_file w)) !! g).
Proof.
  intros Hg. destruct (fix_label_format_frame label_file w) as [_ Hf].
  destruct (decide (g = label_file)) as [->|Hne]; [|rewrite (Hf g Hne); exact Hg].
  rewrite fix_label_format_files.
  destruct (rewritten (files w !! label_file)); [|exact Hg].
  rewrite lookup_insert_eq. eauto.
Qed.

Lemma fix_label_format_journal label_file w :
  journal (snd (fix_label_format label_file w)) = journal w \/
  exists text,
    journal (snd (fix_label_format label_file w)) = journal w ++ [(label_file, text)].
Proof.
  unfold fix_label_format, write_file.
  destruct (read_file label_file w) as [raw|e]; [|left; reflexivity].
  destruct (fix_content raw) as [| |ls|]; try (left; reflexivity).
  destruct (files w !! label_file) as [[r [e|] [e'|]]|]; cbn [snd journal];
    first [left; reflexivity | right; eauto].
Qed.

(** X2. [fix_label_format] changes no directory listing and no file
    other than [label_file], removes no file, and writes at most once,
    to [label_file]. *)
Theorem fix_label_format_frame_full (label_file : string) (w : world) :
  let w' := snd (fix_label_format label_file w) in
  dirs w' = dirs w /\
  (forall g, g <> label_file -> files w' !! g = files w !! g) /\
  (forall g, is_Some (files w !! g) -> is_Some (files w' !! g)) /\
  (journal w' = journal w \/
   exists text, journal w' = journal w ++ [(label_file, text)]).
Proof.
  cbv zeta. destruct (fix_label_format_frame label_file w) as [Hd Hf].
  split; [exact Hd|]. split; [exact Hf|].
  split; [intros g; apply fix_label_format_keeps | apply fix_label_format_journal].
Qed.


(** X4. When the repair of a file has accepted two lines or more, every
    later run finds the file already correct and changes nothing. *)
Theorem multi_line_rerun (label_file : string) (w : world) (raw : string)
    (fixed_lines : list string) :
  read_file label_file w = Text raw ->
  writable label_file w = true ->
  fix_content raw = Fixed fixed_lines ->
  (2 <= length fixed_lines)%nat ->
  let w1 := snd (fix_label_format label_file w) in
  forall n : nat,
    Nat.iter n (fun w0 => snd (fix_label_format label_file w0)) w1 = w1 /\
    fix_label_format label_file w1 = ((true, "Already correct format"), w1).
Proof.
  intros Hr Hw Hf Hlen w1.
  destruct (fix_content_Fixed raw fixed_lines Hf) as [Hs _].
  assert (Hw1 : w1 = written label_file (serialize fixed_lines) w).
  { unfold w1, fix_label_format. rewrite Hr, Hf, (write_file_ok _ _ _ Hw). reflexivity. }
  clearbody w1.
  assert (Hrun : fix_label_format label_file w1 = ((true, "Already correct format"), w1)).
  { unfold fix_label_format. rewrite Hw1, read_written.
    rewrite (fix_content_serialize_many _ Hs Hlen). reflexivity. }
  intros n. split; [|exact Hrun].
  induction n as [|k IH]; [reflexivity|].
  rewrite Nat.iter_succ, IH. cbv beta. rewrite Hrun. reflexivity.
Qed.

Lemma multi_line_rerun_witness :
  read_file "a.txt" (w_one "1 .5 .5 .5 .5\n2 0 0 1 1") = Text "1 .5 .5 .5 .5\n2 0 0 1 1" /\
  fix_content "1 .5 .5 .5 .5\n2 0 0 1 1" =
    Fixed ["1 0.500000 0.500000 0.500000 0.500000";
           "2 0.000000 0.000000 1.000000 1.000000"] /\
  fst (fix_label_format "a.txt"
         (snd (fix_label_format "a.txt" (w_one "1 .5 .5 .5 .5\n2 0 0 1 1")))) =
    (true, "Already correct format").
Proof.
  split; [reflexivity|]. split; [reflexivity|].
  pose proof (multi_line_rerun "a.txt" (w_one "1 .5 .5 .5 .5\n2 0 0 1 1")
                "1 .5 .5 .5 .5\n2 0 0 1 1"
                ["1 0.500000 0.500000 0.500000 0.500000";
                 "2 0.000000 0.000000 1.000000 1.000000"]
                eq_refl eq_refl eq_refl (le_n 2) 0%nat) as [_ H].
  rewrite H. reflexivity.
Defined.

(** ** White space between tokens *)

Lemma split_nil_strip s : split s = [] <-> strip s = EmptyString.
Proof.
  split.
  - intros H. unfold strip.
    assert (Hl : forall u, split u = [] -> lstrip u = EmptyString).
    { induction u as [|c u IHu]; [reflexivity|].
      simpl. destruct (isspace c); [exact IHu|].
      destruct u as [|c' u']; [discriminate|].
      destruct (isspace c'); [discriminate|].
      destruct (split (String c' u')); discriminate. }
    rewrite (Hl s H). reflexivity.
  - intros H. rewrite <- split_strip, H. reflexivity.
Qed.

(** X5. The repair and the verification look at a line only through
    its tokens: two lines with the same tokens, whatever white space
    separates or surrounds them, are treated alike, and an accepted line
    is always written with single spaces. *)
Theorem tokens_decide_line (line1 line2 : string) :
  split line1 = split line2 ->
  fix_line line1 = fix_line line2 /\
  check_line line1 = check_line line2 /\
  (forall out, fix_line line1 = Some out -> join " " (split out) = out).
Proof.
  intros H. split; [|split].
  - rewrite !fix_line_eq, H. reflexivity.
  - rewrite !check_line_eq, H.
    assert (He : is_empty (strip line1) = is_empty (strip line2)).
    { destruct (is_empty (strip line1)) eqn:E1, (is_empty (strip line2)) eqn:E2;
        try reflexivity.
      - apply is_empty_true in E1. apply split_nil_strip in E1.
        rewrite H in E1. apply split_nil_strip in E1.
        apply is_empty_false in E2. contradiction.
      - apply is_empty_true in E2. apply split_nil_strip in E2.
        rewrite <- H in E2. apply split_nil_strip in E2.
        apply is_empty_false in E1. contradiction. }
    rewrite He. reflexivity.
  - intros out Hout.
    rewrite fix_line_eq in Hout.
    destruct (recognized (length (split line1))); [|discriminate].
    destruct (accept_inv _ _ Hout) as (class_id & coords & _ & _ & Hc & Hu & ->).
    destruct (accept_canonical class_id coords Hc Hu) as [Htok _].
    rewrite (split_join _ Htok). reflexivity.
Qed.

Lemma tokens_decide_line_witness :
  split "7  0.5 0.25   1 0 " = split "7 0.5 0.25 1 0" /\
  fix_line "7  0.5 0.25   1 0 " = fix_line "7 0.5 0.25 1 0" /\
  check_line "7  0.5 0.25   1 0 " = check_line "7 0.5 0.25 1 0".
Proof.
  assert (H : split "7  0.5 0.25   1 0 " = split "7 0.5 0.25 1 0")
    by (vm_compute; reflexivity).
  split; [exact H|].
  pose proof (tokens_decide_line _ _ H) as (H1 & H2 & _).
  split; [exact H1 | exact H2].
Defined.

(** ** Repair, then verification *)

Lemma readlines_app l rest :
  all_chars (not_char nl) l = true ->
  readlines (l +:+ String nl rest) = (l +:+ NL) :: readlines rest.
Proof.
  induction l as [|c l IH]; [intros _; reflexivity|].
  cbn [all_chars]. unfold not_char at 1. intros H. apply andb_true_iff in H as [Hc Hl].
  apply negb_true_iff in Hc. rewrite !sapp_cons. cbn [readlines].
  rewrite Hc, (IH Hl). reflexivity.
Qed.

Lemma readlines_serialize ls :
  Forall written_line ls -> ls <> [] ->
  readlines (serialize ls) = map (fun l => l +:+ NL) ls.
Proof.
  unfold serialize.
  induction 1 as [|l ls Hl Hls IH]; [congruence|]. intros _.
  destruct (written_line_facts l Hl) as [_ Hnl].
  destruct ls as [|l' ls'].
  - rewrite join_one. change (l +:+ NL) with (l +:+ String nl EmptyString).
    rewrite readlines_app by exact Hnl. reflexivity.
  - rewrite join_cons2, !sapp_assoc.
    change (NL +:+ ?x) with (String nl x).
    rewrite readlines_app by exact Hnl.
    rewrite IH by discriminate. reflexivity.
Qed.

Lemma split_line_nl l : tight l -> split (l +:+ NL) = split l /\ strip (l +:+ NL) = l.
Proof.
  intros (Hl & Hr & Hne).
  assert (Hs : strip (l +:+ NL) = l).
  { unfold strip. rewrite lstrip_app by assumption.
    change (l +:+ NL) with (l +:+ String nl EmptyString).
    rewrite rstrip_app_space by reflexivity. exact Hr. }
  split; [|exact Hs]. rewrite <- split_strip, Hs. reflexivity.
Qed.

Lemma check_stable_line l :
  stable_line l ->
  is_bad (l +:+ NL) = false /\
  (is_box (l +:+ NL) = true /\ is_polygon (l +:+ NL) = false \/
   is_box (l +:+ NL) = false /\ is_polygon (l +:+ NL) = true).
Proof.
  intros [[Ht _] Hf]. destruct (split_line_nl l Ht) as [Hsp Hst].
  unfold is_bad, is_box, is_polygon. rewrite check_line_eq, Hsp, Hst.
  destruct Ht as (_ & _ & Hne). apply is_empty_false in Hne. rewrite Hne.
  rewrite fix_line_eq in Hf. unfold recognized in Hf.
  destruct (length (split l) =? 5)%nat.
  - destruct (accept (split l)); [auto | discriminate].
  - destruct (is_polygon_len (length (split l))); [|discriminate].
    destruct (accept (split l)); [auto | discriminate].
Qed.

Lemma verify_written_lines ls :
  Forall stable_line ls ->
  let lines := map (fun l => l +:+ NL) ls in
  forallb (fun l => negb (is_bad l)) lines = true /\
  count is_box lines + count is_polygon lines = Z.of_nat (length ls).
Proof.
  induction 1 as [|l ls Hl _ IH]; [split; reflexivity|].
  cbn zeta in *. cbn [map forallb]. rewrite !count_cons.
  destruct IH as [IH1 IH2]. rewrite IH1.
  destruct (check_stable_line l Hl) as [-> [[-> ->]|[-> ->]]];
    (split; [reflexivity|]); cbn [length]; lia.
Qed.

Lemma verify_written_file label_file w ls st :
  read_file label_file w = Text (serialize ls) ->
  Forall stable_line ls -> ls <> [] ->
  let st' := verify_file label_file w st in
  let n := Z.of_nat (length ls) in
  valid_files st' = valid_files st + 1 /\
  total_objects st' = total_objects st + n /\
  bbox_count st' + polygon_count st' = bbox_count st + polygon_count st + n.
Proof.
  intros Hr Hs Hne st' n. unfold st', verify_file. rewrite Hr.
  rewrite (readlines_serialize _ (stable_written _ Hs) Hne).
  destruct (verify_written_lines ls Hs) as [Hgood Hcount].
  set (lines := map (fun l => l +:+ NL) ls) in *.
  assert (Hl : lines <> []) by (unfold lines; destruct ls; [congruence | discriminate]).
  destruct lines as [|l0 lines0] eqn:E; [congruence|]. rewrite <- E in *.
  rewrite verify_lines_spec, Hgood, (reached_all _ Hgood), !Z.add_0_l.
  assert (Hpos : (0 <? count is_box lines + count is_polygon lines) = true).
  { apply Z.ltb_lt. rewrite Hcount. destruct ls; [congruence | simpl; lia]. }
  rewrite Hpos. cbn [andb valid_files total_objects bbox_count polygon_count].
  unfold n. lia.
Qed.

(** X6. A file that [fix_label_format] has just rewritten with [n]
    lines passes [verify_fixed_format]: it adds one valid file and [n]
    objects, all of them counted as boxes or polygons. *)
Theorem fix_then_verify (label_file : string) (w : world) (raw : string)
    (fixed_lines : list string) (st : vcount) :
  read_file label_file w = Text raw ->
  writable label_file w = true ->
  fix_content raw = Fixed fixed_lines ->
  let w' := snd (fix_label_format label_file w) in
  let st' := verify_file label_file w' st in
  let n := Z.of_nat (length fixed_lines) in
  valid_files st' = valid_files st + 1 /\
  total_objects st' = total_objects st + n /\
  bbox_count st' + polygon_count st' = bbox_count st + polygon_count st + n.
Proof.
  intros Hr Hw Hf w' st' n.
  destruct (fix_content_Fixed raw fixed_lines Hf) as [Hs Hne].
  apply verify_written_file; [|exact Hs | exact Hne].
  unfold w', fix_label_format. rewrite Hr, Hf, (write_file_ok _ _ _ Hw).
  cbn [snd]. apply read_written.
Qed.

Lemma fix_then_verify_witness :
  read_file "a.txt" (w_one "7 0.5 0.25 1 0") = Text "7 0.5 0.25 1 0" /\
  valid_files (verify_file "a.txt" (snd (fix_label_format "a.txt" (w_one "7 0.5 0.25 1 0")))
                 (mkVcount 0 0 0 0)) = 0 + 1.
Proof.
  split; [reflexivity|].
  apply (fix_then_verify "a.txt" (w_one "7 0.5 0.25 1 0") "7 0.5 0.25 1 0"
           ["7 0.500000 0.250000 1.000000 0.000000"] (mkVcount 0 0 0 0)
           eq_refl eq_refl eq_refl).
Defined.

(** ** The counts of [verify_fixed_format] for a split *)

Lemma count_nonneg p lines : 0 <= count p lines.
Proof. unfold count. lia. Qed.

Lemma verify_file_step label_file w st :
  let st' := verify_file label_file w st in
  (valid_files st' = valid_files st \/ valid_files st' = valid_files st + 1) /\
  bbox_count st <= bbox_count st' /\
  polygon_count st <= polygon_count st' /\
  total_objects st <= total_objects st' /\
  total_objects st' - total_objects st <=
    (bbox_count st' - bbox_count st) + (polygon_count st' - polygon_count st).
Proof.
  cbv zeta. unfold verify_file.
  destruct (read_file label_file w) as [text|e]; [|lia].
  destruct (readlines text) as [|l0 ls] eqn:E; [lia|]. rewrite <- E. clear E.
  rewrite verify_lines_spec.
  pose proof (count_nonneg is_box (reached (readlines text))) as Hb.
  pose proof (count_nonneg is_polygon (reached (readlines text))) as Hp.
  destruct (_ && _); cbn [valid_files total_objects bbox_count polygon_count]; lia.
Qed.

(** X7. In the counts that [verify_fixed_format] prints for a split, the
    valid files are at most the label files, and the total of
    annotations is at most the boxes plus the polygons; none is
    negative. *)
Theorem verify_split_bounds (label_files : list string) (w : world) :
  let st := verify_split label_files w in
  0 <= valid_files st <= Z.of_nat (length label_files) /\
  0 <= total_objects st <= bbox_count st + polygon_count st /\
  0 <= bbox_count st /\ 0 <= polygon_count st.
Proof.
  cbv zeta. unfold verify_split.
  assert (H : forall l st0,
             let st := fold_left (fun st label_file => verify_file label_file w st) l st0 in
             valid_files st0 <= valid_files st <= valid_files st0 + Z.of_nat (length l) /\
             bbox_count st0 <= bbox_count st /\
             polygon_count st0 <= polygon_count st /\
             total_objects st0 <= total_objects st /\
             total_objects st - total_objects st0 <=
               (bbox_count st - bbox_count st0) + (polygon_count st - polygon_count st0)).
  { induction l as [|f l IH]; intros st0; cbv zeta; cbn [fold_left length]; [lia|].
    specialize (IH (verify_file f w st0)). cbv zeta in IH.
    pose proof (verify_file_step f w st0) as Hstep. cbv zeta in Hstep. lia. }
  specialize (H label_files (mkVcount 0 0 0 0)). cbv zeta in H.
  cbn [valid_files total_objects bbox_count polygon_count] in H. lia.
Qed.

(** ** The summary of [fix_all_labels] *)

Lemma incr_total_same key (stats : gmap string Z) :
  incr key stats !!! key = stats !!! key + 1.
Proof. unfold incr. apply lookup_total_insert_eq. Qed.

Lemma incr_total_other key key' (stats : gmap string Z) :
  key' <> key -> incr key' stats !!! key = stats !!! key.
Proof. intros H. unfold incr. apply lookup_total_insert_ne. exact H. Qed.

Lemma tally_one result (stats : gmap string Z) :
  exists key,
    (key = "fixed" \/ key = "already_correct" \/ key = "errors" \/ key = "empty") /\
    tally result stats = incr key stats.
Proof.
  destruct result as [[|] message]; cbn [tally].
  - destruct (contains "Already correct" message); eauto 6.
  - destruct (contains "Empty file" message); eauto 6.
Qed.

Lemma incr_stats_total key (stats : gmap string Z) :
  key = "fixed" \/ key = "already_correct" \/ key = "errors" \/ key = "empty" ->
  stats_total (incr key stats) = stats_total stats + 1 /\
  (forall k, stats !!! k <= incr key stats !!! k).
Proof.
  intros Hk. split.
  - unfold stats_total.
    destruct Hk as [->|[->|[->| ->]]];
      rewrite incr_total_same, !incr_total_other by discriminate; lia.
  - intros k. destruct (decide (key = k)) as [->|Hne].
    + rewrite incr_total_same. lia.
    + rewrite incr_total_other by exact Hne. lia.
Qed.

Lemma fix_files_total l : forall (stats : gmap string Z) w,
  stats_total (fst (fix_files l stats w)) = stats_total stats + Z.of_nat (length l) /\
  (forall k, stats !!! k <= fst (fix_files l stats w) !!! k).
Proof.
  induction l as [|f l IH]; intros stats w.
  - cbn [fix_files fst length]. split; [lia | intros k; lia].
  - cbn [fix_files]. destruct (fix_label_format f w) as [result w1].
    destruct (tally_one result stats) as (key & Hk & ->).
    destruct (incr_stats_total key stats Hk) as [Ht Hm].
    destruct (IH (incr key stats) w1) as [IH1 IH2].
    split; [rewrite IH1, Ht; cbn [length]; lia|].
    intros k. specialize (Hm k). specialize (IH2 k). lia.
Qed.

(** X8. Every label file that [fix_all_labels] visits is counted under
    exactly one of fixed, already correct, errors and empty: the four
    counters of the summary are not negative and add up to the number of
    label files. *)
Theorem summary_total (data_root : string) (w : world) :
  is_Some (dirs w !! (data_root +:+ "/labels")) ->
  exists stats,
    fst (fix_all_labels data_root w) = Some stats /\
    stats_total stats = Z.of_nat (length (label_files data_root w)) /\
    0 <= stats !!! "fixed" /\ 0 <= stats !!! "already_correct" /\
    0 <= stats !!! "errors" /\ 0 <= stats !!! "empty".
Proof.
  intros Hd. rewrite (fix_all_labels_eq data_root w Hd). cbn [fst].
  eexists. split; [reflexivity|].
  destruct (fix_files_total (label_files data_root w) stats0 w) as [Ht Hm].
  split; [rewrite Ht; reflexivity|].
  pose proof (Hm "fixed"). pose proof (Hm "already_correct").
  pose proof (Hm "errors"). pose proof (Hm "empty").
  change (stats0 !!! "fixed") with 0 in *.
  change (stats0 !!! "already_correct") with 0 in *.
  change (stats0 !!! "errors") with 0 in *.
  change (stats0 !!! "empty") with 0 in *.
  auto.
Qed.

Lemma summary_total_witness :
  is_Some (dirs w_rejected !! ("cityscapes" +:+ "/labels")) /\
  exists stats,
    fst (fix_all_labels "cityscapes" w_rejected) = Some stats /\
    stats_total stats = Z.of_nat (length (label_files "cityscapes" w_rejected)).
Proof.
  assert (H : is_Some (dirs w_rejected !! ("cityscapes" +:+ "/labels")))
    by (vm_compute; eauto).
  split; [exact H|].
  destruct (summary_total "cityscapes" w_rejected H) as (stats & H1 & H2 & _).
  exists stats. split; assumption.
Defined.

(** ** The fixed counter and the writes *)

Lemma uint_digits d : all_chars is_digit (NilEmpty.string_of_uint d) = true.
Proof. induction d; cbn [NilEmpty.string_of_uint all_chars]; try exact IHd; reflexivity. Qed.

Lemma str_of_int_digits z : 0 <= z -> all_chars is_digit (str_of_int z) = true.
Proof.
  intros Hz. unfold str_of_int. destruct z as [|p|p]; [reflexivity| |lia].
  cbn [Z.to_int NilZero.string_of_int]. unfold NilZero.string_of_uint.
  destruct (Pos.to_uint p) eqn:E; try reflexivity; rewrite <- E; apply uint_digits.
Qed.

Lemma contains_absent a sub s :
  all_chars (not_char a) s = true -> contains (String a sub) s = false.
Proof.
  induction s as [|c s IH]; [reflexivity|].
  cbn [all_chars]. unfold not_char at 1. intros H. apply andb_true_iff in H as [Hc Hs].
  apply negb_true_iff, Ascii.eqb_neq in Hc.
  rewrite contains_cons, prefix_first_ne by congruence.
  apply IH. exact Hs.
Qed.

Lemma fixed_message_not_correct n :
  contains "Already correct"
    ("Fixed " +:+ str_of_int (Z.of_nat n) +:+ " annotations") = false.
Proof.
  apply contains_absent. rewrite !all_chars_app.
  rewrite (all_chars_impl is_digit (not_char "A") (str_of_int (Z.of_nat n)));
    [reflexivity | | apply str_of_int_digits; lia].
  intros c. all_ascii c.
Qed.


Lemma settled_same label_file w g :
  settled (files w !! g) ->
  files (snd (fix_label_format label_file w)) !! g = files w !! g.
Proof.
  intros Hs. destruct (decide (g = label_file)) as [->|Hne].
  - rewrite (settled_unchanged label_file w Hs). reflexivity.
  - destruct (fix_label_format_frame label_file w) as [_ Hf]. apply Hf, Hne.
Qed.






(** ** The walk, run again *)







Lemma fix_files_frame l : forall (stats : gmap string Z) w g,
  ~ In g l -> files (snd (fix_files l stats w)) !! g = files w !! g.
Proof.
  induction l as [|f l IH]; intros stats w g Hg; [reflexivity|].
  cbn [fix_files]. destruct (fix_label_format_frame f w) as [_ Hf].
  destruct (fix_label_format f w) as [result w1]. cbn [snd] in Hf.
  rewrite IH by (intros H; apply Hg; right; exact H).
  apply Hf. intros ->. apply Hg. left. reflexivity.
Qed.

Lemma fix_files_keeps l : forall (stats : gmap string Z) w g,
  is_Some (files w !! g) -> is_Some (files (snd (fix_files l stats w)) !! g).
Proof.
  induction l as [|f l IH]; intros stats w g Hg; [exact Hg|].
  cbn [fix_files].
  pose proof (fix_label_format_keeps f w g Hg) as Hk.
  destruct (fix_label_format f w) as [result w1]. cbn [snd] in Hk.
  apply IH, Hk.
Qed.

(** X11. [fix_all_labels] changes no directory listing, changes no file
    outside the label files of the walk, and removes no file. *)
Theorem fix_all_labels_frame (data_root : string) (w : world) :
  let w' := snd (fix_all_labels data_root w) in
  dirs w' = dirs w /\
  (forall g, ~ In g (label_files data_root w) -> files w' !! g = files w !! g) /\
  (forall g, is_Some (files w !! g) -> is_Some (files w' !! g)).
Proof.
  cbv zeta.
  destruct (dirs w !! (data_root +:+ "/labels")) as [l|] eqn:Hd.
  - assert (Hs : is_Some (dirs w !! (data_root +:+ "/labels"))) by eauto.
    rewrite (fix_all_labels_eq data_root w Hs). cbn [snd].
    split; [apply fix_files_dirs|].
    split; [intros g; apply fix_files_frame | intros g; apply fix_files_keeps].
  - unfold fix_all_labels. rewrite Hd. cbn [snd]. auto.
Qed.

(** ** The annotation type of a file *)

Lemma readlines_nil text : readlines text = [] <-> text = EmptyString.
Proof.
  split; [|intros ->; reflexivity].
  destruct text as [|c r]; [reflexivity|]. cbn [readlines].
  destruct (Ascii.eqb c nl); [discriminate|].
  destruct (readlines r); discriminate.
Qed.

Lemma detect_file_total label_file w st :
  dcount_total (detect_file label_file w st) =
  dcount_total st + (if no_line w label_file then 0 else 1) /\
  bbox_files st <= bbox_files (detect_file label_file w st) /\
  polygon_files st <= polygon_files (detect_file label_file w st) /\
  mixed_files st <= mixed_files (detect_file label_file w st) /\
  invalid_files st <= invalid_files (detect_file label_file w st).
Proof.
  unfold detect_file, no_line, dcount_total.
  destruct (read_file label_file w) as [text|e];
    [|cbn [bbox_files polygon_files mixed_files invalid_files]; lia].
  destruct (readlines text) as [|l ls] eqn:E.
  - apply readlines_nil in E. subst text. lia.
  - assert (Hne : text <> EmptyString) by (intros ->; discriminate E).
    destruct text as [|c r]; [congruence|].
    destruct (fold_left scan_line (l :: ls) (false, false)) as [[|] [|]];
      cbn [andb bbox_files polygon_files mixed_files invalid_files]; lia.
Qed.

Lemma detect_files_total w l : forall st,
  let st' := fold_left (fun st label_file => detect_file label_file w st) l st in
  dcount_total st' =
    dcount_total st + Z.of_nat (length l) - count (no_line w) l /\
  bbox_files st <= bbox_files st' /\ polygon_files st <= polygon_files st' /\
  mixed_files st <= mixed_files st' /\ invalid_files st <= invalid_files st'.
Proof.
  induction l as [|f l IH]; intros st; cbv zeta.
  - cbn [fold_left length]. rewrite count_nil. lia.
  - cbn [fold_left length]. specialize (IH (detect_file f w st)). cbv zeta in IH.
    pose proof (detect_file_total f w st) as Hf.
    rewrite count_cons. destruct (no_line w f); lia.
Qed.

Lemma detect_walk data_root w ss : forall st,
  fold_left (detect_split (data_root +:+ "/labels") w) ss st =
  fold_left (fun st label_file => detect_file label_file w st)
    (flat_map (fun split => default [] (dirs w !! label_dir data_root split)) ss) st.
Proof.
  induction ss as [|s ss IH]; intros st; [reflexivity|].
  cbn [fold_left flat_map]. rewrite fold_left_app, IH.
  unfold detect_split. fold (label_dir data_root s).
  destruct (dirs w !! label_dir data_root s); reflexivity.
Qed.

(** X12. [detect_annotation_type] puts every label file of the walk
    that is unreadable or holds at least one line under exactly one of
    its four counts, and passes over the files without a line: the four
    counts are not negative and add up to the number of label files
    less the files of length zero. *)
Theorem detect_partition (data_root : string) (w : world) :
  is_Some (dirs w !! (data_root +:+ "/labels")) ->
  exists st r,
    detect_annotation_type data_root w = Some (st, r) /\
    dcount_total st =
      Z.of_nat (length (label_files data_root w))
      - count (no_line w) (label_files data_root w) /\
    0 <= bbox_files st /\ 0 <= polygon_files st /\
    0 <= mixed_files st /\ 0 <= invalid_files st.
Proof.
  intros [l Hl]. unfold detect_annotation_type. rewrite Hl.
  eexists. eexists. split; [reflexivity|].
  rewrite detect_walk. fold (label_files data_root w).
  pose proof (detect_files_total w (label_files data_root w) (mkDcount 0 0 0 0)) as H.
  cbv zeta in H. unfold dcount_total at 2 in H.
  cbn [bbox_files polygon_files mixed_files invalid_files] in H. lia.
Qed.

Lemma detect_partition_witness :
  is_Some (dirs w_rejected !! ("cityscapes" +:+ "/labels")) /\
  exists st r,
    detect_annotation_type "cityscapes" w_rejected = Some (st, r) /\
    dcount_total st = 1.
Proof.
  assert (H : is_Some (dirs w_rejected !! ("cityscapes" +:+ "/labels")))
    by (vm_compute; eauto).
  split; [exact H|].
  destruct (detect_partition "cityscapes" w_rejected H) as (st & r & H1 & H2 & _).
  exists st, r. split; [exact H1|]. rewrite H2. vm_compute. reflexivity.
Defined.

Lemma scan_line_eq flags line :
  scan_line flags line =
  (fst flags || five_tokens line, snd flags || polygon_tokens line).
Proof.
  destruct flags as [b p]. unfold scan_line, five_tokens, polygon_tokens.
  rewrite split_strip. cbn [fst snd].
  destruct (length (split line) =? 5)%nat eqn:H5.
  - rewrite (polygon_len_not_5 _ H5), !orb_true_r, orb_false_r. reflexivity.
  - destruct (is_polygon_len (length (split line)));
      rewrite ?orb_true_r, ?orb_false_r; reflexivity.
Qed.

Lemma scan_lines_eq lines : forall flags,
  fold_left scan_line lines flags =
  (fst flags || existsb five_tokens lines, snd flags || existsb polygon_tokens lines).
Proof.
  induction lines as [|l ls IH]; intros [b p].
  - cbn. rewrite !orb_false_r. reflexivity.
  - cbn [fold_left existsb]. rewrite IH, scan_line_eq. cbn [fst snd].
    rewrite !orb_assoc. reflexivity.
Qed.

Lemma passing_line_tokens line :
  is_bad line = false ->
  five_tokens line = is_box line /\ polygon_tokens line = is_polygon line.
Proof.
  unfold is_bad, is_box, is_polygon, five_tokens, polygon_tokens.
  rewrite check_line_eq.
  destruct (is_empty (strip line)) eqn:He.
  - apply is_empty_true, split_nil_strip in He. rewrite He. intros _. split; reflexivity.
  - destruct (length (split line) =? 5)%nat eqn:H5.
    + rewrite (polygon_len_not_5 _ H5).
      destruct (accept (split line)); [split; reflexivity | discriminate].
    + destruct (is_polygon_len (length (split line)));
        [destruct (accept (split line)); [split; reflexivity | discriminate] | discriminate].
Qed.

Lemma passing_lines_tokens lines :
  forallb (fun l => negb (is_bad l)) lines = true ->
  existsb five_tokens lines = (0 <? count is_box lines) /\
  existsb polygon_tokens lines = (0 <? count is_polygon lines).
Proof.
  induction lines as [|l ls IH]; [intros _; split; reflexivity|].
  cbn [forallb existsb]. intros H. apply andb_true_iff in H as [Hl Hls].
  apply negb_true_iff in Hl.
  destruct (passing_line_tokens l Hl) as [-> ->].
  destruct (IH Hls) as [-> ->]. rewrite !count_cons.
  pose proof (count_nonneg is_box ls). pose proof (count_nonneg is_polygon ls).
  split.
  - destruct (is_box l); cbn [orb]; [symmetry; apply Z.ltb_lt; lia | reflexivity].
  - destruct (is_polygon l); cbn [orb]; [symmetry; apply Z.ltb_lt; lia | reflexivity].
Qed.

Lemma all_lines_pass_iff lines :
  all_lines_pass lines <->
  forallb (fun l => negb (is_bad l)) lines = true /\
  (0 <? count is_box lines + count is_polygon lines) = true.
Proof.
  unfold all_lines_pass. split.
  - intros [Hall Hex].
    assert (Hf : forallb (fun l => negb (is_bad l)) lines = true).
    { apply forallb_forall. intros l Hl. apply negb_true_iff, not_bad_iff, Hall, Hl. }
    split; [exact Hf | apply objects_positive; assumption].
  - intros [Hf Hpos]. split; [|apply objects_positive; assumption].
    intros l Hl. rewrite forallb_forall in Hf.
    apply not_bad_iff, negb_true_iff, Hf, Hl.
Qed.

(** X13. A file that [verify_fixed_format] finds valid is never counted
    as invalid by [detect_annotation_type]: it is a box file when it has
    no polygon line, a polygon file when it has no box line, and a mixed
    file otherwise. *)
Theorem valid_file_type (label_file : string) (w : world) (text : string)
    (st : dcount) :
  read_file label_file w = Text text ->
  all_lines_pass (readlines text) ->
  let lines := readlines text in
  let st' := detect_file label_file w st in
  invalid_files st' = invalid_files st /\
  dcount_total st' = dcount_total st + 1 /\
  (count is_polygon lines = 0 -> bbox_files st' = bbox_files st + 1) /\
  (count is_box lines = 0 -> polygon_files st' = polygon_files st + 1) /\
  (0 < count is_box lines -> 0 < count is_polygon lines ->
     mixed_files st' = mixed_files st + 1).
Proof.
  intros Hr Hpass lines st'.
  apply all_lines_pass_iff in Hpass as [Hgood Hpos]. fold lines in Hgood, Hpos.
  destruct (passing_lines_tokens lines Hgood) as [Hb Hp].
  pose proof (count_nonneg is_box lines) as Hbn.
  pose proof (count_nonneg is_polygon lines) as Hpn.
  apply Z.ltb_lt in Hpos.
  unfold st', detect_file, dcount_total. rewrite Hr. fold lines.
  destruct lines as [|l0 ls] eqn:E.
  { rewrite !count_nil in Hpos. lia. }
  rewrite <- E in *. rewrite scan_lines_eq. cbn [fst snd orb]. rewrite Hb, Hp.
  destruct (Z.ltb_spec 0 (count is_box lines)), (Z.ltb_spec 0 (count is_polygon lines));
    cbn [andb bbox_files polygon_files mixed_files invalid_files];
    repeat split; intros; lia.
Qed.

Lemma valid_file_type_witness :
  read_file "a.txt" (w_one ("7 0.5 0.25 1 0" +:+ NL)) = Text ("7 0.5 0.25 1 0" +:+ NL) /\
  all_lines_pass (readlines ("7 0.5 0.25 1 0" +:+ NL)) /\
  invalid_files (detect_file "a.txt" (w_one ("7 0.5 0.25 1 0" +:+ NL)) (mkDcount 0 0 0 0)) = 0.
Proof.
  assert (H : all_lines_pass (readlines ("7 0.5 0.25 1 0" +:+ NL))).
  { apply all_lines_pass_iff. vm_compute. auto. }
  split; [reflexivity|]. split; [exact H|].
  apply (valid_file_type "a.txt" (w_one ("7 0.5 0.25 1 0" +:+ NL))
           ("7 0.5 0.25 1 0" +:+ NL) (mkDcount 0 0 0 0) eq_refl H).
Defined.

(** ** The rule of [analyze_empty_labels] *)

Lemma out_of_unit_spec c :
  out_of_unit c = false <-> c = F_nan \/ in_unit c = true.
Proof.
  unfold out_of_unit, in_unit, float_lt_int, float_gt_int, int_le_float, float_le_int.
  destruct c as [|neg|neg m e].
  - split; auto.
  - destruct neg; cbn; split; try discriminate; intros [H|H]; discriminate H.
  - destruct (0 <=? e).
    + rewrite !Z.ltb_antisym.
      destruct (0 <=? signed neg m * 2 ^ e), (signed neg m * 2 ^ e <=? 1); cbn;
        split; auto; try discriminate; intros [H|H]; discriminate H.
    + rewrite !Z.ltb_antisym.
      destruct (0 * 2 ^ (- e) <=? signed neg m), (signed neg m <=? 1 * 2 ^ (- e)); cbn;
        split; auto; try discriminate; intros [H|H]; discriminate H.
Qed.

Lemma floats_unit_or_nan l :
  (exists cs, floats l = Some cs /\ existsb out_of_unit cs = false) <->
  Forall unit_or_nan l.
Proof.
  induction l as [|t l IH].
  - split; [constructor | exists []; auto].
  - split.
    + intros (cs & Hf & Hu). simpl in Hf.
      destruct (py_float t) as [c|] eqn:Hc; [|discriminate].
      destruct (floats l) as [cs'|] eqn:Hl; [|discriminate].
      injection Hf as <-. cbn [existsb] in Hu. apply orb_false_iff in Hu as [Hcu Hcs].
      constructor.
      * exists c. split; [exact Hc | apply out_of_unit_spec; exact Hcu].
      * apply IH. eauto.
    + intros H. inversion H as [|? ? (c & Hc & Hcu) Hl]; subst.
      apply IH in Hl as (cs & Hcs & Hu).
      exists (c :: cs). simpl. rewrite Hc, Hcs. split; [reflexivity|].
      apply out_of_unit_spec in Hcu. rewrite Hcu, Hu. reflexivity.
Qed.

Lemma analyze_parts_spec parts :
  analyze_parts parts = true <->
  recognized (length parts) = true /\
  class_token (hd EmptyString parts) /\ Forall unit_or_nan (tl parts).
Proof.
  rewrite <- floats_unit_or_nan. unfold analyze_parts, recognized, class_token.
  assert (Hcore :
    match py_int (hd EmptyString parts) with
    | None => false
    | Some class_id =>
        match floats (tl parts) with
        | None => false
        | Some coords =>
            if (class_id <? 0) || (40 <=? class_id) then false
            else if existsb out_of_unit coords then false else true
        end
    end = true <->
    (exists class_id, py_int (hd EmptyString parts) = Some class_id /\ 0 <= class_id <= 39) /\
    (exists cs, floats (tl parts) = Some cs /\ existsb out_of_unit cs = false)).
  { destruct (py_int (hd EmptyString parts)) as [class_id|];
      [|split; [discriminate | intros [(? & H & _) _]; discriminate H]].
    destruct (floats (tl parts)) as [coords|];
      [|split; [discriminate | intros [_ (? & H & _)]; discriminate H]].
    destruct (Z.ltb_spec class_id 0) as [Hlo|Hlo], (Z.leb_spec 40 class_id) as [Hhi|Hhi];
      cbn [orb];
      try (split; [discriminate | intros [(? & [= <-] & ?) _]; lia]).
    destruct (existsb out_of_unit coords) eqn:E.
    - split; [discriminate | intros [_ (? & [= <-] & Hx)]; congruence].
    - split; [|reflexivity]. intros _. split; [exists class_id; split; [reflexivity | lia]|].
      exists coords. auto. }
  destruct (length parts =? 5)%nat; cbn [orb].
  - rewrite Hcore. tauto.
  - destruct (is_polygon_len (length parts)).
    + rewrite Hcore. tauto.
    + split; [discriminate | intros [H _]; discriminate H].
Qed.

Lemma unit_coord_or_nan t : unit_coord t -> unit_or_nan t.
Proof.
  intros (c & Hc & H0 & H1). exists c. split; [exact Hc|]. right.
  unfold in_unit. rewrite H0, H1. reflexivity.
Qed.

Lemma fix_accept_analyze line :
  is_Some (fix_line line) -> analyze_parts (split (strip line)) = true.
Proof.
  rewrite split_strip, fix_line_eq. intros Hs. apply analyze_parts_spec.
  destruct (recognized (length (split line))); [|destruct Hs; discriminate].
  apply accept_Some_iff in Hs as [Hc Hu]. split; [reflexivity|]. split; [exact Hc|].
  eapply Forall_impl; [exact Hu | exact unit_coord_or_nan].
Qed.

(** X14. The line rule of [analyze_empty_labels] is the rule of the
    repair except for NaN: it passes a line with content exactly when
    the number of tokens is 5 or odd and at least 7, the first token
    reads as an integer in [0, 39] and every other token reads as a
    float that lies in [0, 1] or is a NaN.  So every line the repair
    accepts passes, and a line that passes without a NaN coordinate is
    accepted by the repair. *)
Theorem analyze_rule (line : string) :
  let parts := split (strip line) in
  (analyze_parts parts = true <->
     recognized (length parts) = true /\
     class_token (hd EmptyString parts) /\ Forall unit_or_nan (tl parts)) /\
  (is_Some (fix_line line) -> analyze_parts parts = true) /\
  (analyze_parts parts = true ->
   (forall t, In t (tl parts) -> py_float t <> Some F_nan) ->
   is_Some (fix_line line)) /\
  (analyze_parts (split "1 nan 0.5 0.5 0.5") = true /\
   fix_line "1 nan 0.5 0.5 0.5" = None /\ check_line "1 nan 0.5 0.5 0.5" = VBad).
Proof.
  cbv zeta. rewrite split_strip.
  split; [apply analyze_parts_spec|]. split; [|split].
  - intros Hs. rewrite <- split_strip. apply fix_accept_analyze. exact Hs.
  - intros Ha Hnan. apply analyze_parts_spec in Ha as (Hr & Hc & Hu).
    rewrite fix_line_eq, Hr. apply accept_Some_iff. split; [exact Hc|].
    rewrite List.Forall_forall in Hu |- *. intros t Ht.
    destruct (Hu t Ht) as (c & Hpc & [->|Hin]); [exfalso; apply (Hnan t Ht Hpc)|].
    exists c. unfold in_unit in Hin. apply andb_true_iff in Hin. tauto.
  - vm_compute. auto.
Qed.

(** ** The lists and the result of [analyze_empty_labels] *)

Lemma analyze_split_acc w l : forall e v c,
  fold_left
    (fun '(empty_files, valid_labels, corrupted_files) label_file =>
       match analyze_file label_file w with
       | LabelEmpty => (empty_files ++ [label_file], valid_labels, corrupted_files)
       | LabelValid => (empty_files, valid_labels ++ [label_file], corrupted_files)
       | LabelCorrupted => (empty_files, valid_labels, corrupted_files ++ [label_file])
       end) l (e, v, c) =
  (e ++ List.filter (in_state LabelEmpty w) l,
   v ++ List.filter (in_state LabelValid w) l,
   c ++ List.filter (in_state LabelCorrupted w) l).
Proof.
  induction l as [|f l IH]; intros e v c.
  - cbn. rewrite !List.app_nil_r. reflexivity.
  - cbn [fold_left List.filter].
    assert (H3 : in_state LabelEmpty w f =
                   match analyze_file f w with LabelEmpty => true | _ => false end /\
                 in_state LabelValid w f =
                   match analyze_file f w with LabelValid => true | _ => false end /\
                 in_state LabelCorrupted w f =
                   match analyze_file f w with LabelCorrupted => true | _ => false end)
      by (unfold in_state; destruct (analyze_file f w); auto).
    destruct H3 as (-> & -> & ->).
    destruct (analyze_file f w); rewrite IH, <- ?List.app_assoc; reflexivity.
Qed.

Lemma analyze_split_eq l w :
  analyze_split l w =
  (List.filter (in_state LabelEmpty w) l,
   List.filter (in_state LabelValid w) l,
   List.filter (in_state LabelCorrupted w) l).
Proof. unfold analyze_split. rewrite analyze_split_acc. reflexivity. Qed.

Lemma tuple3_eq (a a' b b' c c' : Z) :
  a = a' -> b = b' -> c = c' -> (a, b, c) = (a', b', c').
Proof. congruence. Qed.

Lemma analyze_walk data_root w ss : forall te tv tc,
  fold_left (analyze_totals (data_root +:+ "/labels") w) ss (te, tv, tc) =
  let l := flat_map (fun split => default [] (dirs w !! label_dir data_root split)) ss in
  (te + count (in_state LabelEmpty w) l,
   tv + count (in_state LabelValid w) l,
   tc + count (in_state LabelCorrupted w) l).
Proof.
  induction ss as [|s ss IH]; intros te tv tc; cbv zeta.
  - cbn [fold_left flat_map]. rewrite !count_nil, !Z.add_0_r. reflexivity.
  - cbn [fold_left flat_map]. unfold analyze_totals at 2. fold (label_dir data_root s).
    unfold count in *. rewrite !List.filter_app, !length_app, !Nat2Z.inj_add.
    destruct (dirs w !! label_dir data_root s) as [l|]; cbn [default id].
    + rewrite analyze_split_eq, IH. cbv zeta. apply tuple3_eq; lia.
    + rewrite IH. cbv zeta. cbn [List.filter length]. apply tuple3_eq; lia.
Qed.

Lemma count_pos_iff p l : 0 < count p l <-> exists x, In x l /\ p x = true.
Proof.
  unfold count. induction l as [|a l IH]; cbn [List.filter].
  - cbn. split; [lia | intros (? & [] & _)].
  - destruct (p a) eqn:E; cbn [length].
    + split; [intros _; exists a; split; [left; reflexivity | exact E] | lia].
    + rewrite IH. split.
      * intros (x & Hx & Hp). exists x. split; [right; exact Hx | exact Hp].
      * intros (x & [<-|Hx] & Hp); [congruence | eauto].
Qed.

(** X15. [analyze_empty_labels] lists the label files of a split by
    their state, in the order of the directory, and it returns [True]
    exactly when the labels and the images directory both exist and some
    label file of the walk is empty, corrupted or unreadable; with a
    directory missing it returns [False]. *)
Theorem analyze_result (data_root : string) (w : world) :
  (forall l,
     analyze_split l w =
       (List.filter (in_state LabelEmpty w) l,
        List.filter (in_state LabelValid w) l,
        List.filter (in_state LabelCorrupted w) l)) /\
  (analyze_empty_labels data_root w = true <->
     is_Some (dirs w !! (data_root +:+ "/labels")) /\
     is_Some (dirs w !! (data_root +:+ "/images")) /\
     exists label_file,
       In label_file (label_files data_root w) /\
       analyze_file label_file w <> LabelValid).
Proof.
  split; [intros l; apply analyze_split_eq|].
  unfold analyze_empty_labels.
  destruct (dirs w !! (data_root +:+ "/labels")) as [l1|];
    [|split; [discriminate | intros [[? H] _]; discriminate H]].
  destruct (dirs w !! (data_root +:+ "/images")) as [l2|];
    [|split; [discriminate | intros [_ [[? H] _]]; discriminate H]].
  rewrite analyze_walk. cbv zeta. fold (label_files data_root w).
  rewrite !Z.add_0_l, orb_true_iff, !Z.ltb_lt, !count_pos_iff.
  split.
  - intros [(f & Hf & Hs)|(f & Hf & Hs)]; (split; [eauto|]; split; [eauto|]);
      exists f; (split; [exact Hf|]); unfold in_state in Hs;
      destruct (analyze_file f w); congruence.
  - intros (_ & _ & f & Hf & Hs).
    destruct (analyze_file f w) eqn:E; [left | congruence | right];
      exists f; (split; [exact Hf|]); unfold in_state; rewrite E; reflexivity.
Qed.

Lemma analyze_lines_stable ls :
  Forall stable_line ls -> analyze_lines ls = true.
Proof.
  induction 1 as [|l ls [[(_ & _ & Hne) _] Hf] _ IH]; [reflexivity|].
  cbn [analyze_lines]. apply is_empty_false in Hne.
  assert (Hs : strip l = l).
  { destruct (fix_line_written l l Hf) as [Ht _]. apply tight_strip. exact Ht. }
  rewrite Hs, Hne. rewrite <- Hs at 1.
  rewrite fix_accept_analyze by (rewrite Hf; eauto). exact IH.
Qed.

(** X16. [analyze_empty_labels] and [fix_label_format] agree on which
    readable files are empty, and a file that [fix_label_format] has
    just rewritten is a valid label file for [analyze_empty_labels]. *)
Theorem analyze_after_fix (label_file : string) (w : world) (raw : string) :
  read_file label_file w = Text raw ->
  (analyze_file label_file w = LabelEmpty <-> fix_content raw = EmptyFile) /\
  (forall fixed_lines,
     writable label_file w = true ->
     fix_content raw = Fixed fixed_lines ->
     analyze_file label_file (snd (fix_label_format label_file w)) = LabelValid).
Proof.
  intros Hr. split.
  - unfold analyze_file, fix_content. rewrite Hr.
    destruct (is_empty (strip raw)); [split; reflexivity|].
    split.
    + destruct (analyze_lines _); discriminate.
    + destruct (_ && _); [discriminate|].
      destruct (fix_lines _); discriminate.
  - intros fixed_lines Hw Hf.
    destruct (fix_content_Fixed raw fixed_lines Hf) as [Hs Hne].
    unfold fix_label_format. rewrite Hr, Hf, (write_file_ok _ _ _ Hw). cbn [snd].
    unfold analyze_file. rewrite read_written.
    pose proof (stable_written _ Hs) as Hwl.
    rewrite (strip_serialize _ Hwl Hne).
    destruct (written_join _ Hwl Hne) as ((_ & _ & Hn) & Hsp & _).
    apply is_empty_false in Hn. rewrite Hn, Hsp, (analyze_lines_stable _ Hs).
    reflexivity.
Qed.

Lemma analyze_after_fix_witness :
  read_file "a.txt" (w_one "7 0.5 0.25 1 0") = Text "7 0.5 0.25 1 0" /\
  analyze_file "a.txt" (snd (fix_label_format "a.txt" (w_one "7 0.5 0.25 1 0"))) =
    LabelValid.
Proof.
  split; [reflexivity|].
  apply (analyze_after_fix "a.txt" (w_one "7 0.5 0.25 1 0") "7 0.5 0.25 1 0" eq_refl)
    with (fixed_lines := ["7 0.500000 0.250000 1.000000 0.000000"]); reflexivity.
Defined.

Lemma value_nonneg_exp neg m e :
  0 <= e -> (float_value (F_fin neg m e) == inject_Z (signed neg m * 2 ^ e))%Q.
Proof.
  intros He. cbn [float_value].
  rewrite inject_Z_mult. apply Qmult_comp; [reflexivity|].
  rewrite Zpower_Qpower by exact He. reflexivity.
Qed.

Lemma value_neg_exp neg m k :
  0 <= k -> (float_value (F_fin neg m (- k)) == inject_Z (signed neg m) / inject_Z (2 ^ k))%Q.
Proof.
  intros Hk. cbn [float_value]. unfold Qdiv.
  apply Qmult_comp; [reflexivity|].
  rewrite Qpower_opp. rewrite Zpower_Qpower by exact Hk. reflexivity.
Qed.

(** |a/b - c/d| <= 1/10^6 from the integers. *)
Lemma ratio_close a b c d :
  0 < b -> 0 < d ->
  1000000 * Z.abs (a * d - c * b) <= b * d ->
  (Qabs (inject_Z a / inject_Z b - inject_Z c / inject_Z d) <= 1 # 1000000)%Q.
Proof.
  intros Hb Hd H.
  assert (E : (inject_Z a / inject_Z b - inject_Z c / inject_Z d ==
               (a * d - c * b) # (Z.to_pos (b * d)))%Q).
  { unfold Qeq, Qdiv, Qminus, Qplus, Qopp, Qmult, Qinv, inject_Z.
    destruct b as [|pb|pb]; try lia. destruct d as [|pd|pd]; try lia.
    cbn. rewrite ?Pos2Z.inj_mul, Z2Pos.id by lia. ring. }
  rewrite E. unfold Qabs, Qle. cbn [Qnum Qden].
  rewrite Z2Pos.id by nia. lia.
Qed.

Lemma value_ratio neg m e :
  (float_value (F_fin neg m e) ==
   inject_Z (signed neg m * 2 ^ Z.max e 0) / inject_Z (2 ^ Z.max (- e) 0))%Q.
Proof.
  destruct (Z.leb_spec 0 e) as [He|He].
  - rewrite value_nonneg_exp by exact He.
    rewrite (Z.max_l e 0) by lia. rewrite (Z.max_r (- e) 0) by lia.
    change (2 ^ 0) with 1. unfold Qeq, Qdiv, Qmult, Qinv, inject_Z. cbn [Qnum Qden].
    change (Z.pos (1 * 1)) with 1. rewrite !Z.mul_1_r. reflexivity.
  - replace e with (- - e) at 1 by lia.
    rewrite value_neg_exp by lia.
    rewrite (Z.max_r e 0) by lia. rewrite (Z.max_l (- e) 0) by lia.
    rewrite Z.mul_1_r. reflexivity.
Qed.

Lemma micro_close m e :
  let u := micro m e in
  let a := Z.of_N m * 2 ^ Z.max e 0 in
  let d := 2 ^ Z.max (- e) 0 in
  0 < d /\ 2 * Z.abs (u * d - a * 1000000) <= d.
Proof.
  cbv zeta. unfold micro.
  destruct (Z.leb_spec 0 e) as [He|He].
  - rewrite (Z.max_l e 0) by lia. rewrite (Z.max_r (- e) 0) by lia.
    change (2 ^ 0) with 1. set (X := Z.of_N m * 2 ^ e). lia.
  - rewrite (Z.max_r e 0) by lia. rewrite (Z.max_l (- e) 0) by lia.
    assert (Hp : 0 < 2 ^ (- e)) by (apply Z.pow_pos_nonneg; lia).
    split; [exact Hp|].
    destruct (rne_cases (Z.of_N m * 1000000) (2 ^ (- e)) Hp) as [_ Hb].
    change (2 ^ 0) with 1. lia.
Qed.

Lemma b64_round_close u :
  0 < u <= 1000000 ->
  exists m k,
    b64_round false u 1000000 = F_fin false m (- k) /\
    52 <= k /\ 2 * Z.abs (Z.of_N m * 1000000 - u * 2 ^ k) <= 1000000.
Proof.
  intros Hu. unfold b64_round.
  destruct (Z.eqb_spec u 0) as [->|Hne]; [lia|].
  pose proof (mag_le_1 u 1000000 ltac:(lia) ltac:(lia)) as Hg.
  set (e := Z.max (mag u 1000000 - 53) (-1074)).
  assert (He : -1074 <= e <= -52) by (unfold e; lia).
  destruct (Z.leb_spec 0 e) as [?|_]; [lia|].
  set (k := - e). assert (Hk : 52 <= k <= 1074) by (unfold k; lia).
  assert (Hp0 : 0 < 2 ^ k) by (apply Z.pow_pos_nonneg; lia).
  set (m := rne (u * 2 ^ k) 1000000).
  destruct (rne_cases (u * 2 ^ k) 1000000 ltac:(lia)) as [_ Hb]. fold m in Hb.
  assert (Hm0 : 0 <= m) by (apply rne_nonneg; nia).
  assert (Hm1 : m <= 2 ^ k) by (apply rne_le; nia).
  assert (Hlog : Z.log2 m <= k).
  { pose proof (Z.log2_le_mono m (2 ^ k) Hm1) as Hl.
    rewrite Z.log2_pow2 in Hl by lia. exact Hl. }
  destruct (Z.leb_spec 1024 (Z.log2 m + e)) as [?|_]; [unfold k in *; lia|].
  exists (Z.to_N m), k. rewrite Z2N.id by exact Hm0.
  split; [unfold k; rewrite Z.opp_involutive; reflexivity|].
  split; lia.
Qed.

Lemma close_from_ratios neg m e neg' m' e' :
  let a := signed neg m * 2 ^ Z.max e 0 in
  let d := 2 ^ Z.max (- e) 0 in
  let a' := signed neg' m' * 2 ^ Z.max e' 0 in
  let d' := 2 ^ Z.max (- e') 0 in
  1000000 * Z.abs (a' * d - a * d') <= d' * d ->
  within_millionth (F_fin neg m e) (F_fin neg' m' e').
Proof.
  cbv zeta. intros H. unfold within_millionth.
  rewrite (value_ratio neg m e), (value_ratio neg' m' e').
  apply ratio_close; [apply Z.pow_pos_nonneg; lia | apply Z.pow_pos_nonneg; lia | exact H].
Qed.

(** A coordinate that is printed with six decimals and read again has
    moved by a millionth at most. *)
Lemma format6_close x :
  in_unit x = true ->
  exists y, py_float (format6 x) = Some y /\ in_unit y = true /\ within_millionth x y.
Proof.
  intros H. destruct (in_unit_fin x H) as (neg & m & e & ->).
  rewrite (format6_unit _ _ _ H).
  destruct (in_unit_micro neg m e H) as [Hneg Hu].
  destruct neg.
  - rewrite (Hneg eq_refl), micro_zero.
    exists (F_fin true 0 0). split; [vm_compute; reflexivity|].
    split; [reflexivity|]. apply close_from_ratios. cbn [signed Z.of_N Z.opp Z.mul Z.sub Z.abs].
    assert (0 < 2 ^ Z.max (- e) 0) by (apply Z.pow_pos_nonneg; lia).
    change (2 ^ Z.max (- 0) 0) with 1. lia.
  - rewrite sapp_nil_l, (py_float_unit_str _ Hu).
    destruct (micro_close m e) as [Hd Hmc]. cbv zeta in Hmc.
    set (u := micro m e) in *. set (d := 2 ^ Z.max (- e) 0) in *.
    set (a := Z.of_N m * 2 ^ Z.max e 0) in *.
    destruct (Z.eq_dec u 0) as [Hu0|Hu0].
    + rewrite Hu0 in *. exists (F_fin false 0 0).
      split; [reflexivity|]. split; [reflexivity|].
      apply close_from_ratios. cbn [signed Z.of_N]. fold a d.
      change (2 ^ Z.max (- 0) 0) with 1. change (0 * 2 ^ Z.max 0 0) with 0. lia.
    + destruct (b64_round_close u ltac:(lia)) as (m' & k & Hy & Hk & Hb).
      destruct (b64_round_micro u Hu) as (m2 & e2 & Hy2 & H0 & H1 & _).
      rewrite Hy in Hy2. injection Hy2 as <- <-.
      exists (F_fin false m' (- k)).
      split; [rewrite Hy; reflexivity|].
      split; [unfold in_unit; rewrite H0, H1; reflexivity|].
      apply close_from_ratios. cbn [signed]. fold a d.
      rewrite (Z.max_r (- k) 0) by lia. rewrite (Z.max_l (- - k) 0) by lia.
      rewrite Z.opp_involutive. change (2 ^ 0) with 1.
      assert (Hp : 4503599627370496 <= 2 ^ k).
      { change 4503599627370496 with (2 ^ 52). apply Z.pow_le_mono_r; lia. }
      set (P := 2 ^ k) in *. set (M := Z.of_N m') in *.
      assert (E : 1000000 * (M * 1 * d - a * P) =
                  (M * 1000000 - u * P) * d + (u * d - a * 1000000) * P) by ring.
      assert (Hd' : 0 <= d) by lia. assert (HP : 0 <= P) by lia.
      nia.
Qed.

Lemma floats_format6_close coords :
  forallb in_unit coords = true ->
  exists ys, floats (map format6 coords) = Some ys /\
             forallb in_unit ys = true /\
             Forall2 within_millionth coords ys.
Proof.
  induction coords as [|c coords IH]; intros H.
  - exists []. split; [reflexivity|]. split; [reflexivity | constructor].
  - simpl in H. apply andb_true_iff in H as [Hc Hcs].
    destruct (format6_close c Hc) as (y & Hy & Hyu & Hyc).
    destruct (IH Hcs) as (ys & Hys & Hysu & Hysc).
    exists (y :: ys). simpl. rewrite Hy, Hys, Hyu, Hysu.
    split; [reflexivity|]. split; [reflexivity|]. constructor; assumption.
Qed.

(** X17. The line that the repair writes for an accepted line reads
    back as the same annotation up to printing: the same class id, the
    same number of coordinates, each again in [0, 1] and within a
    millionth of the coordinate that was read from the input. *)
Theorem repair_precision (line out : string) :
  fix_line line = Some out ->
  exists (class_id : Z) (coords coords' : list pyfloat),
    py_int (hd EmptyString (split line)) = Some class_id /\
    floats (tl (split line)) = Some coords /\
    forallb in_unit coords = true /\
    py_int (hd EmptyString (split out)) = Some class_id /\
    floats (tl (split out)) = Some coords' /\
    forallb in_unit coords' = true /\
    Forall2 within_millionth coords coords'.
Proof.
  rewrite fix_line_eq.
  destruct (recognized (length (split line))); [|discriminate].
  intros Ha. destruct (accept_inv _ _ Ha) as (class_id & coords & Hi & Hf & Hc & Hu & ->).
  destruct (accept_canonical class_id coords Hc Hu) as [Htok _].
  destruct (floats_format6_close coords Hu) as (ys & Hys & Hysu & Hclose).
  exists class_id, coords, ys.
  rewrite (split_join _ Htok). cbn [hd tl].
  destruct (class_id_facts _ Hc) as (Hp & _).
  auto 10.
Qed.

Lemma repair_precision_witness :
  fix_line "7 0.1234567 0.25 1 0" = Some "7 0.123457 0.250000 1.000000 0.000000" /\
  exists (class_id : Z) (coords coords' : list pyfloat),
    floats (tl (split "7 0.1234567 0.25 1 0")) = Some coords /\
    floats (tl (split "7 0.123457 0.250000 1.000000 0.000000")) = Some coords' /\
    Forall2 within_millionth coords coords'.
Proof.
  split; [reflexivity|].
  destruct (repair_precision "7 0.1234567 0.25 1 0"
              "7 0.123457 0.250000 1.000000 0.000000" eq_refl)
    as (class_id & coords & coords' & _ & H1 & _ & _ & H2 & _ & H3).
  exists class_id, coords, coords'. auto.
Defined.

(** ** What the walk writes *)

Lemma repaired_settled o : repaired o -> settled o.
Proof.
  intros (ls & Hs & Hne & ->) f. unfold rewritten.
  destruct (fix_content_serialize ls Hs Hne) as [E|E]; rewrite E;
    [intros H; discriminate H | intros H; exact H].
Qed.

Lemma repaired_kept g label_file w :
  repaired (files w !! g) ->
  repaired (files (snd (fix_label_format label_file w)) !! g).
Proof.
  intros Hg. rewrite settled_same by (apply repaired_settled; exact Hg). exact Hg.
Qed.

Lemma fix_label_format_write label_file w :
  journal (snd (fix_label_format label_file w)) = journal w \/
  exists text,
    journal (snd (fix_label_format label_file w)) = journal w ++ [(label_file, text)] /\
    repaired (files (snd (fix_label_format label_file w)) !! label_file).
Proof.
  unfold fix_label_format, read_file, write_file.
  destruct (files w !! label_file) as [[[raw|e0] [e1|] [e2|]]|] eqn:Hf; cbn [f_read];
    try (left; reflexivity);
    (destruct (fix_content raw) as [| |ls|] eqn:Hraw; try (left; reflexivity)).
  right. cbn [snd journal files]. eexists. split; [reflexivity|].
  rewrite lookup_insert_eq.
  destruct (fix_content_Fixed raw ls Hraw) as [Hs Hne]. exists ls. auto.
Qed.

Lemma fix_files_repaired_kept l : forall (stats : gmap string Z) w g,
  repaired (files w !! g) -> repaired (files (snd (fix_files l stats w)) !! g).
Proof.
  induction l as [|f l IH]; intros stats w g Hg; [exact Hg|].
  cbn [fix_files]. pose proof (repaired_kept g f w Hg) as H1.
  destruct (fix_label_format f w) as [result w1]. cbn [snd] in H1.
  apply IH. exact H1.
Qed.

Lemma fix_files_written l : forall (stats : gmap string Z) w,
  exists added,
    journal (snd (fix_files l stats w)) = journal w ++ added /\
    Forall (fun entry => repaired (files (snd (fix_files l stats w)) !! fst entry)) added.
Proof.
  induction l as [|f l IH]; intros stats w.
  - exists []. cbn [fix_files snd]. rewrite List.app_nil_r. split; [reflexivity | constructor].
  - cbn [fix_files].
    pose proof (fix_label_format_write f w) as Hstep.
    destruct (fix_label_format f w) as [result w1]. cbn [snd] in Hstep.
    destruct (IH (tally result stats) w1) as (added & Hj & Hin).
    destruct Hstep as [Hj1|(text & Hj1 & Hrep)].
    + exists added. rewrite Hj, Hj1. auto.
    + exists ((f, text) :: added). rewrite Hj, Hj1, <- List.app_assoc.
      split; [reflexivity|]. constructor; [|exact Hin].
      cbn [fst]. apply fix_files_repaired_kept. exact Hrep.
Qed.

(** X18. Every file that [fix_all_labels] has written passes
    [verify_fixed_format] when the walk is over: it counts as one valid
    file, whatever the run did to it later. *)
Theorem walk_writes_verify (data_root : string) (w : world) :
  let w' := snd (fix_all_labels data_root w) in
  exists added,
    journal w' = journal w ++ added /\
    forall label_file text st,
      In (label_file, text) added ->
      valid_files (verify_file label_file w' st) = valid_files st + 1 /\
      total_objects st < total_objects (verify_file label_file w' st).
Proof.
  cbv zeta.
  destruct (dirs w !! (data_root +:+ "/labels")) as [l|] eqn:Hd.
  - assert (Hs : is_Some (dirs w !! (data_root +:+ "/labels"))) by eauto.
    rewrite (fix_all_labels_eq data_root w Hs). cbn [snd].
    destruct (fix_files_written (label_files data_root w) stats0 w) as (added & Hj & Hin).
    exists added. split; [exact Hj|].
    intros label_file text st Hmem.
    rewrite List.Forall_forall in Hin. specialize (Hin _ Hmem). cbn [fst] in Hin.
    destruct Hin as (ls & Hstab & Hne & Hentry).
    set (w' := snd (fix_files (label_files data_root w) stats0 w)) in *.
    assert (Hr : read_file label_file w' = Text (serialize ls))
      by (unfold read_file; rewrite Hentry; reflexivity).
    destruct (verify_written_file label_file w' ls st Hr Hstab Hne) as (H1 & H2 & _).
    split; [exact H1|]. rewrite H2. destruct ls; [congruence | simpl; lia].
  - unfold fix_all_labels. rewrite Hd. cbn [snd]. exists [].
    rewrite List.app_nil_r. split; [reflexivity|]. intros ? ? ? [].
Qed.

(** ** All four counters *)

Lemma tally_counter label_file w (stats : gmap string Z) :
  quiet_errors label_file w = true ->
  tally (fst (fix_label_format label_file w)) stats =
  incr (counter_of w label_file) stats.
Proof.
  unfold quiet_errors, counter_of, fix_label_format, writable, write_file.
  intros Hq.
  destruct (read_file label_file w) as [raw|msg].
  - destruct (fix_content raw) as [| |fixed_lines|]; cbn [fst tally]; try reflexivity.
    destruct (files w !! label_file) as [[r [msg|] [msg'|]]|]; cbn [fst tally];
      first [ rewrite fixed_message_not_correct; reflexivity
            | apply negb_true_iff in Hq; rewrite contains_error_text, Hq; reflexivity ].
  - cbn [fst tally]. apply negb_true_iff in Hq.
    rewrite contains_error_text, Hq. reflexivity.
Qed.

Lemma same_file_same_counter g w w1 :
  files w1 !! g = files w !! g -> counter_of w1 g = counter_of w g.
Proof.
  intros H. unfold counter_of, writable, read_file. rewrite H. reflexivity.
Qed.

Lemma incr_lookup key k (stats : gmap string Z) :
  incr key stats !!! k = stats !!! k + (if String.eqb key k then 1 else 0).
Proof.
  destruct (String.eqb_spec key k) as [->|Hne].
  - apply incr_total_same.
  - rewrite incr_total_other by exact Hne. lia.
Qed.

Lemma fix_files_counters l : forall (stats : gmap string Z) w k,
  NoDup l ->
  forallb (fun f => quiet_errors f w) l = true ->
  fst (fix_files l stats w) !!! k = stats !!! k + count (tallied k w) l.
Proof.
  induction l as [|f l IH]; intros stats w k Hnd Hq.
  - cbn [fix_files fst]. rewrite count_nil. lia.
  - apply NoDup_cons in Hnd as [Hf Hnd].
    cbn [forallb] in Hq. apply andb_true_iff in Hq as [Hqf Hq].
    cbn [fix_files].
    pose proof (tally_counter f w stats Hqf) as Ht.
    destruct (fix_label_format_frame f w) as [_ Hframe].
    destruct (fix_label_format f w) as [result w1]. cbn [fst snd] in Ht, Hframe.
    assert (Hsame : forall g, In g l -> files w1 !! g = files w !! g).
    { intros g Hg. apply Hframe. intros ->. apply Hf, list_elem_of_In, Hg. }
    assert (Hq1 : forallb (fun f0 => quiet_errors f0 w1) l = true).
    { rewrite forallb_forall in Hq |- *. intros g Hg.
      destruct (same_file_same_verdict g w w1 (Hsame g Hg)) as [_ ->].
      apply Hq; exact Hg. }
    rewrite (IH (tally result stats) w1 k Hnd Hq1), Ht, incr_lookup, count_cons.
    assert (Hc : count (tallied k w1) l = count (tallied k w) l).
    { unfold count. f_equal. f_equal. apply List.filter_ext_in. intros g Hg.
      unfold tallied. rewrite (same_file_same_counter g w w1 (Hsame g Hg)). reflexivity. }
    rewrite Hc. unfold tallied at 2. lia.
Qed.

(** X19. When the label files of the walk are distinct and no
    exception message contains the words [Empty file], each counter of
    the summary is the number of label files of its kind, judged on the
    files as they were before the walk: fixed counts the files whose
    repair accepted a line and could be written, already correct those
    whose first line looked right, empty those without content. *)
Theorem summary_counters (data_root : string) (w : world) :
  is_Some (dirs w !! (data_root +:+ "/labels")) ->
  NoDup (label_files data_root w) ->
  forallb (fun f => quiet_errors f w) (label_files data_root w) = true ->
  exists stats,
    fst (fix_all_labels data_root w) = Some stats /\
    stats !!! "fixed" = count (tallied "fixed" w) (label_files data_root w) /\
    stats !!! "already_correct" =
      count (tallied "already_correct" w) (label_files data_root w) /\
    stats !!! "empty" = count (tallied "empty" w) (label_files data_root w).
Proof.
  intros Hd Hnd Hq. rewrite (fix_all_labels_eq data_root w Hd). cbn [fst].
  eexists. split; [reflexivity|].
  rewrite !(fix_files_counters _ stats0 w _ Hnd Hq).
  repeat split; reflexivity.
Qed.

Lemma summary_counters_witness :
  is_Some (dirs w_walk !! ("cityscapes" +:+ "/labels")) /\
  NoDup (label_files "cityscapes" w_walk) /\
  forallb (fun f => quiet_errors f w_walk) (label_files "cityscapes" w_walk) = true /\
  exists stats,
    fst (fix_all_labels "cityscapes" w_walk) = Some stats /\
    stats !!! "fixed" = 2 /\
    stats !!! "already_correct" = 1 /\
    stats !!! "empty" = 1.
Proof.
  assert (H1 : is_Some (dirs w_walk !! ("cityscapes" +:+ "/labels")))
    by (vm_compute; eauto).
  assert (H2 : NoDup (label_files "cityscapes" w_walk))
    by (apply (bool_decide_unpack _); vm_compute; exact I).
  assert (H3 : forallb (fun f => quiet_errors f w_walk)
                 (label_files "cityscapes" w_walk) = true)
    by (vm_compute; reflexivity).
  split; [exact H1|]. split; [exact H2|]. split; [exact H3|].
  destruct (summary_counters "cityscapes" w_walk H1 H2 H3) as (stats & Hs & Hf & Ha & He).
  exists stats. split; [exact Hs|].
  rewrite Hf, Ha, He. split; [|split]; vm_compute; reflexivity.
Defined.
